(** * olx.py: a shallow embedding of the OLX listing scraper

    The script drives a browser over the result pages of a search,
    reads six fields from every listing card, downloads the card's
    image (retrying a fixed number of times) and exports the records
    to a spreadsheet.

    Everything outside the script (the network, the pages served and
    whether they load, the file system's willingness to accept a write
    or a directory, Python's [int], the image decoder) is gathered in
    an immutable [World]; what the script changes (files, the browser's
    location, the console, the saved workbooks) lives in a [State] that
    is threaded through a small state-and-exception monad.  Strings are byte strings (UTF-8);
    [str.replace] and [str.split] on ASCII separators agree with
    Python's on such strings. *)

From Stdlib Require Import ZArith QArith Ascii String List Lia.
From stdpp Require Import base decidable option list gmap strings pretty.

Local Open Scope Z_scope.
Local Open Scope string_scope.
Local Open Scope list_scope.

(** ** Constants (olx.py, lines 14-17) *)

Definition SCROLL_PAUSE_TIME : Q := 3 # 10.
Definition RETRIES : nat := 5.
Definition DELAY : nat := 2.
Definition IMAGE_DIR : string := "images".

(** ** Data *)

Abbreviation bytes := (list Byte.byte).

(** The exceptions the script can meet.  All of them derive from
    Python's [Exception]; only [RequestException] is what
    [except requests.RequestException] catches. *)
Inductive exn :=
| RequestException
| OSError
| NoSuchElementException
| TimeoutException
| ValueError
| KeyError (key : string)
| EOFError
| WebDriverException
| IllegalCharacterError.

Definition is_RequestException (e : exn) : bool :=
  match e with RequestException => true | _ => false end.

Definition is_Exception (e : exn) : bool := true.

(** What [requests.get] gives back: a response, or a
    [requests.RequestException] (connection error, timeout, ...). *)
Inductive http_result :=
| Response (status_code : Z) (content : bytes)
| RequestError.

(** What [with open(path, 'wb') as h: h.write(content)] does: the
    whole content reaches the file; [open] itself fails with an
    [OSError] and nothing is touched; the file is opened (hence created
    or truncated) and the write fails after [written] bytes; or [open]
    refuses the path as such with a [ValueError] (a NUL character in
    it) and nothing is touched. *)
Inductive write_result :=
| WriteOk
| OpenFails
| WriteFails (written : nat)
| OpenRejects.

(** What [wb.save(filename)] does: the archive is written in full;
    the path is refused as such ([ValueError]); the target cannot be
    opened ([OSError], nothing is touched); or the target is opened
    (hence created or truncated) and writing the archive breaks off
    with an [OSError], the file holding [partial]. *)
Inductive save_result :=
| SaveOk (archive : bytes)
| SaveRejects
| SaveOpenFails
| SaveBreaksOff (partial : bytes).

(** A card of a result page: each field is what the corresponding
    [find_element(...)] yields, [None] when the element is missing
    (selenium raises [NoSuchElementException]). *)
Record Card := {
  h6 : option string;
  ad_price : option string;
  location_date : option string;
  img_src : option string;
  a_href : option string
}.

(** A page as served for a URL: its cards, the texts of its pagination
    items, and [document.body.scrollHeight] after a number of scrolls
    to the bottom. *)
Record Page := {
  cards : list Card;
  pagination : list string;
  scrollHeight : nat -> nat
}.

(** The worksheet of openpyxl, as far as the script uses it. *)
Record Picture := {
  ref : string;
  anchor : string;
  width : Z;
  height : Z
}.

Record Worksheet := {
  title : string;
  rows : list (list string);
  images : list Picture;
  row_dimensions : list (nat * Z);
  column_dimensions : list (string * Z)
}.

(** The world outside the script:
    - [http_get url n]: the answer to a GET of [url] when [n] requests
      have been made before it;
    - [file_write path content]: how writing [content] to [path] goes;
    - [web url]: the page the browser shows for [url];
    - [page_loads url]: whether [driver.get(url)] brings the page up;
    - [int text]: Python's [int(text)], [None] for a [ValueError];
    - [is_image path content]: whether Pillow can open the file
      [path] holding [content] and decode it;
    - [can_makedirs path]: whether the directory [path] can be made
      where no file is in its way;
    - [workbook_write filename ws]: how saving [ws] as [filename] goes;
    - [edge_starts]: whether [webdriver.Edge()] comes up. *)
Record World := {
  http_get : string -> nat -> http_result;
  file_write : string -> bytes -> write_result;
  web : string -> Page;
  page_loads : string -> bool;
  int : string -> option Z;
  is_image : string -> bytes -> bool;
  can_makedirs : string -> bool;
  workbook_write : string -> Worksheet -> save_result;
  edge_starts : bool
}.

(** A record of the result list: a Python dict, in insertion order. *)
Abbreviation dict := (list (string * string)).

Fixpoint getitem (d : dict) (key : string) : option string :=
  match d with
  | [] => None
  | (k, v) :: d' => if String.eqb k key then Some v else getitem d' key
  end.

Definition keys (d : dict) : list string := map fst d.

(** Console lines. *)
Inductive message :=
| FailedToDownload (url : string) (status : Z)
| ErrorDownloading (url : string) (e : exn)
| Retry (attempt retries : nat) (url : string)
| ErrorProcessingCard (e : exn)
| DataSavedTo (filename : string).

(** What a run does to the outside, in the order it happens.
    [Navigate] and [Makedirs] stand for the calls of [driver.get] and
    [os.makedirs], whether they succeed or raise; [WorkbookSaved] for
    a workbook written in full.  [CardEntered] and [DownloadReturned]
    are observation points only: the start of one iteration of the
    loop over cards, and the value [download_image] hands back inside
    [scrape_olx]. *)
Inductive event :=
| HttpGet (url : string)
| Sleep (seconds : Q)
| Print (line : message)
| FileOpened (path : string)
| FileWritten (path : string) (content : bytes)
| Navigate (url : string)
| ScrollIntoView (index : nat)
| ScrollToBottom
| Makedirs (path : string)
| Prompt (text : string)
| DriverStarted
| DriverQuit
| WorkbookSaved (filename : string)
| CardEntered
| DownloadReturned (ok : bool).

Record State := {
  files : gmap string bytes;
  requests : nat;
  location : string;
  scrolls : nat;
  stdin : list string;
  workbooks : gmap string Worksheet;
  trace : list event
}.

(** ** The monad: state, exceptions, and fuel for the one unbounded loop *)

Inductive outcome (A : Type) :=
| Done (a : A)
| Raised (e : exn)
| Hung.
Arguments Done {A} a.
Arguments Raised {A} e.
Arguments Hung {A}.

Definition M (A : Type) : Type := State -> outcome A * State.

Definition ret {A} (a : A) : M A := fun s => (Done a, s).

Definition bind {A B} (c : M A) (k : A -> M B) : M B :=
  fun s =>
    match c s with
    | (Done a, s') => k a s'
    | (Raised e, s') => (Raised e, s')
    | (Hung, s') => (Hung, s')
    end.

Definition raise {A} (e : exn) : M A := fun s => (Raised e, s).

Definition hang {A} : M A := fun s => (Hung, s).

(** [try: c except <catches> as e: handler e] *)
Definition try_except {A} (c : M A) (catches : exn -> bool) (handler : exn -> M A) : M A :=
  fun s =>
    match c s with
    | (Raised e, s') => if catches e then handler e s' else (Raised e, s')
    | r => r
    end.

(** [try: c finally: cleanup] *)
Definition try_finally {A} (c : M A) (cleanup : M unit) : M A :=
  fun s =>
    match c s with
    | (Hung, s') => (Hung, s')
    | (r, s') =>
        match cleanup s' with
        | (Done _, s'') => (r, s'')
        | (Raised e, s'') => (Raised e, s'')
        | (Hung, s'') => (Hung, s'')
        end
    end.

Declare Scope olx_scope.
Delimit Scope olx_scope with olx.
Notation "x <- c ;; k" := (bind c (fun x => k))
  (at level 100, c at next level, right associativity) : olx_scope.
Notation "c ;; k" := (bind c (fun _ => k))
  (at level 100, right associativity) : olx_scope.
Local Open Scope olx_scope.

(** A [for] loop whose body may [return]: [Some v] leaves the loop (and
    the function) with [v], [None] goes on with the next element. *)
Fixpoint for_each {A R} (xs : list A) (body : A -> M (option R)) : M (option R) :=
  match xs with
  | [] => ret None
  | x :: xs' =>
      r <- body x ;;
      match r with
      | Some v => ret (Some v)
      | None => for_each xs' body
      end
  end.

(** A [for] loop that updates a local variable. *)
Fixpoint for_acc {A S} (xs : list A) (acc : S) (body : A -> S -> M S) : M S :=
  match xs with
  | [] => ret acc
  | x :: xs' => acc' <- body x acc ;; for_acc xs' acc' body
  end.

(** ** State updates *)

Definition set_files (f : gmap string bytes) (s : State) : State :=
  {| files := f; requests := requests s; location := location s; scrolls := scrolls s;
     stdin := stdin s; workbooks := workbooks s; trace := trace s |}.

Definition set_requests (n : nat) (s : State) : State :=
  {| files := files s; requests := n; location := location s; scrolls := scrolls s;
     stdin := stdin s; workbooks := workbooks s; trace := trace s |}.

Definition set_location (url : string) (s : State) : State :=
  {| files := files s; requests := requests s; location := url; scrolls := 0%nat;
     stdin := stdin s; workbooks := workbooks s; trace := trace s |}.

Definition set_scrolls (n : nat) (s : State) : State :=
  {| files := files s; requests := requests s; location := location s; scrolls := n;
     stdin := stdin s; workbooks := workbooks s; trace := trace s |}.

Definition set_stdin (l : list string) (s : State) : State :=
  {| files := files s; requests := requests s; location := location s; scrolls := scrolls s;
     stdin := l; workbooks := workbooks s; trace := trace s |}.

Definition set_workbooks (b : gmap string Worksheet) (s : State) : State :=
  {| files := files s; requests := requests s; location := location s; scrolls := scrolls s;
     stdin := stdin s; workbooks := b; trace := trace s |}.

Definition log (e : event) (s : State) : State :=
  {| files := files s; requests := requests s; location := location s; scrolls := scrolls s;
     stdin := stdin s; workbooks := workbooks s; trace := trace s ++ [e] |}.

Definition emit (e : event) : M unit := fun s => (Done tt, log e s).

Definition print (line : message) : M unit := emit (Print line).

Definition sleep (seconds : Q) : M unit := emit (Sleep seconds).

(** ** What the script uses of Python's [str] and [os.path] *)

(** [s.replace(old, new)] for one-character [old] and [new]. *)
Fixpoint replace (old new : ascii) (s : string) : string :=
  match s with
  | EmptyString => EmptyString
  | String c s' => String (if Ascii.eqb c old then new else c) (replace old new s')
  end.

(** [s.split(sep)] for a non-empty [sep]: the occurrences of [sep] are
    taken from the left and do not overlap.  [skip] counts the
    characters of a separator still to be passed over, [cur] is the
    part read since the last separator. *)
Fixpoint split_from (sep : string) (skip : nat) (cur s : string) : list string :=
  match s with
  | EmptyString => [cur]
  | String c s' =>
      match skip with
      | S k => split_from sep k cur s'
      | O =>
          if String.prefix sep s
          then cur :: split_from sep (String.length sep - 1) EmptyString s'
          else split_from sep 0 (cur ++ String c EmptyString) s'
      end
  end.

Definition split (sep s : string) : list string := split_from sep 0 EmptyString s.

(** [s.lower()], on the ASCII letters. *)
Definition lower_char (c : ascii) : ascii :=
  let n := nat_of_ascii c in
  if ((65 <=? n) && (n <=? 90))%nat then ascii_of_nat (n + 32) else c.

Fixpoint lower (s : string) : string :=
  match s with
  | EmptyString => EmptyString
  | String c s' => String (lower_char c) (lower s')
  end.

(** [s[:n]] on a UTF-8 string: the first [n] code points, each with
    its continuation bytes (10xxxxxx). *)
Fixpoint take_chars (n : nat) (s : string) : string :=
  match s with
  | EmptyString => EmptyString
  | String c s' =>
      let k := nat_of_ascii c in
      if ((128 <=? k) && (k <? 192))%nat then String c (take_chars n s')
      else
        match n with
        | O => EmptyString
        | S n' => String c (take_chars n' s')
        end
  end.

(** [len(s)]: the number of code points of a UTF-8 string, that is of
    its bytes that are not continuation bytes (10xxxxxx). *)
Fixpoint len (s : string) : nat :=
  match s with
  | EmptyString => 0%nat
  | String c s' =>
      let n := nat_of_ascii c in
      ((if (128 <=? n) && (n <? 192) then 0 else 1) + len s')%nat
  end.

Definition endswith_sep (a : string) : bool :=
  match String.get (String.length a - 1) a with
  | Some c => Ascii.eqb c "/"
  | None => false
  end.

(** [os.path.join(a, p)] (posixpath): an absolute [p] discards [a]. *)
Definition path_join (a p : string) : string :=
  if String.prefix "/" p then p
  else if (String.eqb a "" || endswith_sep a)%bool then a ++ p
  else a ++ "/" ++ p.

(** ** download_image (olx.py, lines 48-62) *)

Section Downloader.

Context (w : World).

(** [requests.get(image_url, timeout=10)]: the answer is the world's
    for the request with this number. *)
Definition requests_get (url : string) : M (Z * bytes) :=
  fun s =>
    let s' := log (HttpGet url) (set_requests (S (requests s)) s) in
    match http_get w url (requests s) with
    | Response status body => (Done (status, body), s')
    | RequestError => (Raised RequestException, s')
    end.

(** [with open(filename, 'wb') as handler: handler.write(content)] *)
Definition write_binary (filename : string) (content : bytes) : M unit :=
  fun s =>
    match file_write w filename content with
    | WriteOk =>
        (Done tt, log (FileWritten filename content)
                      (log (FileOpened filename) (set_files (<[filename := content]> (files s)) s)))
    | OpenFails => (Raised OSError, s)
    | WriteFails n =>
        (Raised OSError,
         log (FileOpened filename) (set_files (<[filename := take n content]> (files s)) s))
    | OpenRejects => (Raised ValueError, s)
    end.

(** The body of the loop (lines 51-61): [Some True] stands for
    [return True], [None] for reaching the end of the body. *)
Definition download_attempt (image_url filename : string) (retries delay attempt : nat)
  : M (option bool) :=
  r <- try_except
         (response <- requests_get image_url ;;
          if (fst response =? 200)%Z then
            write_binary filename (snd response) ;;
            ret (Some true)
          else
            print (FailedToDownload image_url (fst response)) ;;
            ret None)
         is_RequestException
         (fun e => print (ErrorDownloading image_url e) ;; ret None) ;;
  match r with
  | Some v => ret (Some v)
  | None =>
      print (Retry (attempt + 1) retries image_url) ;;
      sleep (inject_Z (Z.of_nat delay)) ;;
      ret None
  end.

(** [retries] is a count and [delay] a number of seconds: the script
    only ever passes [RETRIES] and [DELAY]. *)
Definition download_image (image_url filename : string) (retries delay : nat) : M bool :=
  r <- for_each (seq 0 retries) (download_attempt image_url filename retries delay) ;;
  match r with
  | Some v => ret v
  | None => ret false
  end.

End Downloader.

(** ** The browser *)

Section Scraper.

Context (w : World).

(** [driver.get(url)]: the browser goes to the page, or the call
    raises [WebDriverException] (the address cannot be reached, the
    browser is gone). *)
Definition driver_get (url : string) : M unit :=
  fun s =>
    if page_loads w url
    then (Done tt, log (Navigate url) (set_location url s))
    else (Raised WebDriverException, log (Navigate url) s).

Definition page_now (s : State) : Page := web w (location s).

(** [WebDriverWait(driver, 10).until(EC.presence_of_all_elements_located(
    (By.CSS_SELECTOR, 'div[data-cy="l-card"]')))]: [TimeoutException]
    when no card shows up. *)
Definition wait_for_cards : M unit :=
  fun s =>
    match cards (page_now s) with
    | [] => (Raised TimeoutException, s)
    | _ :: _ => (Done tt, s)
    end.

(** [driver.find_elements(By.CSS_SELECTOR, 'div[data-cy="l-card"]')] *)
Definition find_cards : M (list Card) := fun s => (Done (cards (page_now s)), s).

(** [driver.find_elements(By.CSS_SELECTOR,
    'li[data-testid="pagination-list-item"]')], as the items' texts. *)
Definition find_pagination : M (list string) := fun s => (Done (pagination (page_now s)), s).

(** [driver.execute_script("return document.body.scrollHeight")] *)
Definition scroll_height : M nat :=
  fun s => (Done (scrollHeight (page_now s) (scrolls s)), s).

(** [driver.execute_script("window.scrollTo(0, document.body.scrollHeight);")] *)
Definition scroll_to_bottom : M unit :=
  fun s => (Done tt, log ScrollToBottom (set_scrolls (S (scrolls s)) s)).

(** [card.find_element(...)] followed by [.text] or [.get_attribute]. *)
Definition find_element (field : option string) : M string :=
  match field with
  | Some text => ret text
  | None => raise NoSuchElementException
  end.

(** ** slow_scroll_page (olx.py, lines 28-45) *)

(** The [while True] loop; [fuel] bounds the number of its rounds. *)
Fixpoint scroll_until_settled (fuel : nat) (scroll_pause : Q) (last_height : nat) : M unit :=
  match fuel with
  | O => hang
  | S fuel' =>
      scroll_to_bottom ;;
      sleep scroll_pause ;;
      new_height <- scroll_height ;;
      if (new_height =? last_height)%nat then ret tt
      else scroll_until_settled fuel' scroll_pause new_height
  end.

Definition enumerate {A} (l : list A) : list (nat * A) := combine (seq 0 (length l)) l.

(** The body of the loop over the cards (lines 34-37). *)
Definition bring_into_view (scroll_pause : Q) (ic : nat * Card) (_ : unit) : M unit :=
  emit (ScrollIntoView (fst ic)) ;;
  (if (fst ic mod 5 =? 0)%nat then sleep (2 # 10) else ret tt) ;;
  sleep scroll_pause.

Definition slow_scroll_page (fuel : nat) (scroll_pause : Q) : M unit :=
  last_height <- scroll_height ;;
  cards <- find_cards ;;
  for_acc (enumerate cards) tt (bring_into_view scroll_pause) ;;
  scroll_until_settled fuel scroll_pause last_height.

(** ** scrape_olx (olx.py, lines 65-109) *)

(** [location, timeposted = location_time if len(location_time) == 2
    else ("", "")] *)
Definition location_and_time (location_time : list string) : string * string :=
  match location_time with
  | [location; timeposted] => (location, timeposted)
  | _ => ("", "")
  end.

Definition img_filename_of (name : string) : string :=
  path_join IMAGE_DIR (replace " " "_" name ++ ".jpg").

(** The body of the loop over cards (lines 83-102); [data] is the list
    built so far. *)
Definition process_card (card : Card) (data : list dict) : M (list dict) :=
  emit CardEntered ;;
  try_except
    (name <- find_element (h6 card) ;;
     price <- find_element (ad_price card) ;;
     location_date_text <- find_element (location_date card) ;;
     let location_time := split " - " location_date_text in
     let location := fst (location_and_time location_time) in
     let timeposted := snd (location_and_time location_time) in
     image_url <- find_element (img_src card) ;;
     ad_url <- find_element (a_href card) ;;
     let img_filename := img_filename_of name in
     ok <- download_image w image_url img_filename RETRIES DELAY ;;
     emit (DownloadReturned ok) ;;
     if ok then
       ret (data ++ [[("Name", name);
                      ("Price", price);
                      ("Location", location);
                      ("Time Posted", timeposted);
                      ("Image File", img_filename);
                      ("Ad URL", ad_url)]])
     else ret data)
    is_Exception
    (fun e => print (ErrorProcessingCard e) ;; ret data).

(** [os.makedirs(path, exist_ok=True)]: [FileExistsError], an
    [OSError], when a regular file has that name; otherwise up to the
    file system. *)
Definition makedirs (path : string) : M unit :=
  fun s =>
    match files s !! path with
    | Some _ => (Raised OSError, log (Makedirs path) s)
    | None =>
        if can_makedirs w path
        then (Done tt, log (Makedirs path) s)
        else (Raised OSError, log (Makedirs path) s)
    end.

(** [int(pages[-1].text) if pages else 1] *)
Definition number_of_pages_of (pages : list string) : M Z :=
  match last pages with
  | Some text =>
      match int w text with
      | Some n => ret n
      | None => raise ValueError
      end
  | None => ret 1%Z
  end.

(** [range(1, n + 1)] *)
Definition range_from_1 (n : Z) : list Z := map Z.of_nat (seq 1 (Z.to_nat n)).

Definition next_page_url (websitelink : string) (page : Z) : string :=
  websitelink ++ "&page=" ++ pretty (page + 1)%Z.

(** The body of the loop over pages (lines 81-107). *)
Definition scrape_page (fuel : nat) (websitelink : string) (number_of_pages page : Z)
    (data : list dict) : M (list dict) :=
  cards <- find_cards ;;
  data <- for_acc cards data process_card ;;
  (if (page <? number_of_pages)%Z then
     driver_get (next_page_url websitelink page) ;;
     wait_for_cards ;;
     slow_scroll_page fuel SCROLL_PAUSE_TIME
   else ret tt) ;;
  ret data.

Definition scrape_olx (fuel : nat) (websitelink : string) : M (list dict) :=
  driver_get websitelink ;;
  wait_for_cards ;;
  slow_scroll_page fuel SCROLL_PAUSE_TIME ;;
  pages <- find_pagination ;;
  number_of_pages <- number_of_pages_of pages ;;
  makedirs IMAGE_DIR ;;
  for_acc (range_from_1 number_of_pages) []
    (scrape_page fuel websitelink number_of_pages).

End Scraper.

(** ** save_to_excel (olx.py, lines 112-133) *)

Section Exporter.

Context (w : World).

Definition headers : list string :=
  ["Name"; "Price"; "Location"; "Time Posted"; "Image"; "Ad URL"].

(** [entry[key]] *)
Definition item (entry : dict) (key : string) : M string :=
  match getitem entry key with
  | Some v => ret v
  | None => raise (KeyError key)
  end.

(** [Image(path)]: the file is opened and decoded; a missing file and
    one that is no image both end in an [OSError].  The picture's own
    size is left out: the script overwrites it at once. *)
Definition Image (path : string) : M Picture :=
  fun s =>
    match files s !! path with
    | Some content =>
        if is_image w path content
        then (Done {| ref := path; anchor := ""; width := 0; height := 0 |}, s)
        else (Raised OSError, s)
    | None => (Raised OSError, s)
    end.

(** openpyxl's [ILLEGAL_CHARACTERS_RE]: the control characters other
    than tab, line feed and carriage return. *)
Definition illegal (c : ascii) : bool :=
  let k := nat_of_ascii c in
  ((k <=? 8) || ((11 <=? k) && (k <=? 12)) || ((14 <=? k) && (k <=? 31)))%nat.

Fixpoint has_illegal (s : string) : bool :=
  match s with
  | EmptyString => false
  | String c s' => (illegal c || has_illegal s')%bool
  end.

(** What a cell keeps of its text: [value[:32767]]. *)
Definition MAX_CELL_CHARS : nat := Z.to_nat 32767.

Definition cell_text (value : string) : string := take_chars MAX_CELL_CHARS value.

(** Whether [Cell.check_string] accepts the text: it cuts it first and
    then looks for illegal characters. *)
Definition legal (value : string) : bool := negb (has_illegal (cell_text value)).

(** [ws.append(row)]: every value is bound to a cell of a new row;
    [IllegalCharacterError] when one of them is refused. *)
Definition ws_append (row : list string) (ws : Worksheet) : M Worksheet :=
  if forallb legal row
  then ret {| title := title ws; rows := rows ws ++ [map cell_text row]; images := images ws;
              row_dimensions := row_dimensions ws; column_dimensions := column_dimensions ws |}
  else raise IllegalCharacterError.

(** [ws.max_row] *)
Definition max_row (ws : Worksheet) : nat := length (rows ws).

(** [ws.add_image(img, anchor)] *)
Definition add_image (img : Picture) (cell : string) (ws : Worksheet) : Worksheet :=
  {| title := title ws; rows := rows ws;
     images := images ws ++ [{| ref := ref img; anchor := cell;
                                width := width img; height := height img |}];
     row_dimensions := row_dimensions ws; column_dimensions := column_dimensions ws |}.

(** [ws.row_dimensions[row].height = h] *)
Definition set_row_height (row : nat) (h : Z) (ws : Worksheet) : Worksheet :=
  {| title := title ws; rows := rows ws; images := images ws;
     row_dimensions := row_dimensions ws ++ [(row, h)];
     column_dimensions := column_dimensions ws |}.

Definition set_column_dimensions (dims : list (string * Z)) (ws : Worksheet) : Worksheet :=
  {| title := title ws; rows := rows ws; images := images ws;
     row_dimensions := row_dimensions ws; column_dimensions := dims |}.

Definition column_letters : list string := ["A"; "B"; "C"; "D"; "E"; "F"].

(** [max((len(str(cell.value)) for cell in col), default=0) + 2] for
    the column with index [j]. *)
Definition column_width (ws : Worksheet) (j : nat) : Z :=
  Z.of_nat (foldr Nat.max 0%nat (map (fun row => len (nth j row "")) (rows ws)) + 2).

(** The body of the loop over entries (lines 121-126). *)
Definition export_entry (entry : dict) (ws : Worksheet) : M Worksheet :=
  name <- item entry "Name" ;;
  price <- item entry "Price" ;;
  location <- item entry "Location" ;;
  timeposted <- item entry "Time Posted" ;;
  ad_url <- item entry "Ad URL" ;;
  ws <- ws_append [name; price; location; timeposted; ""; ad_url] ws ;;
  image_file <- item entry "Image File" ;;
  img <- Image image_file ;;
  let img := {| ref := ref img; anchor := anchor img; width := 215; height := 152 |} in
  let ws := add_image img ("E" ++ pretty (max_row ws)) ws in
  ret (set_row_height (max_row ws) (height img) ws).

(** [wb.save(filename)]: the target is opened for writing and the
    archive written to it; nothing removes what a save that breaks off
    has left.  [workbooks] keeps the sheet of a workbook written in
    full under its file name. *)
Definition wb_save (ws : Worksheet) (filename : string) : M unit :=
  fun s =>
    match workbook_write w filename ws with
    | SaveOk archive =>
        (Done tt,
         log (WorkbookSaved filename)
           (set_workbooks (<[filename := ws]> (workbooks s))
              (set_files (<[filename := archive]> (files s)) s)))
    | SaveRejects => (Raised ValueError, s)
    | SaveOpenFails => (Raised OSError, s)
    | SaveBreaksOff partial =>
        (Raised OSError,
         log (FileOpened filename)
           (set_workbooks (delete filename (workbooks s))
              (set_files (<[filename := partial]> (files s)) s)))
    end.

Definition save_to_excel (data : list dict) (filename : string) : M unit :=
  let ws := {| title := "Ad Data"; rows := []; images := [];
               row_dimensions := []; column_dimensions := [] |} in
  ws <- ws_append headers ws ;;
  ws <- for_acc data ws export_entry ;;
  let ws := set_column_dimensions
              (map (fun jc => (snd jc, column_width ws (fst jc))) (enumerate column_letters)) ws in
  wb_save ws filename ;;
  print (DataSavedTo filename).

(** ** get_user_input and main (olx.py, lines 20-25 and 136-143) *)

(** [input(prompt)] *)
Definition input (prompt : string) : M string :=
  fun s =>
    match stdin s with
    | [] => (Raised EOFError, log (Prompt prompt) s)
    | line :: rest => (Done line, log (Prompt prompt) (set_stdin rest s))
    end.

Definition get_user_input : M string :=
  phrase <- input "Enter search phrase and press 'Enter': " ;;
  let searched_phrase := ("q-" ++ phrase)%string in
  answer <- input "Specify city? Enter 'Y' or 'N': " ;;
  let city_search := lower answer in
  searched_city <- (if String.eqb city_search "y"
                    then input "Enter city name (optional): "
                    else ret "") ;;
  ret ("https://www.olx.ua/uk/list/" ++ searched_city ++ "/" ++ searched_phrase ++ "/")%string.

(** [webdriver.Edge()] *)
Definition webdriver_Edge : M unit :=
  if edge_starts w then emit DriverStarted else raise WebDriverException.

(** [driver.quit()] *)
Definition driver_quit : M unit := emit DriverQuit.

Definition main (fuel : nat) : M unit :=
  websitelink <- get_user_input ;;
  webdriver_Edge ;;
  try_finally
    (data <- scrape_olx w fuel websitelink ;;
     save_to_excel data "ad_data_with_images.xlsx")
    driver_quit.

End Exporter.

(** * Specification vocabulary *)

(** The state [s] after [n] more requests, with files [f] and the
    events [t] added to the trace. *)
Definition advance (s : State) (f : gmap string bytes) (n : nat) (t : list event) : State :=
  {| files := f; requests := requests s + n; location := location s; scrolls := scrolls s;
     stdin := stdin s; workbooks := workbooks s; trace := trace s ++ t |}.

(** An answer that makes [download_image] try again. *)
Definition failed (r : http_result) : Prop :=
  match r with
  | Response status _ => status <> 200%Z
  | RequestError => True
  end.

Definition is_HttpGet (e : event) : bool :=
  match e with HttpGet _ => true | _ => false end.

Definition is_Sleep (e : event) : bool :=
  match e with Sleep _ => true | _ => false end.

Definition touches_file (e : event) : bool :=
  match e with FileOpened _ | FileWritten _ _ => true | _ => false end.

Section DownloadRuns.

Context (w : World) (image_url filename : string) (retries delay : nat).

Definition complaint (r : http_result) : message :=
  match r with
  | Response status _ => FailedToDownload image_url status
  | RequestError => ErrorDownloading image_url RequestException
  end.

(** The events of one failed attempt: the request, the complaint, the
    retry line, the pause. *)
Definition failed_attempt (req attempt : nat) : list event :=
  [HttpGet image_url;
   Print (complaint (http_get w image_url req));
   Print (Retry (attempt + 1) retries image_url);
   Sleep (inject_Z (Z.of_nat delay))].

Fixpoint failed_attempts (req attempt n : nat) : list event :=
  match n with
  | O => []
  | S n' => failed_attempt req attempt ++ failed_attempts (S req) (S attempt) n'
  end.

(** The five ways [n] attempts, numbered from [a], can end. *)
Inductive attempts_run (a n : nat) (s : State) : outcome bool -> State -> Prop :=
| run_exhausted :
    (forall k, (k < n)%nat -> failed (http_get w image_url (requests s + k))) ->
    attempts_run a n s (Done false)
      (advance s (files s) n (failed_attempts (requests s) a n))
| run_downloaded m body :
    (m < n)%nat ->
    (forall k, (k < m)%nat -> failed (http_get w image_url (requests s + k))) ->
    http_get w image_url (requests s + m) = Response 200 body ->
    file_write w filename body = WriteOk ->
    attempts_run a n s (Done true)
      (advance s (<[filename := body]> (files s)) (S m)
         (failed_attempts (requests s) a m
          ++ [HttpGet image_url; FileOpened filename; FileWritten filename body]))
| run_open_failed m body :
    (m < n)%nat ->
    (forall k, (k < m)%nat -> failed (http_get w image_url (requests s + k))) ->
    http_get w image_url (requests s + m) = Response 200 body ->
    file_write w filename body = OpenFails ->
    attempts_run a n s (Raised OSError)
      (advance s (files s) (S m)
         (failed_attempts (requests s) a m ++ [HttpGet image_url]))
| run_write_failed m body written :
    (m < n)%nat ->
    (forall k, (k < m)%nat -> failed (http_get w image_url (requests s + k))) ->
    http_get w image_url (requests s + m) = Response 200 body ->
    file_write w filename body = WriteFails written ->
    attempts_run a n s (Raised OSError)
      (advance s (<[filename := take written body]> (files s)) (S m)
         (failed_attempts (requests s) a m ++ [HttpGet image_url; FileOpened filename]))
| run_open_rejected m body :
    (m < n)%nat ->
    (forall k, (k < m)%nat -> failed (http_get w image_url (requests s + k))) ->
    http_get w image_url (requests s + m) = Response 200 body ->
    file_write w filename body = OpenRejects ->
    attempts_run a n s (Raised ValueError)
      (advance s (files s) (S m)
         (failed_attempts (requests s) a m ++ [HttpGet image_url])).

End DownloadRuns.

(** What the loop's result becomes at the end of [download_image]. *)
Definition finish (r : outcome (option bool)) : outcome bool :=
  match r with
  | Done (Some v) => Done v
  | Done None => Done false
  | Raised e => Raised e
  | Hung => Hung
  end.

(** The events a run adds to the trace of the state it starts from. *)
Definition new_events (s s' : State) : list event := drop (length (trace s)) (trace s').

(** ** Reading a run of [scrape_olx] off the trace *)

(** The events [scrape_olx] itself adds: navigations and the two
    observation points. *)
Definition is_marker (e : event) : bool :=
  match e with
  | Navigate _ | CardEntered | DownloadReturned _ => true
  | _ => false
  end.

(** The URLs the browser was sent to, in order. *)
Fixpoint visited (t : list event) : list string :=
  match t with
  | [] => []
  | Navigate url :: t' => url :: visited t'
  | _ :: t' => visited t'
  end.

(** How many cards the loop over cards was entered for. *)
Fixpoint cards_entered (t : list event) : nat :=
  match t with
  | [] => 0
  | CardEntered :: t' => S (cards_entered t')
  | _ :: t' => cards_entered t'
  end.

(** How many calls of [download_image] returned [True]. *)
Fixpoint downloads_ok (t : list event) : nat :=
  match t with
  | [] => 0
  | DownloadReturned true :: t' => S (downloads_ok t')
  | _ :: t' => downloads_ok t'
  end.

(** The number of cards on the pages behind a list of URLs. *)
Definition cards_on (w : World) (urls : list string) : nat :=
  foldr (fun url n => (length (cards (web w url)) + n)%nat) 0%nat urls.

(** [s'] continues [s] with events whose markers are [m]. *)
Definition adds (s s' : State) (m : list event) : Prop :=
  exists t, trace s' = trace s ++ t /\ List.filter is_marker t = m.

(** The five things read off a card, when all of them are there. *)
Definition fields (card : Card) : option (string * string * string * string * string) :=
  match h6 card, ad_price card, location_date card, img_src card, a_href card with
  | Some name, Some price, Some text, Some image_url, Some ad_url =>
      Some (name, price, text, image_url, ad_url)
  | _, _, _, _, _ => None
  end.

(** The record [process_card] appends for a card with these fields. *)
Definition record_of (name price text ad_url : string) : dict :=
  [("Name", name);
   ("Price", price);
   ("Location", fst (location_and_time (split " - " text)));
   ("Time Posted", snd (location_and_time (split " - " text)));
   ("Image File", img_filename_of name);
   ("Ad URL", ad_url)].

(** [record] is what one of [cs] gives. *)
Definition from_cards (cs : list Card) (record : dict) : Prop :=
  exists card name price text image_url ad_url,
    In card cs
    /\ fields card = Some (name, price, text, image_url, ad_url)
    /\ record = record_of name price text ad_url.

(** [record] is what a card of some page of the world gives. *)
Definition came_from_a_page (w : World) (record : dict) : Prop :=
  exists url, from_cards (cards (web w url)) record.

(** The page stops growing within [fuel] scrolls to the bottom. *)
Definition settles_within (fuel : nat) (p : Page) : Prop :=
  exists j, (j < fuel)%nat /\ scrollHeight p (S j) = scrollHeight p j.

(** The run has ended with the exception [e], the last thing done
    being [driver.quit()]. *)
Definition aborts_after_quit (run : outcome unit * State) (e : exn) : Prop :=
  fst run = Raised e /\ last (trace (snd run)) = Some DriverQuit.

(** ** Reading the export *)

(** An entry with the six keys [save_to_excel] looks up. *)
Definition complete (entry : dict) : Prop :=
  exists name price location timeposted image_file ad_url,
    getitem entry "Name" = Some name
    /\ getitem entry "Price" = Some price
    /\ getitem entry "Location" = Some location
    /\ getitem entry "Time Posted" = Some timeposted
    /\ getitem entry "Image File" = Some image_file
    /\ getitem entry "Ad URL" = Some ad_url.

(** The entry's image file is there and decodes. *)
Definition loadable (w : World) (s : State) (entry : dict) : Prop :=
  exists path content,
    getitem entry "Image File" = Some path
    /\ files s !! path = Some content
    /\ is_image w path content = true.

(** The keys whose values [save_to_excel] puts into cells. *)
Definition text_keys : list string := ["Name"; "Price"; "Location"; "Time Posted"; "Ad URL"].

(** The sheet accepts the entry's texts: none of them holds, within
    its first 32767 characters, a control character other than tab,
    line feed and carriage return. *)
Definition printable (entry : dict) : Prop :=
  forall key value, In key text_keys -> getitem entry key = Some value -> legal value = true.

(** The row [save_to_excel] appends for a complete entry. *)
Definition cells (entry : dict) : list string :=
  [cell_text (default "" (getitem entry "Name"));
   cell_text (default "" (getitem entry "Price"));
   cell_text (default "" (getitem entry "Location"));
   cell_text (default "" (getitem entry "Time Posted"));
   "";
   cell_text (default "" (getitem entry "Ad URL"))].

(** ** Sample worlds and states *)

Definition start : State :=
  {| files := ∅; requests := 0; location := ""; scrolls := 0;
     stdin := []; workbooks := ∅; trace := [] |}.

Definition no_page : Page := {| cards := []; pagination := []; scrollHeight := fun _ => 0%nat |}.

Definition jpeg : bytes := [Byte.xff; Byte.xd8; Byte.xff; Byte.xe0].

(** The first bytes of a zip archive, for a saved workbook. *)
Definition xlsx : bytes := [Byte.x50; Byte.x4b; Byte.x03; Byte.x04].

(** Every request is answered 404; files can be written. *)
Definition world_404 : World :=
  {| http_get := fun _ _ => Response 404 [];
     file_write := fun _ _ => WriteOk;
     web := fun _ => no_page;
     page_loads := fun _ => true;
     int := fun _ => None;
     is_image := fun _ _ => true;
     can_makedirs := fun _ => true;
     workbook_write := fun _ _ => SaveOk xlsx;
     edge_starts := true |}.

(** The first two requests fail (a 503, then a network error), the
    third is answered 200. *)
Definition world_third_time : World :=
  {| http_get := fun _ n =>
       match n with
       | O => Response 503 []
       | S O => RequestError
       | _ => Response 200 jpeg
       end;
     file_write := fun _ _ => WriteOk;
     web := fun _ => no_page;
     page_loads := fun _ => true;
     int := fun _ => None;
     is_image := fun _ _ => true;
     can_makedirs := fun _ => true;
     workbook_write := fun _ _ => SaveOk xlsx;
     edge_starts := true |}.

(** Requests are answered 200, but the target cannot be opened (as
    for [images/a/b.jpg] when there is no directory [images/a]), and no
    workbook can be saved. *)
Definition world_unwritable : World :=
  {| http_get := fun _ _ => Response 200 jpeg;
     file_write := fun _ _ => OpenFails;
     web := fun _ => no_page;
     page_loads := fun _ => true;
     int := fun _ => None;
     is_image := fun _ _ => true;
     can_makedirs := fun _ => true;
     workbook_write := fun _ _ => SaveOpenFails;
     edge_starts := true |}.

(** Requests are answered 200, the file is opened, and the write
    fails after one byte (a full disk). *)
Definition world_disk_full : World :=
  {| http_get := fun _ _ => Response 200 jpeg;
     file_write := fun _ _ => WriteFails 1;
     web := fun _ => no_page;
     page_loads := fun _ => true;
     int := fun _ => None;
     is_image := fun _ _ => true;
     can_makedirs := fun _ => true;
     workbook_write := fun _ _ => SaveOk xlsx;
     edge_starts := true |}.

(** A shop with one result page of three cards: two listings of the
    same name, the second without a date, and a card without a title.
    Images download at the first attempt. *)
Definition card_bike : Card :=
  {| h6 := Some "red bike"; ad_price := Some "100";
     location_date := Some "Kyiv - Today 10:00";
     img_src := Some "http://img/1.jpg"; a_href := Some "http://olx/1" |}.

Definition card_bike_again : Card :=
  {| h6 := Some "red bike"; ad_price := Some "120";
     location_date := Some "Lviv";
     img_src := Some "http://img/2.jpg"; a_href := Some "http://olx/2" |}.

Definition card_untitled : Card :=
  {| h6 := None; ad_price := Some "5";
     location_date := Some "Odesa - Yesterday";
     img_src := Some "http://img/3.jpg"; a_href := Some "http://olx/3" |}.

Definition page_shop : Page :=
  {| cards := [card_bike; card_untitled; card_bike_again];
     pagination := [];
     scrollHeight := fun _ => 1000%nat |}.

Definition world_shop : World :=
  {| http_get := fun url _ =>
       if String.eqb url "http://img/2.jpg" then Response 200 [Byte.x02] else Response 200 jpeg;
     file_write := fun _ _ => WriteOk;
     web := fun _ => page_shop;
     page_loads := fun _ => true;
     int := fun _ => None;
     is_image := fun _ _ => true;
     can_makedirs := fun _ => true;
     workbook_write := fun _ _ => SaveOk xlsx;
     edge_starts := true |}.

Definition shop_link : string := "https://www.olx.ua/uk/list//q-bike/".

(** A shop whose only listing has a title that starts with a slash. *)
Definition card_slash : Card :=
  {| h6 := Some "/a"; ad_price := Some "1";
     location_date := Some "Kyiv - Today";
     img_src := Some "http://img/1.jpg"; a_href := Some "http://olx/1" |}.

Definition world_slash : World :=
  {| http_get := fun _ _ => Response 200 jpeg;
     file_write := fun _ _ => WriteOk;
     web := fun _ => {| cards := [card_slash]; pagination := [];
                        scrollHeight := fun _ => 1000%nat |};
     page_loads := fun _ => true;
     int := fun _ => None;
     is_image := fun _ _ => true;
     can_makedirs := fun _ => true;
     workbook_write := fun _ _ => SaveOk xlsx;
     edge_starts := true |}.

(** The shop, with a pagination whose last item is no number. *)
Definition world_odd_pagination : World :=
  {| http_get := fun _ _ => Response 200 jpeg;
     file_write := fun _ _ => WriteOk;
     web := fun _ => {| cards := [card_bike]; pagination := ["1"; "..."];
                        scrollHeight := fun _ => 1000%nat |};
     page_loads := fun _ => true;
     int := fun _ => None;
     is_image := fun _ _ => true;
     can_makedirs := fun _ => true;
     workbook_write := fun _ _ => SaveOk xlsx;
     edge_starts := true |}.

(** The shop, where the workbook cannot be saved. *)
Definition world_no_save : World :=
  {| http_get := http_get world_shop;
     file_write := fun _ _ => WriteOk;
     web := fun _ => page_shop;
     page_loads := fun _ => true;
     int := fun _ => None;
     is_image := fun _ _ => true;
     can_makedirs := fun _ => true;
     workbook_write := fun _ _ => SaveOpenFails;
     edge_starts := true |}.

(** The shop, where saving the workbook breaks off after one byte. *)
Definition world_save_breaks : World :=
  {| http_get := http_get world_shop;
     file_write := fun _ _ => WriteOk;
     web := fun _ => page_shop;
     page_loads := fun _ => true;
     int := fun _ => None;
     is_image := fun _ _ => true;
     can_makedirs := fun _ => true;
     workbook_write := fun _ _ => SaveBreaksOff [Byte.x50];
     edge_starts := true |}.

(** A shop of two result pages: the search URL shows the three cards
    and a pagination "1", "2"; any other URL shows one more card. *)
Definition world_two_pages : World :=
  {| http_get := fun _ _ => Response 200 jpeg;
     file_write := fun _ _ => WriteOk;
     web := fun url =>
       if String.eqb url shop_link
       then {| cards := cards page_shop; pagination := ["1"; "2"];
               scrollHeight := fun n => (1000 + 500 * Nat.min n 2)%nat |}
       else {| cards := [card_slash]; pagination := ["1"; "2"];
               scrollHeight := fun _ => 1000%nat |};
     page_loads := fun _ => true;
     int := fun text => if String.eqb text "2" then Some 2%Z else None;
     is_image := fun _ _ => true;
     can_makedirs := fun _ => true;
     workbook_write := fun _ _ => SaveOk xlsx;
     edge_starts := true |}.

(** The shop, with a pagination that reports 0 pages. *)
Definition world_zero_pages : World :=
  {| http_get := fun _ _ => Response 200 jpeg;
     file_write := fun _ _ => WriteOk;
     web := fun _ => {| cards := [card_bike]; pagination := ["0"];
                        scrollHeight := fun _ => 1000%nat |};
     page_loads := fun _ => true;
     int := fun text => if String.eqb text "0" then Some 0%Z else None;
     is_image := fun _ _ => true;
     can_makedirs := fun _ => true;
     workbook_write := fun _ _ => SaveOk xlsx;
     edge_starts := true |}.

Definition two_pages_records : list dict :=
  [record_of "red bike" "100" "Kyiv - Today 10:00" "http://olx/1";
   record_of "red bike" "120" "Lviv" "http://olx/2";
   record_of "/a" "1" "Kyiv - Today" "http://olx/1"].

(** The user types a search phrase and declines to name a city. *)
Definition typed : State :=
  {| files := ∅; requests := 0; location := ""; scrolls := 0;
     stdin := ["bike"; "n"]; workbooks := ∅; trace := [] |}.

(** The two images of the shop are on disk. *)
Definition downloaded : State :=
  {| files := <["images/red_bike.jpg" := jpeg]> ∅; requests := 2; location := shop_link;
     scrolls := 1; stdin := []; workbooks := ∅; trace := [] |}.

Definition shop_records : list dict :=
  [record_of "red bike" "100" "Kyiv - Today 10:00" "http://olx/1";
   record_of "red bike" "120" "Lviv" "http://olx/2"].

(** ** Vocabulary for the helpers *)

(** [sep.join(parts)] *)
Fixpoint join (sep : string) (parts : list string) : string :=
  match parts with
  | [] => EmptyString
  | [part] => part
  | part :: parts' => (part ++ sep ++ join sep parts')%string
  end.

(** [c in s] *)
Fixpoint has_char (c : ascii) (s : string) : bool :=
  match s with
  | EmptyString => false
  | String c' s' => (Ascii.eqb c' c || has_char c s')%bool
  end.

(** A file system that accepts every path but those with a NUL
    character in them, which [open] refuses. *)
Definition world_nul_path : World :=
  {| http_get := fun _ _ => Response 200 jpeg;
     file_write := fun path _ => if has_char "000" path then OpenRejects else WriteOk;
     web := fun _ => no_page;
     page_loads := fun _ => true;
     int := fun _ => None;
     is_image := fun _ _ => true;
     can_makedirs := fun _ => true;
     workbook_write := fun _ _ => SaveOk xlsx;
     edge_starts := true |}.

Definition nul_path : string := "images/a" ++ String "000" ".jpg".

(** ** Vocabulary for scrolling *)

(** The state [s] after [k] more scrolls to the bottom, with the
    events [t] added to the trace. *)
Definition scrolled (s : State) (k : nat) (t : list event) : State :=
  {| files := files s; requests := requests s; location := location s;
     scrolls := scrolls s + k; stdin := stdin s; workbooks := workbooks s;
     trace := trace s ++ t |}.

(** What bringing the card with index [i] into view adds. *)
Definition view_events (pause : Q) (i : nat) : list event :=
  ScrollIntoView i :: (if (i mod 5 =? 0)%nat then [Sleep (2 # 10)] else []) ++ [Sleep pause].

(** What [n] rounds of the [while True] loop add. *)
Fixpoint scroll_rounds (pause : Q) (n : nat) : list event :=
  match n with
  | O => []
  | S n' => ScrollToBottom :: Sleep pause :: scroll_rounds pause n'
  end.

(** Scroll [j + 1] is the first that does not make the page grow. *)
Definition first_settles (j : nat) (p : Page) : Prop :=
  scrollHeight p (S j) = scrollHeight p j
  /\ forall k, (k < j)%nat -> scrollHeight p (S k) <> scrollHeight p k.

Definition is_scroll_event (e : event) : bool :=
  match e with
  | ScrollIntoView _ | ScrollToBottom | Sleep _ => true
  | _ => false
  end.

(** ** Vocabulary for whole runs *)

(** No file of [s] is missing in [s']. *)
Definition grows (s s' : State) : Prop :=
  forall path, is_Some (files s !! path) -> is_Some (files s' !! path).

(** The image file the record names is on disk. *)
Definition has_image (s : State) (record : dict) : Prop :=
  exists path, getitem record "Image File" = Some path /\ is_Some (files s !! path).

(** The records of the cards that have all five fields, in order. *)
Definition records_of (cs : list Card) : list dict :=
  flat_map (fun card =>
              match fields card with
              | Some (name, price, text, _, ad_url) => [record_of name price text ad_url]
              | None => []
              end) cs.

(** Every request is answered 200 and every file can be written. *)
Definition obliging (w : World) : Prop :=
  (forall url n, exists body, http_get w url n = Response 200 body)
  /\ (forall path content, file_write w path content = WriteOk).

(** The URLs of the [n] result pages of a search. *)
Definition page_urls (websitelink : string) (n : nat) : list string :=
  websitelink :: map (fun i => next_page_url websitelink (Z.of_nat i)) (seq 1 (n - 1)).

Definition is_error_line (e : event) : bool :=
  match e with
  | Print (ErrorProcessingCard _) => true
  | _ => false
  end.

(** ** Vocabulary for the sheet *)

(** The pictures [save_to_excel] embeds for the entries, the first of
    them in row [row]. *)
Fixpoint pictures (row : nat) (data : list dict) : list Picture :=
  match data with
  | [] => []
  | entry :: data' =>
      {| ref := default "" (getitem entry "Image File");
         anchor := "E" ++ pretty row; width := 215; height := 152 |}
      :: pictures (S row) data'
  end.

(** The row heights it sets, from row [row] on. *)
Fixpoint heights (row : nat) (data : list dict) : list (nat * Z) :=
  match data with
  | [] => []
  | _ :: data' => (row, 152%Z) :: heights (S row) data'
  end.

(** The sheet before the columns are sized. *)
Definition sheet_of (data : list dict) : Worksheet :=
  {| title := "Ad Data"; rows := headers :: map cells data;
     images := pictures 2 data; row_dimensions := heights 2 data;
     column_dimensions := [] |}.

(** The sheet as saved. *)
Definition saved_sheet (data : list dict) : Worksheet :=
  set_column_dimensions
    (map (fun jc => (snd jc, column_width (sheet_of data) (fst jc))) (enumerate column_letters))
    (sheet_of data).

(** A goal [adds s (advance s f n t) m] is settled by [t] itself. *)
Ltac exists_advance :=
  match goal with
  | |- adds _ (advance _ _ _ ?t) _ => exists t; split; [reflexivity|]
  end.

(** * Proofs *)

(** ** Sample runs *)

Example split_location_date :
  split " - " "Kyiv - Today 10:00" = ["Kyiv"; "Today 10:00"].
Proof. reflexivity. Qed.

Example split_no_separator : split " - " "Lviv" = ["Lviv"].
Proof. reflexivity. Qed.

Example split_three_parts : split " - " "a - b - c" = ["a"; "b"; "c"].
Proof. reflexivity. Qed.

Example split_trailing_separator : split " - " "a - " = ["a"; ""].
Proof. reflexivity. Qed.

Example img_filename_of_spaces : img_filename_of "nice red bike" = "images/nice_red_bike.jpg".
Proof. reflexivity. Qed.

Example get_user_input_no_city :
  fst (get_user_input typed) = Done "https://www.olx.ua/uk/list//q-bike/".
Proof. reflexivity. Qed.

Example download_image_third_attempt :
  new_events start
    (snd (download_image world_third_time "http://img/1.jpg" "images/a.jpg" RETRIES DELAY start))
  = [HttpGet "http://img/1.jpg";
     Print (FailedToDownload "http://img/1.jpg" 503);
     Print (Retry 1 5 "http://img/1.jpg");
     Sleep (inject_Z 2);
     HttpGet "http://img/1.jpg";
     Print (ErrorDownloading "http://img/1.jpg" RequestException);
     Print (Retry 2 5 "http://img/1.jpg");
     Sleep (inject_Z 2);
     HttpGet "http://img/1.jpg";
     FileOpened "images/a.jpg";
     FileWritten "images/a.jpg" jpeg].
Proof. reflexivity. Qed.

Example main_shop_rows :
  fst (main world_shop 1 typed) = Done tt
  /\ rows <$> workbooks (snd (main world_shop 1 typed)) !! "ad_data_with_images.xlsx"
     = Some [["Name"; "Price"; "Location"; "Time Posted"; "Image"; "Ad URL"];
             ["red bike"; "100"; "Kyiv"; "Today 10:00"; ""; "http://olx/1"];
             ["red bike"; "120"; ""; ""; ""; "http://olx/2"]].
Proof. vm_compute. split; reflexivity. Qed.

Example scrape_two_pages :
  let run := scrape_olx world_two_pages 5 shop_link start in
  visited (trace (snd run)) = [shop_link; (shop_link ++ "&page=2")%string]
  /\ length <$> (match fst run with Done data => Some data | _ => None end) = Some 3%nat
  /\ cards_entered (trace (snd run)) = 4%nat.
Proof. vm_compute. repeat split. Qed.

Example scrape_two_pages_little_fuel :
  fst (scrape_olx world_two_pages 2 shop_link start) = Hung.
Proof. vm_compute. reflexivity. Qed.

(** ** The monad *)

Lemma bind_Done {A B} (c : M A) (k : A -> M B) s a s' :
  c s = (Done a, s') -> bind c k s = k a s'.
Proof. intros H. unfold bind. now rewrite H. Qed.

Lemma bind_Raised {A B} (c : M A) (k : A -> M B) s e s' :
  c s = (Raised e, s') -> bind c k s = (Raised e, s').
Proof. intros H. unfold bind. now rewrite H. Qed.

Lemma bind_Hung {A B} (c : M A) (k : A -> M B) s s' :
  c s = (Hung, s') -> bind c k s = (Hung, s').
Proof. intros H. unfold bind. now rewrite H. Qed.

Lemma bind_ret_Done {A B} (c : M A) (b : B) s r s' :
  bind c (fun _ => ret b) s = (r, s') ->
  s' = snd (c s) /\ forall b', r = Done b' -> b' = b.
Proof.
  unfold bind, ret. destruct (c s) as [[a|e|] s1]; intros H; injection H as <- <-;
    (split; [reflexivity|]); intros b' Hb; congruence.
Qed.

Lemma advance_nothing s : advance s (files s) 0 [] = s.
Proof.
  destruct s. unfold advance. simpl. f_equal; [lia | apply app_nil_r].
Qed.

Lemma advance_advance s f1 n1 t1 f2 n2 t2 :
  advance (advance s f1 n1 t1) f2 n2 t2 = advance s f2 (n1 + n2) (t1 ++ t2).
Proof.
  unfold advance. simpl. f_equal; [lia | now rewrite app_assoc].
Qed.

(** ** download_image *)

Section DownloadProofs.

Context (w : World) (image_url filename : string) (retries delay : nat).

(** One attempt that does not get a 200 leaves the files alone and
    adds the four events of [failed_attempt]. *)
Lemma download_attempt_failed attempt s :
  failed (http_get w image_url (requests s)) ->
  download_attempt w image_url filename retries delay attempt s
  = (Done None,
     advance s (files s) 1 (failed_attempt w image_url retries delay (requests s) attempt)).
Proof.
  intros Hf. unfold download_attempt, bind, try_except, requests_get, failed_attempt, complaint.
  destruct (http_get w image_url (requests s)) as [status body|] eqn:E; simpl in *.
  - destruct (Z.eqb_spec status 200) as [->|_]; [congruence|].
    unfold advance, log, set_requests. simpl. f_equal.
    f_equal; [lia | now rewrite <- !app_assoc].
  - unfold advance, log, set_requests. simpl. f_equal.
    f_equal; [lia | now rewrite <- !app_assoc].
Qed.

(** An attempt that gets a 200 writes the body and returns; what
    happens then is up to the file system. *)
Lemma download_attempt_200 attempt s body :
  http_get w image_url (requests s) = Response 200 body ->
  download_attempt w image_url filename retries delay attempt s
  = match file_write w filename body with
    | WriteOk =>
        (Done (Some true),
         advance s (<[filename := body]> (files s)) 1
           [HttpGet image_url; FileOpened filename; FileWritten filename body])
    | OpenFails => (Raised OSError, advance s (files s) 1 [HttpGet image_url])
    | WriteFails written =>
        (Raised OSError,
         advance s (<[filename := take written body]> (files s)) 1
           [HttpGet image_url; FileOpened filename])
    | OpenRejects => (Raised ValueError, advance s (files s) 1 [HttpGet image_url])
    end.
Proof.
  intros E. unfold download_attempt, bind, try_except, requests_get, write_binary.
  rewrite E. simpl.
  destruct (file_write w filename body); simpl;
    unfold advance, log, set_requests, set_files; simpl; f_equal;
    f_equal; try lia; now rewrite <- ?app_assoc.
Qed.

Lemma failed_or_200 (r : http_result) : failed r \/ exists body, r = Response 200 body.
Proof.
  destruct r as [status body|]; simpl; [|now left].
  destruct (Z.eq_dec status 200) as [->|Hne]; [right; now exists body | now left].
Qed.

Lemma failed_not_200 (r : http_result) body : failed r -> r <> Response 200 body.
Proof. intros Hf ->. simpl in Hf. congruence. Qed.

(** A failed first attempt puts the remaining ones one step later. *)
Lemma attempts_run_later a n s r s' :
  failed (http_get w image_url (requests s)) ->
  attempts_run w image_url filename retries delay (S a) n
    (advance s (files s) 1 (failed_attempt w image_url retries delay (requests s) a)) r s' ->
  attempts_run w image_url filename retries delay a (S n) s r s'.
Proof.
  intros Hf H.
  assert (Hk : forall m, (forall k, (k < m)%nat ->
              failed (http_get w image_url
                        (requests (advance s (files s) 1
                           (failed_attempt w image_url retries delay (requests s) a)) + k))) ->
            forall k, (k < S m)%nat -> failed (http_get w image_url (requests s + k))).
  { intros m Hm [|k] Hlt; [now rewrite Nat.add_0_r|].
    specialize (Hm k ltac:(lia)). simpl in Hm.
    now replace (requests s + S k)%nat with (requests s + 1 + k)%nat by lia. }
  inversion H as [Hall | m body Hlt Hbefore Hget Hw | m body Hlt Hbefore Hget Hw
                 | m body written Hlt Hbefore Hget Hw | m body Hlt Hbefore Hget Hw];
    subst; clear H;
    rewrite advance_advance; simpl in *;
    replace (requests s + 1)%nat with (S (requests s)) in * by lia.
  - apply (run_exhausted w image_url filename retries delay a (S n) s). now apply Hk.
  - apply (run_downloaded w image_url filename retries delay a (S n) s (S m) body);
      [lia | now apply Hk | | exact Hw].
    now replace (requests s + S m)%nat with (S (requests s) + m)%nat by lia.
  - apply (run_open_failed w image_url filename retries delay a (S n) s (S m) body);
      [lia | now apply Hk | | exact Hw].
    now replace (requests s + S m)%nat with (S (requests s) + m)%nat by lia.
  - apply (run_write_failed w image_url filename retries delay a (S n) s (S m) body written);
      [lia | now apply Hk | | exact Hw].
    now replace (requests s + S m)%nat with (S (requests s) + m)%nat by lia.
  - apply (run_open_rejected w image_url filename retries delay a (S n) s (S m) body);
      [lia | now apply Hk | | exact Hw].
    now replace (requests s + S m)%nat with (S (requests s) + m)%nat by lia.
Qed.

(** The loop of [download_image] ends in one of the five ways. *)
Lemma for_each_attempts n : forall a s,
  attempts_run w image_url filename retries delay a n s
    (finish (fst (for_each (seq a n) (download_attempt w image_url filename retries delay) s)))
    (snd (for_each (seq a n) (download_attempt w image_url filename retries delay) s)).
Proof.
  induction n as [|n IH]; intros a s.
  - simpl. pose proof (run_exhausted w image_url filename retries delay a 0 s) as H.
    simpl in H. rewrite advance_nothing in H. apply H. intros k Hk. lia.
  - cbn [seq for_each].
    destruct (failed_or_200 (http_get w image_url (requests s))) as [Hf | [body E]].
      rewrite (bind_Done _ _ s None _ (download_attempt_failed a s Hf)).
      apply attempts_run_later; [exact Hf | apply IH].
    + unfold bind. rewrite (download_attempt_200 a s body E).
      destruct (file_write w filename body) as [| |written|] eqn:Hw; simpl.
      * apply (run_downloaded w image_url filename retries delay a (S n) s 0 body);
          [lia | intros k Hk; lia | now rewrite Nat.add_0_r | exact Hw].
      * apply (run_open_failed w image_url filename retries delay a (S n) s 0 body);
          [lia | intros k Hk; lia | now rewrite Nat.add_0_r | exact Hw].
      * apply (run_write_failed w image_url filename retries delay a (S n) s 0 body written);
          [lia | intros k Hk; lia | now rewrite Nat.add_0_r | exact Hw].
      * apply (run_open_rejected w image_url filename retries delay a (S n) s 0 body);
          [lia | intros k Hk; lia | now rewrite Nat.add_0_r | exact Hw].
Qed.

(** [download_image] ends in one of the five ways of [attempts_run]. *)
Lemma download_image_run s :
  attempts_run w image_url filename retries delay 0 retries s
    (fst (download_image w image_url filename retries delay s))
    (snd (download_image w image_url filename retries delay s)).
Proof.
  pose proof (for_each_attempts retries 0%nat s) as H.
  unfold download_image, bind.
  destruct (for_each (seq 0 retries) (download_attempt w image_url filename retries delay) s)
    as [[[v|]|e|] s1]; simpl in *; exact H.
Qed.

End DownloadProofs.

(** ** The events of failed attempts *)

Lemma new_events_advance s f n t : new_events s (advance s f n t) = t.
Proof. unfold new_events, advance. simpl. apply drop_app_length. Qed.

Lemma failed_attempts_gets w url retries delay n : forall req a,
  List.filter is_HttpGet (failed_attempts w url retries delay req a n) = repeat (HttpGet url) n.
Proof. induction n as [|n IH]; intros req a; simpl; [reflexivity | now rewrite IH]. Qed.

Lemma failed_attempts_sleeps w url retries delay n : forall req a,
  List.filter is_Sleep (failed_attempts w url retries delay req a n)
  = repeat (Sleep (inject_Z (Z.of_nat delay))) n.
Proof. induction n as [|n IH]; intros req a; simpl; [reflexivity | now rewrite IH]. Qed.

Lemma failed_attempts_no_file w url retries delay n : forall req a,
  List.filter touches_file (failed_attempts w url retries delay req a n) = [].
Proof. induction n as [|n IH]; intros req a; simpl; [reflexivity | now rewrite IH]. Qed.

(** ** Claims about download_image *)

(** C1. When every GET of the URL is answered with a status other
    than 200, [download_image] returns [False] after exactly [retries]
    requests; each request is followed by the two console lines and a
    pause of [delay] seconds, and no file is touched. *)
Theorem download_image_all_non_200 w image_url filename retries delay s :
  (forall n, exists status body,
      http_get w image_url n = Response status body /\ status <> 200%Z) ->
  let run := download_image w image_url filename retries delay s in
  let t := failed_attempts w image_url retries delay (requests s) 0 retries in
  fst run = Done false
  /\ snd run = advance s (files s) retries t
  /\ new_events s (snd run) = t
  /\ List.filter is_HttpGet t = repeat (HttpGet image_url) retries
  /\ List.filter is_Sleep t = repeat (Sleep (inject_Z (Z.of_nat delay))) retries.
Proof.
  intros Hall run t.
  assert (Hno : forall k body, http_get w image_url k <> Response 200 body).
  { intros k body E. destruct (Hall k) as (status & body' & E' & Hne). congruence. }
  pose proof (download_image_run w image_url filename retries delay s) as H.
  subst run t.
  inversion H as [Hfail Hr Hs | m body _ _ Hget _ | m body _ _ Hget _ | m body written _ _ Hget _
                 | m body _ _ Hget _];
    try (exfalso; exact (Hno _ _ Hget)).
  split; [reflexivity|]. split; [reflexivity|]. split; [|split].
  - apply new_events_advance.
  - apply failed_attempts_gets.
  - apply failed_attempts_sleeps.
Qed.

Lemma download_image_all_non_200_witness :
  fst (download_image world_404 "http://img/1.jpg" "images/a.jpg" RETRIES DELAY start) = Done false
  /\ length (List.filter is_HttpGet
       (new_events start
          (snd (download_image world_404 "http://img/1.jpg" "images/a.jpg" RETRIES DELAY start))))
     = 5%nat.
Proof.
  destruct (download_image_all_non_200 world_404 "http://img/1.jpg" "images/a.jpg"
              RETRIES DELAY start) as (Hr & _ & Ht & Hg & _).
  - intros n. exists 404%Z, []. split; [reflexivity | discriminate].
  - split; [exact Hr|]. rewrite Ht, Hg. reflexivity.
Defined.

(** The attempt that first gets a 200 is determined by the answers. *)
Lemma first_200_unique (g : nat -> http_result) n m body body' :
  (forall k, (k < n)%nat -> failed (g k)) -> g n = Response 200 body ->
  (forall k, (k < m)%nat -> failed (g k)) -> g m = Response 200 body' ->
  m = n /\ body' = body.
Proof.
  intros Hn En Hm Em.
  destruct (Nat.lt_trichotomy m n) as [Hlt | [-> | Hlt]].
  - exfalso. exact (failed_not_200 _ _ (Hn m Hlt) Em).
  - split; congruence.
  - exfalso. exact (failed_not_200 _ _ (Hm n Hlt) En).
Qed.

(** C2, as stated, fails: the request is answered 200 at the first
    attempt, but the target cannot be opened, and [download_image]
    neither returns [True] nor leaves the body at the target path. *)
Lemma download_image_target_not_writable :
  let run := download_image world_unwritable "http://img/1.jpg" "images/a/b.jpg"
               RETRIES DELAY start in
  http_get world_unwritable "http://img/1.jpg" 0 = Response 200 jpeg
  /\ (1 <= RETRIES)%nat
  /\ ~ (fst run = Done true /\ files (snd run) !! "images/a/b.jpg" = Some jpeg).
Proof.
  split; [reflexivity|]. split; [unfold RETRIES; lia|].
  intros [H _]. vm_compute in H. discriminate H.
Qed.

(** C2, amended.  When the first [n] attempts fail (a status other
    than 200 or a network error), attempt [n + 1 <= retries] is
    answered 200 with [body], and the target file can be opened and
    written, [download_image] returns [True] and the file at the
    target path holds exactly [body]; no other file changes. *)
Theorem download_image_succeeds_on_nth w image_url filename retries delay s n body :
  (n < retries)%nat ->
  (forall k, (k < n)%nat -> failed (http_get w image_url (requests s + k))) ->
  http_get w image_url (requests s + n) = Response 200 body ->
  file_write w filename body = WriteOk ->
  let run := download_image w image_url filename retries delay s in
  fst run = Done true
  /\ files (snd run) !! filename = Some body
  /\ files (snd run) = <[filename := body]> (files s)
  /\ requests (snd run) = (requests s + S n)%nat.
Proof.
  intros Hlt Hbefore Hget Hw run. subst run.
  pose proof (download_image_run w image_url filename retries delay s) as H.
  inversion H as [Hfail Hr Hs | m body' _ Hb Hg Hw' Hr Hs | m body' _ Hb Hg Hw' Hr Hs
                 | m body' written _ Hb Hg Hw' Hr Hs | m body' _ Hb Hg Hw' Hr Hs].
  - exfalso. exact (failed_not_200 _ _ (Hfail n Hlt) Hget).
  - destruct (first_200_unique (fun k => http_get w image_url (requests s + k))
                n m body body' Hbefore Hget Hb Hg) as [-> ->].
    simpl. split; [reflexivity|]. split; [apply lookup_insert_eq|]. split; reflexivity.
  - destruct (first_200_unique (fun k => http_get w image_url (requests s + k))
                n m body body' Hbefore Hget Hb Hg) as [-> ->]. congruence.
  - destruct (first_200_unique (fun k => http_get w image_url (requests s + k))
                n m body body' Hbefore Hget Hb Hg) as [-> ->]. congruence.
  - destruct (first_200_unique (fun k => http_get w image_url (requests s + k))
                n m body body' Hbefore Hget Hb Hg) as [-> ->]. congruence.
Qed.

Lemma download_image_succeeds_on_nth_witness :
  fst (download_image world_third_time "http://img/1.jpg" "images/a.jpg" RETRIES DELAY start)
  = Done true
  /\ files (snd (download_image world_third_time "http://img/1.jpg" "images/a.jpg"
                   RETRIES DELAY start)) !! "images/a.jpg" = Some jpeg.
Proof.
  destruct (download_image_succeeds_on_nth world_third_time "http://img/1.jpg" "images/a.jpg"
              RETRIES DELAY start 2 jpeg) as (Hr & Hf & _).
  - unfold RETRIES. lia.
  - intros [|[|k]] Hk; simpl; [discriminate | exact I | lia].
  - reflexivity.
  - reflexivity.
  - split; [exact Hr | exact Hf].
Defined.


(** A path with a NUL character is refused by [open] itself: the
    exception that escapes is then a [ValueError]. *)
Example download_image_raises_ValueError :
  fst (download_image world_nul_path "http://img/1.jpg" nul_path RETRIES DELAY start)
  = Raised ValueError.
Proof. vm_compute. reflexivity. Qed.


(** C8, as stated, fails: the body is fetched, the target is opened
    and the write breaks off after one byte; the file that was absent
    now holds that byte, yet [download_image] did not return [True]. *)
Lemma download_image_partial_file :
  let run := download_image world_disk_full "http://img/1.jpg" "images/a.jpg"
               RETRIES DELAY start in
  fst run = Raised OSError
  /\ files start !! "images/a.jpg" = None
  /\ files (snd run) !! "images/a.jpg" = Some [Byte.xff].
Proof. vm_compute. repeat split. Qed.

(** The file events among the events of a run. *)
Lemma file_events_advance s f n t :
  List.filter touches_file (new_events s (advance s f n t)) = List.filter touches_file t.
Proof. now rewrite new_events_advance. Qed.

(** C8, amended.  [download_image] returns [True] only after it has
    opened the target and written the whole body to it, and when it
    returns [False] it has touched no file.  The target is touched
    without [True] being returned only when the write fails after the
    file was opened: then [OSError] reaches the caller and the file
    holds the bytes written so far.  A target that cannot be opened
    ([OSError], or [ValueError] for a path that is refused) is left
    as it was.  No other path ever changes. *)
Theorem download_image_file_effects w image_url filename retries delay s :
  let run := download_image w image_url filename retries delay s in
  let file_events := List.filter touches_file (new_events s (snd run)) in
  (fst run = Done true
   /\ exists body,
        files (snd run) = <[filename := body]> (files s)
        /\ file_events = [FileOpened filename; FileWritten filename body])
  \/ (fst run = Done false /\ files (snd run) = files s /\ file_events = [])
  \/ (fst run = Raised OSError /\ files (snd run) = files s /\ file_events = [])
  \/ (fst run = Raised OSError
      /\ exists body written,
           file_write w filename body = WriteFails written
           /\ files (snd run) = <[filename := take written body]> (files s)
           /\ file_events = [FileOpened filename])
  \/ (fst run = Raised ValueError /\ files (snd run) = files s /\ file_events = []).
Proof.
  intros run file_events. subst file_events run.
  pose proof (download_image_run w image_url filename retries delay s) as H.
  inversion H as [Hfail Hr Hs | m body _ Hb Hg Hw Hr Hs | m body _ Hb Hg Hw Hr Hs
                 | m body written _ Hb Hg Hw Hr Hs | m body _ Hb Hg Hw Hr Hs];
    rewrite file_events_advance, ?List.filter_app, failed_attempts_no_file; simpl.
  - right. left. repeat split.
  - left. split; [reflexivity|]. exists body. split; reflexivity.
  - right. right. left. repeat split.
  - right. right. right. left. split; [reflexivity|]. exists body, written. repeat split. exact Hw.
  - right. right. right. right. repeat split.
Qed.

(** ** One card *)

Section CardProofs.

Context (w : World).

(** [process_card], case by case. *)
Lemma process_card_eq card data s :
  process_card w card data s
  = match fields card with
    | None =>
        (Done data, log (Print (ErrorProcessingCard NoSuchElementException)) (log CardEntered s))
    | Some (name, price, text, image_url, ad_url) =>
        match download_image w image_url (img_filename_of name) RETRIES DELAY (log CardEntered s) with
        | (Done true, s2) =>
            (Done (data ++ [record_of name price text ad_url]), log (DownloadReturned true) s2)
        | (Done false, s2) => (Done data, log (DownloadReturned false) s2)
        | (Raised e, s2) => (Done data, log (Print (ErrorProcessingCard e)) s2)
        | (Hung, s2) => (Hung, s2)
        end
    end.
Proof.
  unfold process_card, fields, bind, try_except, emit, print, find_element, ret, raise.
  destruct (h6 card) as [name|]; [|reflexivity].
  destruct (ad_price card) as [price|]; [|reflexivity].
  destruct (location_date card) as [text|]; [|reflexivity].
  destruct (img_src card) as [image_url|]; [|reflexivity].
  destruct (a_href card) as [ad_url|]; [|reflexivity].
  simpl.
  destruct (download_image w image_url (img_filename_of name) RETRIES DELAY (log CardEntered s))
    as [[[|]|e|] s2]; reflexivity.
Qed.

Lemma adds_refl s : adds s s [].
Proof. exists []. split; [now rewrite app_nil_r | reflexivity]. Qed.

Lemma adds_trans s s1 s2 m1 m2 :
  adds s s1 m1 -> adds s1 s2 m2 -> adds s s2 (m1 ++ m2).
Proof.
  intros (t1 & E1 & F1) (t2 & E2 & F2). exists (t1 ++ t2). split.
  - now rewrite E2, E1, app_assoc.
  - now rewrite List.filter_app, F1, F2.
Qed.

Lemma adds_log s e : adds s (log e s) (List.filter is_marker [e]).
Proof. exists [e]. split; reflexivity. Qed.

Lemma adds_advance s f n t : adds s (advance s f n t) (List.filter is_marker t).
Proof. exists t. split; reflexivity. Qed.

Lemma adds_new_events s s' m :
  adds s s' m -> List.filter is_marker (new_events s s') = m.
Proof.
  intros (t & E & F). unfold new_events. rewrite E. now rewrite drop_app_length.
Qed.

Lemma visited_markers t : visited (List.filter is_marker t) = visited t.
Proof.
  induction t as [|e t IH]; [reflexivity|]. destruct e; simpl; now rewrite ?IH.
Qed.

Lemma cards_entered_markers t : cards_entered (List.filter is_marker t) = cards_entered t.
Proof.
  induction t as [|e t IH]; [reflexivity|]. destruct e; simpl; now rewrite ?IH.
Qed.

Lemma downloads_ok_markers t : downloads_ok (List.filter is_marker t) = downloads_ok t.
Proof.
  induction t as [|e t IH]; [reflexivity|]. destruct e as [| | | | | | | | | | | | | |[|]];
    simpl; now rewrite ?IH.
Qed.

Lemma visited_app t1 t2 : visited (t1 ++ t2) = visited t1 ++ visited t2.
Proof.
  induction t1 as [|e t1 IH]; [reflexivity|]. destruct e; simpl; now rewrite ?IH.
Qed.

Lemma cards_entered_app t1 t2 :
  cards_entered (t1 ++ t2) = (cards_entered t1 + cards_entered t2)%nat.
Proof.
  induction t1 as [|e t1 IH]; [reflexivity|]. destruct e; simpl; now rewrite ?IH.
Qed.

Lemma downloads_ok_app t1 t2 :
  downloads_ok (t1 ++ t2) = (downloads_ok t1 + downloads_ok t2)%nat.
Proof.
  induction t1 as [|e t1 IH]; [reflexivity|]. destruct e as [| | | | | | | | | | | | | |[|]];
    simpl; now rewrite ?IH.
Qed.

Lemma failed_attempts_no_marker url retries delay n : forall req a,
  List.filter is_marker (failed_attempts w url retries delay req a n) = [].
Proof. induction n as [|n IH]; intros req a; simpl; [reflexivity | now rewrite IH]. Qed.

(** [download_image] comes back, adds no marker and leaves the
    browser where it is. *)
Lemma download_image_frame url filename retries delay s :
  let run := download_image w url filename retries delay s in
  fst run <> Hung /\ adds s (snd run) [] /\ location (snd run) = location s.
Proof.
  intros run. subst run.
  pose proof (download_image_run w url filename retries delay s) as H.
  inversion H as [Hfail Hr Hs | m body _ Hb Hg Hw Hr Hs | m body _ Hb Hg Hw Hr Hs
                 | m body written _ Hb Hg Hw Hr Hs | m body _ Hb Hg Hw Hr Hs];
    (split; [discriminate|]); (split; [|reflexivity]);
    (exists_advance; now rewrite ?List.filter_app, failed_attempts_no_marker).
Qed.

(** What one card does: the loop goes on, the browser stays on its
    page, and either nothing is appended or the card's record is. *)
Lemma process_card_run card data s :
  exists data' m,
    fst (process_card w card data s) = Done data'
    /\ location (snd (process_card w card data s)) = location s
    /\ adds s (snd (process_card w card data s)) m
    /\ visited m = [] /\ cards_entered m = 1%nat
    /\ ((data' = data /\ downloads_ok m = 0%nat)
        \/ (exists name price text image_url ad_url,
              fields card = Some (name, price, text, image_url, ad_url)
              /\ data' = data ++ [record_of name price text ad_url]
              /\ downloads_ok m = 1%nat)).
Proof.
  rewrite process_card_eq.
  destruct (fields card) as [[[[[name price] text] image_url] ad_url]|] eqn:Ef.
  - destruct (download_image_frame image_url (img_filename_of name) RETRIES DELAY
                (log CardEntered s)) as (Hh & Ha & Hl).
    destruct (download_image w image_url (img_filename_of name) RETRIES DELAY (log CardEntered s))
      as [[[|]|e|] s2]; simpl in *; [| | |congruence].
    + exists (data ++ [record_of name price text ad_url]), [CardEntered; DownloadReturned true].
      split; [reflexivity|]. split; [exact Hl|]. split.
      { apply (adds_trans s (log CardEntered s) _ [CardEntered] [DownloadReturned true]);
          [apply adds_log|].
        apply (adds_trans _ s2 _ [] [DownloadReturned true]); [exact Ha | apply adds_log]. }
      split; [reflexivity|]. split; [reflexivity|].
      right. exists name, price, text, image_url, ad_url. repeat split.
    + exists data, [CardEntered; DownloadReturned false].
      split; [reflexivity|]. split; [exact Hl|]. split.
      { apply (adds_trans s (log CardEntered s) _ [CardEntered] [DownloadReturned false]);
          [apply adds_log|].
        apply (adds_trans _ s2 _ [] [DownloadReturned false]); [exact Ha | apply adds_log]. }
      split; [reflexivity|]. split; [reflexivity|]. left. split; reflexivity.
    + exists data, [CardEntered].
      split; [reflexivity|]. split; [exact Hl|]. split.
      { apply (adds_trans s (log CardEntered s) _ [CardEntered] []); [apply adds_log|].
        apply (adds_trans _ s2 _ [] []); [exact Ha | apply adds_log]. }
      split; [reflexivity|]. split; [reflexivity|]. left. split; reflexivity.
  - exists data, [CardEntered]. simpl.
    split; [reflexivity|]. split; [reflexivity|]. split.
    { apply (adds_trans s (log CardEntered s) _ [CardEntered] []); apply adds_log. }
    split; [reflexivity|]. split; [reflexivity|]. left. split; reflexivity.
Qed.

End CardProofs.

(** ** Scrolling *)

Section ScrollProofs.

Context (w : World).

(** The loop that brings the cards into view only adds events. *)
Lemma scroll_cards_run (pause : Q) (l : list (nat * Card)) : forall s,
  exists s',
    for_acc l tt (bring_into_view pause) s = (Done tt, s')
    /\ adds s s' [] /\ location s' = location s /\ scrolls s' = scrolls s.
Proof.
  induction l as [|[i card] l IH]; intros s.
  - exists s. repeat split. apply adds_refl.
  - cbn [for_acc].
    assert (E : exists s1, bring_into_view pause (i, card) tt s = (Done tt, s1)
                /\ adds s s1 [] /\ location s1 = location s /\ scrolls s1 = scrolls s).
    { unfold bring_into_view, bind, emit, sleep, ret. cbn [fst].
      destruct (i mod 5 =? 0)%nat; simpl.
      - eexists. split; [reflexivity|]. repeat split.
        exists [ScrollIntoView i; Sleep (2 # 10); Sleep pause]. simpl.
        split; [now rewrite <- !app_assoc | reflexivity].
      - eexists. split; [reflexivity|]. repeat split.
        exists [ScrollIntoView i; Sleep pause]. simpl.
        split; [now rewrite <- !app_assoc | reflexivity]. }
    destruct E as (s1 & E & Ha & Hl & Hs). rewrite (bind_Done _ _ _ _ _ E).
    destruct (IH s1) as (s' & E' & Ha' & Hl' & Hs').
    exists s'. split; [exact E'|]. split; [|split; congruence].
    apply (adds_trans s s1 s' [] []); assumption.
Qed.

(** The [while True] loop either ends or runs out of rounds; it adds
    no marker and stays on the page. *)
Lemma scroll_until_settled_run (pause : Q) fuel : forall last s,
  let run := scroll_until_settled w fuel pause last s in
  (fst run = Done tt \/ fst run = Hung)
  /\ adds s (snd run) [] /\ location (snd run) = location s.
Proof.
  induction fuel as [|fuel IH]; intros last s; cbn zeta.
  - simpl. unfold hang. simpl. split; [now right|]. split; [apply adds_refl | reflexivity].
  - cbn [scroll_until_settled]. unfold bind, scroll_to_bottom, sleep, emit, scroll_height.
    cbn [fst snd].
    set (s1 := log (Sleep pause) (log ScrollToBottom (set_scrolls (S (scrolls s)) s))).
    assert (Ha : adds s s1 []).
    { exists [ScrollToBottom; Sleep pause]. subst s1. simpl.
      split; [now rewrite <- !app_assoc | reflexivity]. }
    destruct (scrollHeight (page_now w s1) (scrolls s1) =? last)%nat.
    + simpl. split; [now left|]. split; [exact Ha | reflexivity].
    + destruct (IH (scrollHeight (page_now w s1) (scrolls s1)) s1) as (Hr & Ha' & Hl').
      split; [exact Hr|]. split; [|rewrite Hl'; reflexivity].
      apply (adds_trans s s1 _ [] []); assumption.
Qed.

(** If the page stops growing within [fuel] rounds, the loop ends. *)
Lemma scroll_until_settled_ends (pause : Q) fuel : forall s,
  (exists j, (j < fuel)%nat
             /\ scrollHeight (page_now w s) (scrolls s + S j)
                = scrollHeight (page_now w s) (scrolls s + j)) ->
  fst (scroll_until_settled w fuel pause (scrollHeight (page_now w s) (scrolls s)) s) = Done tt.
Proof.
  induction fuel as [|fuel IH]; intros s (j & Hj & Ej); [lia|].
  cbn [scroll_until_settled]. unfold bind, scroll_to_bottom, sleep, emit, scroll_height.
  cbn [fst snd].
  set (s1 := log (Sleep pause) (log ScrollToBottom (set_scrolls (S (scrolls s)) s))).
  change (page_now w s1) with (page_now w s). change (scrolls s1) with (S (scrolls s)).
  destruct (Nat.eqb_spec (scrollHeight (page_now w s) (S (scrolls s)))
              (scrollHeight (page_now w s) (scrolls s))) as [_|Hne]; [reflexivity|].
  change (scrollHeight (page_now w s) (S (scrolls s)))
    with (scrollHeight (page_now w s1) (scrolls s1)).
  apply IH. destruct j as [|j].
  - exfalso. apply Hne. now rewrite !Nat.add_1_r, ?Nat.add_0_r in Ej.
  - exists j. split; [lia|].
    change (page_now w s1) with (page_now w s). change (scrolls s1) with (S (scrolls s)).
    now replace (S (scrolls s) + S j)%nat with (scrolls s + S (S j))%nat by lia;
      replace (S (scrolls s) + j)%nat with (scrolls s + S j)%nat by lia.
Qed.

Lemma slow_scroll_page_run fuel (pause : Q) s :
  let run := slow_scroll_page w fuel pause s in
  (fst run = Done tt \/ fst run = Hung)
  /\ adds s (snd run) [] /\ location (snd run) = location s.
Proof.
  cbn zeta. unfold slow_scroll_page.
  rewrite (bind_Done _ _ s _ s (eq_refl : scroll_height w s = (Done _, s))).
  rewrite (bind_Done _ _ s _ s (eq_refl : find_cards w s = (Done _, s))).
  destruct (scroll_cards_run pause (enumerate (cards (page_now w s))) s)
    as (s1 & E & Ha & Hl & Hs).
  rewrite (bind_Done _ _ _ _ _ E).
  destruct (scroll_until_settled_run pause fuel (scrollHeight (page_now w s) (scrolls s)) s1)
    as (Hr & Ha' & Hl').
  split; [exact Hr|]. split; [|congruence].
  apply (adds_trans s s1 _ [] []); assumption.
Qed.

(** On a page that settles within [fuel] rounds and is scrolled from
    the top, [slow_scroll_page] returns. *)
Lemma slow_scroll_page_ends fuel (pause : Q) s :
  scrolls s = 0%nat -> settles_within fuel (page_now w s) ->
  fst (slow_scroll_page w fuel pause s) = Done tt.
Proof.
  intros H0 (j & Hj & Ej).
  unfold slow_scroll_page.
  rewrite (bind_Done _ _ s _ s (eq_refl : scroll_height w s = (Done _, s))).
  rewrite (bind_Done _ _ s _ s (eq_refl : find_cards w s = (Done _, s))).
  destruct (scroll_cards_run pause (enumerate (cards (page_now w s))) s)
    as (s1 & E & Ha & Hl & Hs).
  rewrite (bind_Done _ _ _ _ _ E).
  assert (Hp : page_now w s1 = page_now w s) by (unfold page_now; now rewrite Hl).
  rewrite <- Hp, <- Hs.
  apply scroll_until_settled_ends. exists j. split; [exact Hj|].
  rewrite Hp, Hs, H0. exact Ej.
Qed.

(** Scrolling touches no file. *)
Lemma scroll_cards_files (pause : Q) (l : list (nat * Card)) : forall s,
  files (snd (for_acc l tt (bring_into_view pause) s)) = files s.
Proof.
  induction l as [|[i card] l IH]; intros s; [reflexivity|].
  cbn [for_acc].
  assert (E : exists s1, bring_into_view pause (i, card) tt s = (Done tt, s1)
              /\ files s1 = files s).
  { unfold bring_into_view, bind, emit, sleep, ret. cbn [fst].
    destruct (i mod 5 =? 0)%nat; simpl; eexists; split; reflexivity. }
  destruct E as (s1 & E & Hf). rewrite (bind_Done _ _ _ _ _ E). now rewrite IH.
Qed.

Lemma scroll_until_settled_files (pause : Q) fuel : forall last s,
  files (snd (scroll_until_settled w fuel pause last s)) = files s.
Proof.
  induction fuel as [|fuel IH]; intros last s; [reflexivity|].
  cbn [scroll_until_settled]. unfold bind, scroll_to_bottom, sleep, emit, scroll_height.
  cbn [fst snd].
  set (s1 := log (Sleep pause) (log ScrollToBottom (set_scrolls (S (scrolls s)) s))).
  destruct (scrollHeight (page_now w s1) (scrolls s1) =? last)%nat; [reflexivity|].
  now rewrite IH.
Qed.

Lemma slow_scroll_page_files fuel (pause : Q) s :
  files (snd (slow_scroll_page w fuel pause s)) = files s.
Proof.
  unfold slow_scroll_page.
  rewrite (bind_Done _ _ s _ s (eq_refl : scroll_height w s = (Done _, s))).
  rewrite (bind_Done _ _ s _ s (eq_refl : find_cards w s = (Done _, s))).
  pose proof (scroll_cards_files pause (enumerate (cards (page_now w s))) s) as Hf.
  destruct (scroll_cards_run pause (enumerate (cards (page_now w s))) s) as (s1 & E & _).
  rewrite E in Hf. rewrite (bind_Done _ _ _ _ _ E).
  now rewrite scroll_until_settled_files.
Qed.

End ScrollProofs.

(** ** The loops of scrape_olx *)

Section ScrapeProofs.

Context (w : World).

Lemma from_cards_cons card cs record : from_cards cs record -> from_cards (card :: cs) record.
Proof.
  intros (c & name & price & text & image_url & ad_url & Hin & Hf & Hr).
  exists c, name, price, text, image_url, ad_url. split; [now right | now split].
Qed.

(** The loop over the cards of a page always completes; it appends a
    record for every download that returned [True]. *)
Lemma cards_loop_run cs : forall data s,
  exists new m s',
    for_acc cs data (process_card w) s = (Done (data ++ new), s')
    /\ location s' = location s
    /\ adds s s' m
    /\ visited m = [] /\ cards_entered m = length cs /\ downloads_ok m = length new
    /\ (length new <= length cs)%nat
    /\ Forall (from_cards cs) new.
Proof.
  induction cs as [|card cs IH]; intros data s.
  - exists [], [], s. rewrite app_nil_r.
    repeat split; [apply adds_refl | simpl; lia | constructor].
  - destruct (process_card_run w card data s) as (data' & m1 & Hr & Hl & Ha & Hv & Hc & Hd).
    destruct (process_card w card data s) as [r s1] eqn:E. simpl in Hr, Hl, Ha. subst r.
    cbn [for_acc]. rewrite (bind_Done _ _ _ _ _ E).
    destruct (IH data' s1) as (new & m2 & s' & E' & Hl' & Ha' & Hv' & Hc' & Hd' & Hn' & Hf').
    assert (Hf'' : Forall (from_cards (card :: cs)) new).
    { eapply Forall_impl; [exact Hf'|]. intros r. apply from_cards_cons. }
    destruct Hd as [[-> Hd] | (name & price & text & image_url & ad_url & Hf & -> & Hd)].
    + exists new, (m1 ++ m2), s'. split; [exact E'|]. split; [congruence|].
      split; [now apply (adds_trans s s1 s')|].
      rewrite visited_app, cards_entered_app, downloads_ok_app, Hv, Hv', Hc, Hc', Hd, Hd'.
      repeat split; [simpl; lia | exact Hf''].
    + exists (record_of name price text ad_url :: new), (m1 ++ m2), s'.
      split; [now rewrite E', <- app_assoc|]. split; [congruence|].
      split; [now apply (adds_trans s s1 s')|].
      rewrite visited_app, cards_entered_app, downloads_ok_app, Hv, Hv', Hc, Hc', Hd, Hd'.
      repeat split; [simpl; lia|]. constructor; [|exact Hf''].
      exists card, name, price, text, image_url, ad_url. split; [now left | now split].
Qed.

(** The last page: its cards are read and nothing else happens. *)
Lemma scrape_page_last fuel link n page data s :
  (page <? n)%Z = false ->
  exists new m s',
    scrape_page w fuel link n page data s = (Done (data ++ new), s')
    /\ location s' = location s
    /\ adds s s' m
    /\ visited m = []
    /\ cards_entered m = length (cards (page_now w s))
    /\ downloads_ok m = length new
    /\ (length new <= length (cards (page_now w s)))%nat
    /\ Forall (from_cards (cards (page_now w s))) new.
Proof.
  intros Hlast. unfold scrape_page. rewrite Hlast.
  rewrite (bind_Done _ _ s _ s (eq_refl : find_cards w s = (Done _, s))).
  destruct (cards_loop_run (cards (page_now w s)) data s)
    as (new & m & s' & E & Hl & Ha & Hv & Hc & Hd & Hn & Hf).
  rewrite (bind_Done _ _ _ _ _ E).
  exists new, m, s'. repeat split; assumption.
Qed.

Lemma driver_get_ok url s :
  page_loads w url = true ->
  driver_get w url s = (Done tt, log (Navigate url) (set_location url s)).
Proof. intros H. unfold driver_get. now rewrite H. Qed.

Lemma driver_get_fails url s :
  page_loads w url = false ->
  driver_get w url s = (Raised WebDriverException, log (Navigate url) s).
Proof. intros H. unfold driver_get. now rewrite H. Qed.

(** [os.makedirs] returns or raises [OSError]; either way the call
    is all it adds. *)
Lemma makedirs_run path s :
  exists r, makedirs w path s = (r, log (Makedirs path) s) /\ (r = Done tt \/ r = Raised OSError).
Proof.
  unfold makedirs. destruct (files s !! path); [|destruct (can_makedirs w path)];
    eexists; (split; [reflexivity|]); auto.
Qed.

Lemma makedirs_ok path s :
  files s !! path = None -> can_makedirs w path = true ->
  makedirs w path s = (Done tt, log (Makedirs path) s).
Proof. intros Hf Hc. unfold makedirs. now rewrite Hf, Hc. Qed.

Lemma makedirs_fails path s :
  files s !! path <> None \/ can_makedirs w path = false ->
  makedirs w path s = (Raised OSError, log (Makedirs path) s).
Proof.
  intros H. unfold makedirs. destruct (files s !! path); [reflexivity|].
  destruct H as [H | ->]; [now contradict H | reflexivity].
Qed.

(** Any other page: its cards are read, then the browser is sent to
    the next page, waits for cards and scrolls. *)
Lemma scrape_page_next fuel link n page data s :
  (page <? n)%Z = true ->
  exists new m r s',
    scrape_page w fuel link n page data s = (r, s')
    /\ (forall data', r = Done data' -> location s' = next_page_url link page)
    /\ adds s s' (m ++ [Navigate (next_page_url link page)])
    /\ visited m = []
    /\ cards_entered m = length (cards (page_now w s))
    /\ downloads_ok m = length new
    /\ (length new <= length (cards (page_now w s)))%nat
    /\ Forall (from_cards (cards (page_now w s))) new
    /\ (r = Done (data ++ new) \/ r = Raised WebDriverException
        \/ r = Raised TimeoutException \/ r = Hung).
Proof.
  intros Hnext. unfold scrape_page. rewrite Hnext.
  rewrite (bind_Done _ _ s _ s (eq_refl : find_cards w s = (Done _, s))).
  destruct (cards_loop_run (cards (page_now w s)) data s)
    as (new & m & s1 & E & Hl & Ha & Hv & Hc & Hd & Hn & Hf).
  rewrite (bind_Done _ _ _ _ _ E).
  set (u := next_page_url link page).
  destruct (page_loads w u) eqn:Hload.
  2:{ exists new, m, (Raised WebDriverException), (log (Navigate u) s1). split.
      { apply bind_Raised. apply bind_Raised. now apply driver_get_fails. }
      split; [discriminate|]. split.
      { apply (adds_trans s s1 _); [exact Ha|]. exists [Navigate u]. split; reflexivity. }
      repeat (split; [assumption|]). right. now left. }
  pose proof (driver_get_ok u s1 Hload) as Eg.
  set (s2 := log (Navigate u) (set_location u s1)) in *.
  assert (Ha2 : adds s s2 (m ++ [Navigate u])).
  { apply (adds_trans s s1 s2); [exact Ha|]. exists [Navigate u]. split; reflexivity. }
  destruct (cards (page_now w s2)) as [|c cs] eqn:Ec.
  - exists new, m, (Raised TimeoutException), s2. split.
    { apply bind_Raised. rewrite (bind_Done _ _ _ _ _ Eg).
      apply bind_Raised. unfold wait_for_cards. now rewrite Ec. }
    split; [discriminate|]. split; [exact Ha2|].
    repeat (split; [assumption|]). right. right. now left.
  - assert (Ew : wait_for_cards w s2 = (Done tt, s2)) by (unfold wait_for_cards; now rewrite Ec).
    destruct (slow_scroll_page_run w fuel SCROLL_PAUSE_TIME s2) as (Hr & Ha3 & Hl3).
    destruct (slow_scroll_page w fuel SCROLL_PAUSE_TIME s2) as [r3 s3] eqn:E3. simpl in Hr, Ha3, Hl3.
    assert (Ha' : adds s s3 (m ++ [Navigate u])).
    { rewrite <- (app_nil_r (m ++ [Navigate u])). now apply (adds_trans s s2 s3). }
    destruct Hr as [-> | ->].
    + exists new, m, (Done (data ++ new)), s3. split.
      { rewrite (bind_Done _ _ s1 tt s3); [reflexivity|].
        rewrite (bind_Done _ _ _ _ _ Eg).
        now rewrite (bind_Done _ _ _ _ _ Ew). }
      split; [intros _ _; exact Hl3|]. split; [exact Ha'|].
      repeat (split; [assumption|]). now left.
    + exists new, m, Hung, s3. split.
      { apply bind_Hung. rewrite (bind_Done _ _ _ _ _ Eg).
        now rewrite (bind_Done _ _ _ _ _ Ew). }
      split; [discriminate|]. split; [exact Ha'|].
      repeat (split; [assumption|]). right. right. now right.
Qed.

Lemma from_page_now s new :
  Forall (from_cards (cards (page_now w s))) new -> Forall (came_from_a_page w) new.
Proof.
  intros H. eapply Forall_impl; [exact H|]. intros r Hr. now exists (location s).
Qed.

(** The loop over the pages [a, a+1, ..., a+k-1], the last of which is
    the page count.  It ends with the list, with the exception of a
    page that does not load or shows no card, or not at all. *)
Lemma pages_loop_run fuel link k : forall a data s,
  exists m r s',
    for_acc (map Z.of_nat (seq a k)) data
      (scrape_page w fuel link (Z.of_nat (a + k - 1))) s = (r, s')
    /\ adds s s' m
    /\ ((exists e, r = Raised e) \/ r = Hung
        \/ exists new,
             r = Done (data ++ new)
             /\ downloads_ok m = length new
             /\ (length new <= cards_entered m)%nat
             /\ (cards_entered m
                 <= match k with
                    | O => 0
                    | S _ => length (cards (page_now w s))
                    end + cards_on w (visited m))%nat
             /\ Forall (came_from_a_page w) new).
Proof.
  induction k as [|k IH]; intros a data s.
  - exists [], (Done data), s. split; [reflexivity|]. split; [apply adds_refl|].
    right. right. exists []. rewrite app_nil_r. repeat split; simpl; try lia. constructor.
  - cbn [seq map for_acc].
    replace (Z.of_nat (a + S k - 1)) with (Z.of_nat (S a + k - 1)) by (f_equal; lia).
    destruct (Z.ltb_spec (Z.of_nat a) (Z.of_nat (S a + k - 1))) as [Hlt | Hge].
    + assert (Hk : (1 <= k)%nat) by lia.
      destruct (scrape_page_next fuel link (Z.of_nat (S a + k - 1)) (Z.of_nat a) data s)
        as (new1 & m1 & r1 & s1 & E1 & Hl1 & Ha1 & Hv1 & Hc1 & Hd1 & Hn1 & Hf1 & Hr1).
      { now apply Z.ltb_lt. }
      destruct Hr1 as [-> | [-> | [-> | ->]]].
      * rewrite (bind_Done _ _ _ _ _ E1).
        destruct (IH (S a) (data ++ new1) s1) as (m2 & r2 & s2 & E2 & Ha2 & Hr2).
        exists ((m1 ++ [Navigate (next_page_url link (Z.of_nat a))]) ++ m2), r2, s2.
        split; [exact E2|]. split; [now apply (adds_trans s s1 s2)|].
        destruct Hr2 as [Hr2 | [-> | (new2 & -> & Hd2 & Hle2 & Hc2 & Hf2)]];
          [now left | right; now left |].
        right. right. exists (new1 ++ new2). split; [now rewrite app_assoc|].
        rewrite !downloads_ok_app, !cards_entered_app, !visited_app, Hv1, Hc1, Hd1, Hd2.
        rewrite length_app. simpl.
        split; [lia|]. split; [lia|]. split.
        { destruct k as [|k']; [lia|].
          unfold page_now at 1 in Hc2. rewrite (Hl1 _ eq_refl) in Hc2. lia. }
        apply Forall_app. split; [now apply (from_page_now s) | exact Hf2].
      * exists (m1 ++ [Navigate (next_page_url link (Z.of_nat a))]), (Raised WebDriverException), s1.
        split; [now apply bind_Raised|]. split; [exact Ha1 | left; eauto].
      * exists (m1 ++ [Navigate (next_page_url link (Z.of_nat a))]), (Raised TimeoutException), s1.
        split; [now apply bind_Raised|]. split; [exact Ha1 | left; eauto].
      * exists (m1 ++ [Navigate (next_page_url link (Z.of_nat a))]), Hung, s1.
        split; [now apply bind_Hung|]. split; [exact Ha1 | right; now left].
    + assert (Hk : k = 0%nat) by lia. subst k.
      destruct (scrape_page_last fuel link (Z.of_nat (S a + 0 - 1)) (Z.of_nat a) data s)
        as (new1 & m1 & s1 & E1 & Hl1 & Ha1 & Hv1 & Hc1 & Hd1 & Hn1 & Hf1).
      { now apply Z.ltb_ge. }
      rewrite (bind_Done _ _ _ _ _ E1). simpl.
      exists m1, (Done (data ++ new1)), s1. split; [reflexivity|]. split; [exact Ha1|].
      right. right. exists new1. split; [reflexivity|].
      split; [exact Hd1|]. split; [lia|].
      split; [lia|]. now apply (from_page_now s).
Qed.

(** [int(pages[-1].text) if pages else 1] does not touch the state. *)
Lemma number_of_pages_of_eq pages s :
  number_of_pages_of w pages s
  = match last pages with
    | Some text =>
        match int w text with
        | Some n => (Done n, s)
        | None => (Raised ValueError, s)
        end
    | None => (Done 1%Z, s)
    end.
Proof.
  unfold number_of_pages_of. destruct (last pages) as [text|]; [|reflexivity].
  destruct (int w text); reflexivity.
Qed.

(** [scrape_olx] up to its loop over the pages. *)
Lemma scrape_olx_eq fuel link s :
  scrape_olx w fuel link s
  = if page_loads w link then
      let s1 := log (Navigate link) (set_location link s) in
      match cards (web w link) with
      | [] => (Raised TimeoutException, s1)
      | _ :: _ =>
          match slow_scroll_page w fuel SCROLL_PAUSE_TIME s1 with
          | (Done _, s2) =>
              match number_of_pages_of w (pagination (page_now w s2)) s2 with
              | (Done n, s3) =>
                  match makedirs w IMAGE_DIR s3 with
                  | (Done _, s4) => for_acc (range_from_1 n) [] (scrape_page w fuel link n) s4
                  | (Raised e, s4) => (Raised e, s4)
                  | (Hung, s4) => (Hung, s4)
                  end
              | (Raised e, s3) => (Raised e, s3)
              | (Hung, s3) => (Hung, s3)
              end
          | (Raised e, s2) => (Raised e, s2)
          | (Hung, s2) => (Hung, s2)
          end
      end
    else (Raised WebDriverException, log (Navigate link) s).
Proof.
  unfold scrape_olx, bind, driver_get, wait_for_cards, find_pagination.
  destruct (page_loads w link); [|reflexivity].
  change (page_now w (log (Navigate link) (set_location link s))) with (web w link).
  cbn zeta. destruct (cards (web w link)) as [|c cs]; [reflexivity|].
  destruct (slow_scroll_page w fuel SCROLL_PAUSE_TIME (log (Navigate link) (set_location link s)))
    as [[[]|e|] s2]; [|reflexivity|reflexivity].
  destruct (number_of_pages_of w (pagination (page_now w s2)) s2) as [[n|e|] s3];
    [|reflexivity|reflexivity].
  destruct (makedirs w IMAGE_DIR s3) as [[[]|e|] s4]; reflexivity.
Qed.

(** How a run of [scrape_olx] can end, and what it has then done. *)
Lemma scrape_olx_run fuel link s :
  exists m r s',
    scrape_olx w fuel link s = (r, s')
    /\ adds s s' (Navigate link :: m)
    /\ ((exists e, r = Raised e) \/ r = Hung
        \/ exists data,
             r = Done data
             /\ downloads_ok m = length data
             /\ (length data <= cards_entered m)%nat
             /\ (cards_entered m <= cards_on w (link :: visited m))%nat
             /\ Forall (came_from_a_page w) data).
Proof.
  rewrite scrape_olx_eq.
  destruct (page_loads w link).
  2:{ exists [], (Raised WebDriverException), (log (Navigate link) s).
      split; [reflexivity|]. split; [exists [Navigate link]; split; reflexivity | left; eauto]. }
  cbn zeta.
  set (s1 := log (Navigate link) (set_location link s)).
  assert (Ha1 : adds s s1 [Navigate link]) by (exists [Navigate link]; split; reflexivity).
  destruct (cards (web w link)) as [|c cs] eqn:Ec.
  { exists [], (Raised TimeoutException), s1. split; [reflexivity|].
    split; [exact Ha1 | left; eauto]. }
  destruct (slow_scroll_page_run w fuel SCROLL_PAUSE_TIME s1) as (Hr & Ha2 & Hl2).
  destruct (slow_scroll_page w fuel SCROLL_PAUSE_TIME s1) as [r2 s2]. simpl in Hr, Ha2, Hl2.
  assert (Ha2' : adds s s2 [Navigate link]) by (apply (adds_trans s s1 s2 [_] []); assumption).
  destruct Hr as [-> | ->];
    [| exists [], Hung, s2; split; [reflexivity|]; split; [exact Ha2' | right; now left]].
  rewrite number_of_pages_of_eq.
  set (s3 := log (Makedirs IMAGE_DIR) s2).
  assert (Ha3 : adds s s3 [Navigate link]).
  { apply (adds_trans s s2 s3 [_] []); [exact Ha2'|]. exists [Makedirs IMAGE_DIR]. now split. }
  assert (Hloop : forall n,
    exists m r s',
      match makedirs w IMAGE_DIR s2 with
      | (Done _, s4) => for_acc (range_from_1 n) [] (scrape_page w fuel link n) s4
      | (Raised e, s4) => (Raised e, s4)
      | (Hung, s4) => (Hung, s4)
      end = (r, s')
      /\ adds s s' (Navigate link :: m)
      /\ ((exists e, r = Raised e) \/ r = Hung
          \/ exists data,
               r = Done data
               /\ downloads_ok m = length data
               /\ (length data <= cards_entered m)%nat
               /\ (cards_entered m <= cards_on w (link :: visited m))%nat
               /\ Forall (came_from_a_page w) data)).
  { intros n. destruct (makedirs_run IMAGE_DIR s2) as (r3 & E3 & [-> | ->]); rewrite E3; fold s3.
    2:{ exists [], (Raised OSError), s3. split; [reflexivity|]. split; [exact Ha3 | left; eauto]. }
    unfold range_from_1.
    destruct (Z.to_nat n) as [|k] eqn:Ek.
    - exists [], (Done []), s3. split; [reflexivity|]. split; [exact Ha3|].
      right. right. exists []. repeat split; simpl; try lia. constructor.
    - assert (En : n = Z.of_nat (1 + S k - 1)) by lia. rewrite En.
      destruct (pages_loop_run fuel link (S k) 1%nat [] s3) as (m & r & s' & E & Ha & Hr).
      exists m, r, s'. split; [exact E|].
      split; [apply (adds_trans s s3 s' [_] m); assumption|].
      destruct Hr as [Hr | [-> | (new & -> & Hd & Hle & Hc & Hf)]];
        [now left | right; now left |].
      right. right. exists new. repeat split; try assumption.
      simpl. unfold page_now in Hc. simpl in Hc. rewrite Hl2 in Hc. simpl in Hc. exact Hc. }
  destruct (last (pagination (page_now w s2))) as [text|]; [|apply Hloop].
  destruct (int w text) as [n|]; [apply Hloop|].
  exists [], (Raised ValueError), s2. split; [reflexivity|]. split; [exact Ha2' | left; eauto].
Qed.

(** On a page that loads, shows a card and stops growing within
    [fuel] scrolls, [scrape_olx] gets as far as the page count, having
    touched no file. *)
Lemma scrape_olx_first_page fuel link s :
  page_loads w link = true -> cards (web w link) <> [] -> settles_within fuel (web w link) ->
  exists s2,
    slow_scroll_page w fuel SCROLL_PAUSE_TIME (log (Navigate link) (set_location link s))
    = (Done tt, s2)
    /\ files s2 = files s /\ location s2 = link /\ adds s s2 [Navigate link]
    /\ scrape_olx w fuel link s
       = match number_of_pages_of w (pagination (web w link)) s2 with
         | (Done n, s3) =>
             match makedirs w IMAGE_DIR s3 with
             | (Done _, s4) => for_acc (range_from_1 n) [] (scrape_page w fuel link n) s4
             | (Raised e, s4) => (Raised e, s4)
             | (Hung, s4) => (Hung, s4)
             end
         | (Raised e, s3) => (Raised e, s3)
         | (Hung, s3) => (Hung, s3)
         end.
Proof.
  intros Hload Hcards Hsettles. rewrite scrape_olx_eq, Hload. cbn zeta.
  set (s1 := log (Navigate link) (set_location link s)).
  destruct (cards (web w link)) as [|c cs] eqn:Ec; [congruence|].
  pose proof (slow_scroll_page_ends w fuel SCROLL_PAUSE_TIME s1 eq_refl Hsettles) as Hends.
  pose proof (slow_scroll_page_files w fuel SCROLL_PAUSE_TIME s1) as Hfiles.
  destruct (slow_scroll_page_run w fuel SCROLL_PAUSE_TIME s1) as (_ & Ha2 & Hl2).
  destruct (slow_scroll_page w fuel SCROLL_PAUSE_TIME s1) as [r2 s2].
  simpl in Hends, Hfiles, Ha2, Hl2. subst r2.
  exists s2. split; [reflexivity|]. split; [exact Hfiles|]. split; [exact Hl2|].
  split.
  { apply (adds_trans s s1 s2 [_] []); [|exact Ha2]. exists [Navigate link]. split; reflexivity. }
  unfold page_now. now rewrite Hl2.
Qed.

End ScrapeProofs.

(** ** The pages scrape_olx visits and the order of its records *)

Section PagesProofs.

Context (w : World).

(** In an obliging world a download succeeds at the first attempt. *)
Lemma download_image_obliging image_url filename retries delay s :
  obliging w -> (1 <= retries)%nat ->
  fst (download_image w image_url filename retries delay s) = Done true.
Proof.
  intros [Hget Hwrite] Hretries.
  pose proof (download_image_run w image_url filename retries delay s) as H.
  inversion H as [Hfail Hr Hs | m body Hlt Hb Hg Hw Hr Hs | m body Hlt Hb Hg Hw Hr Hs
                 | m body written Hlt Hb Hg Hw Hr Hs | m body Hlt Hb Hg Hw Hr Hs].
  - exfalso. destruct (Hget image_url (requests s + 0)%nat) as (body & E).
    exact (failed_not_200 _ _ (Hfail 0%nat Hretries) E).
  - reflexivity.
  - rewrite Hwrite in Hw. discriminate Hw.
  - rewrite Hwrite in Hw. discriminate Hw.
  - rewrite Hwrite in Hw. discriminate Hw.
Qed.

Lemma cards_loop_obliging cs : forall data s,
  obliging w ->
  fst (for_acc cs data (process_card w) s) = Done (data ++ records_of cs).
Proof.
  induction cs as [|card cs IH]; intros data s Hw.
  - simpl. now rewrite app_nil_r.
  - cbn [for_acc]. unfold bind. rewrite process_card_eq. unfold records_of. cbn [flat_map].
    destruct (fields card) as [[[[[name price] text] image_url] ad_url]|].
    + pose proof (download_image_obliging image_url (img_filename_of name) RETRIES DELAY
                    (log CardEntered s) Hw ltac:(unfold RETRIES; lia)) as Hd.
      destruct (download_image w image_url (img_filename_of name) RETRIES DELAY
                  (log CardEntered s)) as [r s2]. simpl in Hd. subst r.
      rewrite IH by exact Hw. unfold records_of. now rewrite <- app_assoc.
    + rewrite IH by exact Hw. reflexivity.
Qed.

Lemma scrape_page_obliging fuel link n page data s data' :
  obliging w ->
  fst (scrape_page w fuel link n page data s) = Done data' ->
  data' = data ++ records_of (cards (page_now w s)).
Proof.
  intros Hw. unfold scrape_page.
  rewrite (bind_Done _ _ s _ s (eq_refl : find_cards w s = (Done _, s))).
  pose proof (cards_loop_obliging (cards (page_now w s)) data s Hw) as Hc.
  destruct (for_acc (cards (page_now w s)) data (process_card w) s) as [r s1] eqn:Ec.
  simpl in Hc. subst r. rewrite (bind_Done _ _ _ _ _ Ec).
  destruct (bind (if (page <? n)%Z
                  then driver_get w (next_page_url link page) ;; wait_for_cards w ;;
                       slow_scroll_page w fuel SCROLL_PAUSE_TIME
                  else ret tt)
              (fun _ => ret (data ++ records_of (cards (page_now w s)))) s1) as [r s2] eqn:E.
  destruct (bind_ret_Done _ _ _ _ _ E) as (_ & Hd). simpl. intros Hr. now apply Hd.
Qed.

(** The loop over the pages [a .. a+k-1], when it returns: where the
    browser was sent, and, in an obliging world, what was collected. *)
Lemma pages_loop_visited fuel link k : forall a data s data' s',
  for_acc (map Z.of_nat (seq a k)) data
    (scrape_page w fuel link (Z.of_nat (a + k - 1))) s = (Done data', s') ->
  exists m,
    adds s s' m
    /\ visited m = map (fun i => next_page_url link (Z.of_nat i)) (seq a (k - 1))
    /\ cards_entered m
       = match k with
         | O => 0%nat
         | S _ => cards_on w (location s :: visited m)
         end
    /\ (obliging w -> (1 <= k)%nat ->
        data' = data ++ flat_map (fun url => records_of (cards (web w url)))
                          (location s :: visited m)).
Proof.
  induction k as [|k IH]; intros a data s data' s' H.
  - simpl in H. injection H as <- <-. exists []. split; [apply adds_refl|].
    repeat split. intros _ Hk. lia.
  - cbn [seq map for_acc] in H.
    replace (Z.of_nat (a + S k - 1)) with (Z.of_nat (S a + k - 1)) in H by (f_equal; lia).
    destruct (Z.ltb_spec (Z.of_nat a) (Z.of_nat (S a + k - 1))) as [Hlt | Hge].
    + assert (Hk : (1 <= k)%nat) by lia.
      destruct (scrape_page_next w fuel link (Z.of_nat (S a + k - 1)) (Z.of_nat a) data s)
        as (new1 & m1 & r1 & s1 & E1 & Hl1 & Ha1 & Hv1 & Hc1 & Hd1 & Hn1 & Hf1 & Hr1).
      { now apply Z.ltb_lt. }
      pose proof (scrape_page_obliging fuel link (Z.of_nat (S a + k - 1)) (Z.of_nat a) data s)
        as Hob. rewrite E1 in Hob. simpl in Hob.
      destruct Hr1 as [-> | [-> | [-> | ->]]];
        [| rewrite (bind_Raised _ _ _ _ _ E1) in H; discriminate H
         | rewrite (bind_Raised _ _ _ _ _ E1) in H; discriminate H
         | rewrite (bind_Hung _ _ _ _ E1) in H; discriminate H].
      specialize (Hl1 _ eq_refl).
      rewrite (bind_Done _ _ _ _ _ E1) in H.
      destruct (IH (S a) (data ++ new1) s1 data' s' H) as (m2 & Ha2 & Hv2 & Hc2 & Hd2).
      exists ((m1 ++ [Navigate (next_page_url link (Z.of_nat a))]) ++ m2).
      split; [now apply (adds_trans s s1 s')|].
      rewrite !visited_app, !cards_entered_app, Hv1, Hc1, Hv2, Hc2, Hl1.
      destruct k as [|k']; [lia|].
      replace (S (S k') - 1)%nat with (S k') by lia.
      replace (S k' - 1)%nat with k' in * by lia.
      cbn [seq map app visited cards_on foldr cards_entered]. rewrite ?Hv2.
      split; [reflexivity|]. split; [unfold page_now; lia|].
      intros Hw _. rewrite (Hd2 Hw ltac:(lia)), (Hob _ Hw eq_refl), Hl1, ?Hv2.
      cbn [flat_map]. rewrite <- app_assoc. reflexivity.
    + assert (Hk : k = 0%nat) by lia. subst k.
      destruct (scrape_page_last w fuel link (Z.of_nat (S a + 0 - 1)) (Z.of_nat a) data s)
        as (new1 & m1 & s1 & E1 & Hl1 & Ha1 & Hv1 & Hc1 & Hd1 & Hn1 & Hf1).
      { now apply Z.ltb_ge. }
      pose proof (scrape_page_obliging fuel link (Z.of_nat (S a + 0 - 1)) (Z.of_nat a) data s)
        as Hob. rewrite E1 in Hob. simpl in Hob.
      rewrite (bind_Done _ _ _ _ _ E1) in H. simpl in H. injection H as <- <-.
      exists m1. split; [exact Ha1|]. rewrite Hv1, Hc1. simpl.
      split; [reflexivity|]. split; [unfold page_now; lia|].
      intros Hw _. rewrite (Hob _ Hw eq_refl). unfold page_now. now rewrite app_nil_r.
Qed.

(** A returned run of [scrape_olx], given the page count read off the
    first page. *)
Lemma scrape_olx_visited fuel link s data s' n :
  scrape_olx w fuel link s = (Done data, s') ->
  number_of_pages_of w (pagination (web w link)) s = (Done n, s) ->
  exists m,
    adds s s' (Navigate link :: m)
    /\ visited m = map (fun i => next_page_url link (Z.of_nat i)) (seq 1 (Z.to_nat n - 1))
    /\ cards_entered m
       = match Z.to_nat n with
         | O => 0%nat
         | S _ => cards_on w (link :: visited m)
         end
    /\ (obliging w -> (1 <= n)%Z ->
        data = flat_map (fun url => records_of (cards (web w url))) (link :: visited m))
    /\ ((n <= 0)%Z -> data = []).
Proof.
  intros H Hn. rewrite scrape_olx_eq in H.
  destruct (page_loads w link); [|discriminate H]. cbn zeta in H.
  set (s1 := log (Navigate link) (set_location link s)) in H.
  assert (Ha1 : adds s s1 [Navigate link]) by (exists [Navigate link]; split; reflexivity).
  destruct (cards (web w link)) as [|c cs]; [discriminate H|].
  destruct (slow_scroll_page_run w fuel SCROLL_PAUSE_TIME s1) as (_ & Ha2 & Hl2).
  destruct (slow_scroll_page w fuel SCROLL_PAUSE_TIME s1) as [[[]|e|] s2];
    [| discriminate H | discriminate H]. simpl in Ha2, Hl2.
  rewrite number_of_pages_of_eq in H, Hn.
  unfold page_now in H. rewrite Hl2 in H.
  destruct (last (pagination (web w link))) as [text|].
  - destruct (int w text) as [n'|]; [|discriminate Hn]. injection Hn as ->.
    destruct (makedirs_run w IMAGE_DIR s2) as (r3 & E3 & [-> | ->]); rewrite E3 in H;
      [|discriminate H].
    set (s3 := log (Makedirs IMAGE_DIR) s2) in H.
    assert (Ha3 : adds s s3 [Navigate link]).
    { apply (adds_trans s s1 s3 [_] []); [exact Ha1|].
      apply (adds_trans s1 s2 s3 [] []); [exact Ha2|]. exists [Makedirs IMAGE_DIR]. now split. }
    unfold range_from_1 in H.
    destruct (Z.to_nat n) as [|k] eqn:Ek.
    + simpl in H. injection H as <- <-. exists []. split; [exact Ha3|].
      repeat split. intros _ Hpos. lia.
    + assert (En : n = Z.of_nat (1 + S k - 1)) by lia. rewrite En in H.
      destruct (pages_loop_visited fuel link (S k) 1%nat [] s3 data s' H)
        as (m & Ha & Hv & Hc & Hd).
      change (location s3) with (location s2) in Hc, Hd. rewrite Hl2 in Hc, Hd.
      exists m. split; [now apply (adds_trans s s3 s' [_] m)|].
      split; [exact Hv|]. split; [exact Hc|].
      split; [intros Hw _; apply (Hd Hw); lia | intros Hle; lia].
  - injection Hn as <-.
    destruct (makedirs_run w IMAGE_DIR s2) as (r3 & E3 & [-> | ->]); rewrite E3 in H;
      [|discriminate H].
    set (s3 := log (Makedirs IMAGE_DIR) s2) in H.
    assert (Ha3 : adds s s3 [Navigate link]).
    { apply (adds_trans s s1 s3 [_] []); [exact Ha1|].
      apply (adds_trans s1 s2 s3 [] []); [exact Ha2|]. exists [Makedirs IMAGE_DIR]. now split. }
    change (range_from_1 1) with (map Z.of_nat (seq 1 1)) in H.
    change 1%Z with (Z.of_nat (1 + 1 - 1)) in H at 1.
    destruct (pages_loop_visited fuel link 1%nat 1%nat [] s3 data s' H)
      as (m & Ha & Hv & Hc & Hd).
    change (location s3) with (location s2) in Hc, Hd. rewrite Hl2 in Hc, Hd.
    exists m. split; [now apply (adds_trans s s3 s' [_] m)|].
    split; [exact Hv|]. split; [exact Hc|].
    split; [intros Hw _; apply (Hd Hw); lia | intros Hle; lia].
Qed.

End PagesProofs.

(** ** Claims about scrape_olx *)

Lemma adds_visited s s' m : adds s s' m -> visited (new_events s s') = visited m.
Proof. intros H. now rewrite <- visited_markers, (adds_new_events s s' m H). Qed.

Lemma adds_cards_entered s s' m :
  adds s s' m -> cards_entered (new_events s s') = cards_entered m.
Proof. intros H. now rewrite <- cards_entered_markers, (adds_new_events s s' m H). Qed.

Lemma adds_downloads_ok s s' m :
  adds s s' m -> downloads_ok (new_events s s') = downloads_ok m.
Proof. intros H. now rewrite <- downloads_ok_markers, (adds_new_events s s' m H). Qed.

(** C3. When [scrape_olx] returns its list, the list has as many
    records as there were calls of [download_image] that returned
    [True], and that number is at most the number of cards the loop
    over cards was entered for, which in turn is at most the number of
    cards on the pages the browser was sent to. *)
Theorem scrape_olx_cardinality w fuel websitelink s data s' :
  scrape_olx w fuel websitelink s = (Done data, s') ->
  let t := new_events s s' in
  length data = downloads_ok t
  /\ (length data <= cards_entered t)%nat
  /\ (cards_entered t <= cards_on w (visited t))%nat.
Proof.
  intros H t. subst t.
  destruct (scrape_olx_run w fuel websitelink s) as (m & r & s'' & E & Ha & Hr).
  rewrite H in E. injection E as <- <-.
  rewrite (adds_visited _ _ _ Ha), (adds_cards_entered _ _ _ Ha), (adds_downloads_ok _ _ _ Ha).
  destruct Hr as [(e & Hr) | [Hr | (data' & Hr & Hd & Hle & Hc & _)]]; try discriminate Hr.
  injection Hr as <-. simpl. split; [now rewrite Hd|]. split; [exact Hle | exact Hc].
Qed.

Lemma scrape_olx_cardinality_witness :
  let run := scrape_olx world_shop 1 shop_link start in
  length [record_of "red bike" "100" "Kyiv - Today 10:00" "http://olx/1";
          record_of "red bike" "120" "Lviv" "http://olx/2"]
  = downloads_ok (new_events start (snd run))
  /\ cards_entered (new_events start (snd run)) = 3%nat.
Proof.
  cbn zeta.
  destruct (scrape_olx_cardinality world_shop 1 shop_link start
              [record_of "red bike" "100" "Kyiv - Today 10:00" "http://olx/1";
               record_of "red bike" "120" "Lviv" "http://olx/2"]
              (snd (scrape_olx world_shop 1 shop_link start))) as (Hd & _ & _).
  - vm_compute. reflexivity.
  - split; [exact Hd|]. vm_compute. reflexivity.
Defined.

(** C5. Without pagination items the page count is 1; and when the
    pagination is absent or reports 1, [scrape_olx] sends the browser
    to the search URL and nowhere else, however the run ends.  When it
    returns, it is still on that page, it has entered the loop over
    cards once for each card of the page, every record of its list
    comes from a card of the page, and if moreover every download
    succeeds the list holds the record of each complete card.  It does
    return when the page loads, shows a card and stops growing within
    [fuel] scrolls, and the image directory can be made. *)
Theorem scrape_olx_one_page w fuel websitelink s :
  (pagination (web w websitelink) = []
   \/ exists text, last (pagination (web w websitelink)) = Some text /\ int w text = Some 1%Z) ->
  let run := scrape_olx w fuel websitelink s in
  number_of_pages_of w [] = ret 1%Z
  /\ (exists s0, number_of_pages_of w (pagination (web w websitelink)) s = (Done 1%Z, s0))
  /\ visited (new_events s (snd run)) = [websitelink]
  /\ (forall data,
        fst run = Done data ->
        location (snd run) = websitelink
        /\ cards_entered (new_events s (snd run)) = length (cards (web w websitelink))
        /\ Forall (from_cards (cards (web w websitelink))) data
        /\ (obliging w -> data = records_of (cards (web w websitelink))))
  /\ (page_loads w websitelink = true -> cards (web w websitelink) <> [] ->
      settles_within fuel (web w websitelink) ->
      files s !! IMAGE_DIR = None -> can_makedirs w IMAGE_DIR = true ->
      exists data, fst run = Done data).
Proof.
  intros Hone run. subst run.
  assert (Hn : forall s0, number_of_pages_of w (pagination (web w websitelink)) s0 = (Done 1%Z, s0)).
  { intros s0. rewrite number_of_pages_of_eq.
    destruct Hone as [-> | (text & -> & ->)]; reflexivity. }
  split; [reflexivity|]. split; [now exists s|].
  rewrite scrape_olx_eq.
  destruct (page_loads w websitelink) eqn:Hload.
  2:{ cbn [fst snd]. split; [|split; [discriminate | intros H; discriminate H]].
      apply (adds_visited s _ [Navigate websitelink]).
      exists [Navigate websitelink]. split; reflexivity. }
  cbn zeta.
  set (s1 := log (Navigate websitelink) (set_location websitelink s)).
  assert (Ha1 : adds s s1 [Navigate websitelink])
    by (exists [Navigate websitelink]; split; reflexivity).
  destruct (cards (web w websitelink)) as [|c cs] eqn:Ec.
  { cbn [fst snd]. split; [now rewrite (adds_visited _ _ _ Ha1)|].
    split; [discriminate | intros _ Hc; congruence]. }
  destruct (slow_scroll_page_run w fuel SCROLL_PAUSE_TIME s1) as (Hr & Ha2 & Hl2).
  pose proof (slow_scroll_page_ends w fuel SCROLL_PAUSE_TIME s1 eq_refl) as Hends.
  pose proof (slow_scroll_page_files w fuel SCROLL_PAUSE_TIME s1) as Hfiles.
  destruct (slow_scroll_page w fuel SCROLL_PAUSE_TIME s1) as [r2 s2].
  simpl in Hr, Ha2, Hl2, Hends, Hfiles.
  assert (Ha2' : adds s s2 [Navigate websitelink])
    by (apply (adds_trans s s1 s2 [_] []); assumption).
  destruct Hr as [-> | ->].
  - unfold page_now. rewrite Hl2, Hn.
    destruct (makedirs_run w IMAGE_DIR s2) as (r3 & E3 & Hr3). rewrite E3.
    set (s3 := log (Makedirs IMAGE_DIR) s2) in *.
    assert (Ha3 : adds s s3 [Navigate websitelink]).
    { apply (adds_trans s s2 s3 [_] []); [exact Ha2'|]. exists [Makedirs IMAGE_DIR]. now split. }
    destruct Hr3 as [-> | ->].
    + change (range_from_1 1) with [1%Z]. cbn [for_acc].
      destruct (scrape_page_last w fuel websitelink 1 1 [] s3 eq_refl)
        as (new & m & s' & E & Hl & Ha & Hv & Hc & _ & _ & Hf).
      pose proof (scrape_page_obliging w fuel websitelink 1 1 [] s3) as Hob.
      rewrite E in Hob. simpl in Hob.
      rewrite (bind_Done _ _ _ _ _ E). cbn [fst snd ret].
      assert (Ha' : adds s s' ([Navigate websitelink] ++ m)) by now apply (adds_trans s s3 s').
      assert (Hp : page_now w s3 = web w websitelink) by (unfold page_now; simpl; now rewrite Hl2).
      rewrite Hp in Hc, Hf, Hob.
      split; [rewrite (adds_visited _ _ _ Ha'); now rewrite visited_app, Hv|].
      split.
      { intros data Hd. injection Hd as <-. split; [rewrite Hl; simpl; exact Hl2|].
        split; [now rewrite (adds_cards_entered _ _ _ Ha'), cards_entered_app, Hc, Ec|].
        rewrite <- Ec. split; [exact Hf|]. intros Hw. now apply (Hob _ Hw). }
      intros _ _ _ _ _. now exists new.
    + cbn [fst snd]. split; [now rewrite (adds_visited _ _ _ Ha3)|]. split; [discriminate|].
      intros _ _ _ Hnone Hmk.
      rewrite (makedirs_ok w IMAGE_DIR s2) in E3 by (rewrite ?Hfiles; assumption).
      discriminate E3.
  - cbn [fst snd]. split; [now rewrite (adds_visited _ _ _ Ha2')|]. split; [discriminate|].
    intros _ _ Hsettles _ _. specialize (Hends Hsettles). discriminate Hends.
Qed.

Lemma scrape_olx_one_page_witness :
  visited (new_events start (snd (scrape_olx world_shop 1 shop_link start))) = [shop_link]
  /\ cards_entered (new_events start (snd (scrape_olx world_shop 1 shop_link start))) = 3%nat
  /\ exists data, fst (scrape_olx world_shop 1 shop_link start) = Done data.
Proof.
  destruct (scrape_olx_one_page world_shop 1 shop_link start) as (_ & _ & Hv & Hc & Hd).
  - left. reflexivity.
  - split; [exact Hv|]. split.
    + apply (Hc shop_records). vm_compute. reflexivity.
    + apply Hd.
      * reflexivity.
      * discriminate.
      * exists 0%nat. split; [lia | reflexivity].
      * reflexivity.
      * reflexivity.
Defined.

(** What [location, timeposted = ... if len(...) == 2 else ("", "")]
    gives for a list that has not exactly two parts. *)
Lemma location_and_time_other (parts : list string) :
  length parts <> 2%nat -> location_and_time parts = ("", "").
Proof.
  destruct parts as [|a [|b [|c parts]]]; simpl; try reflexivity. intros H. now contradict H.
Qed.

(** C9. Every record of the list [scrape_olx] returns has exactly the
    keys Name, Price, Location, Time Posted, Image File and Ad URL, and
    holds what was read off a card of some page.  If the card's
    location-date text does not split on " - " into exactly two parts,
    Location and Time Posted are both the empty string; if it does,
    they are the two parts. *)
Theorem scrape_olx_records w fuel websitelink s data s' record :
  scrape_olx w fuel websitelink s = (Done data, s') ->
  In record data ->
  keys record = ["Name"; "Price"; "Location"; "Time Posted"; "Image File"; "Ad URL"]
  /\ exists url card name price text image_url ad_url,
       In card (cards (web w url))
       /\ h6 card = Some name /\ ad_price card = Some price
       /\ location_date card = Some text
       /\ img_src card = Some image_url /\ a_href card = Some ad_url
       /\ getitem record "Name" = Some name
       /\ getitem record "Price" = Some price
       /\ getitem record "Ad URL" = Some ad_url
       /\ (length (split " - " text) <> 2%nat ->
           getitem record "Location" = Some "" /\ getitem record "Time Posted" = Some "")
       /\ (forall place time, split " - " text = [place; time] ->
           getitem record "Location" = Some place /\ getitem record "Time Posted" = Some time).
Proof.
  intros H Hin.
  destruct (scrape_olx_run w fuel websitelink s) as (m & r & s'' & E & Ha & Hr).
  rewrite H in E. injection E as <- <-.
  destruct Hr as [(e & Hr) | [Hr | (data' & Hr & _ & _ & _ & Hf)]]; try discriminate Hr.
  injection Hr as <-.
  rewrite Forall_forall in Hf. apply list_elem_of_In in Hin.
  destruct (Hf record Hin)
    as (url & card & name & price & text & image_url & ad_url & Hc & Hfields & ->).
  split; [reflexivity|].
  exists url, card, name, price, text, image_url, ad_url.
  unfold fields in Hfields.
  destruct (h6 card) as [name'|]; [|discriminate].
  destruct (ad_price card) as [price'|]; [|discriminate].
  destruct (location_date card) as [text'|]; [|discriminate].
  destruct (img_src card) as [image_url'|]; [|discriminate].
  destruct (a_href card) as [ad_url'|]; [|discriminate].
  injection Hfields as -> -> -> -> ->.
  repeat (split; [first [exact Hc | reflexivity]|]).
  split.
  - intros Hlen. simpl. now rewrite (location_and_time_other _ Hlen).
  - intros place time Hsplit. simpl. now rewrite Hsplit.
Qed.

Lemma scrape_olx_records_witness :
  keys (record_of "red bike" "120" "Lviv" "http://olx/2")
  = ["Name"; "Price"; "Location"; "Time Posted"; "Image File"; "Ad URL"]
  /\ getitem (record_of "red bike" "120" "Lviv" "http://olx/2") "Location" = Some ""
  /\ getitem (record_of "red bike" "120" "Lviv" "http://olx/2") "Time Posted" = Some "".
Proof.
  destruct (scrape_olx_records world_shop 1 shop_link start
              [record_of "red bike" "100" "Kyiv - Today 10:00" "http://olx/1";
               record_of "red bike" "120" "Lviv" "http://olx/2"]
              (snd (scrape_olx world_shop 1 shop_link start))
              (record_of "red bike" "120" "Lviv" "http://olx/2")) as (Hk & _).
  - vm_compute. reflexivity.
  - right. left. reflexivity.
  - split; [exact Hk|]. split; reflexivity.
Defined.

(** ** The image file of a record *)

Lemma prefix_slash c x :
  String.prefix "/" (String c x) = if Ascii.ascii_dec "/" c then true else false.
Proof.
  change (String.prefix "/" (String c x))
    with (if Ascii.ascii_dec "/" c then String.prefix "" x else false).
  destruct (Ascii.ascii_dec "/" c); [destruct x|]; reflexivity.
Qed.

Lemma prefix_slash_replace name :
  String.prefix "/" (replace " " "_" name ++ ".jpg") = String.prefix "/" name.
Proof.
  destruct name as [|c name]; [reflexivity|].
  cbn [replace].
  destruct (Ascii.eqb_spec c " ") as [->|Hne]; [reflexivity|].
  change (String c (replace " " "_" name) ++ ".jpg")%string
    with (String c (replace " " "_" name ++ ".jpg")%string).
  now rewrite !prefix_slash.
Qed.

(** [os.path.join("images", <name>.jpg)], spelled out. *)
Lemma img_filename_of_eq name :
  img_filename_of name
  = if String.prefix "/" name
    then (replace " " "_" name ++ ".jpg")%string
    else ("images/" ++ replace " " "_" name ++ ".jpg")%string.
Proof.
  unfold img_filename_of, path_join. rewrite prefix_slash_replace.
  destruct (String.prefix "/" name); reflexivity.
Qed.

(** C10.  The code breaks the claim: a listing called "/a" is read
    off the page, its image is downloaded and its record returned with
    the image file "/a.jpg", a file in the root directory and not
    "images//a.jpg" in the image directory the script has just made:
    [os.path.join] drops "images" before a name that starts with a
    slash. *)
Lemma image_file_outside_images :
  fst (scrape_olx world_slash 1 shop_link start)
  = Done [record_of "/a" "1" "Kyiv - Today" "http://olx/1"]
  /\ getitem (record_of "/a" "1" "Kyiv - Today" "http://olx/1") "Name" = Some "/a"
  /\ getitem (record_of "/a" "1" "Kyiv - Today" "http://olx/1") "Image File" = Some "/a.jpg"
  /\ "/a.jpg" <> ("images/" ++ replace " " "_" "/a" ++ ".jpg")%string.
Proof.
  split; [vm_compute; reflexivity|]. split; [reflexivity|]. split; [reflexivity|].
  vm_compute. discriminate.
Qed.

(** How the code derives the image file from the listing's name [n]:
    [os.path.join("images", n' + ".jpg")] for [n'], the name with its
    spaces replaced by underscores.  Cards of equal names share the
    path, and a card whose download succeeds leaves its own image
    there, whatever an earlier card had stored. *)
Lemma image_file_from_name w :
  (forall name,
      img_filename_of name
      = if String.prefix "/" name
        then (replace " " "_" name ++ ".jpg")%string
        else ("images/" ++ replace " " "_" name ++ ".jpg")%string)
  /\ (forall fuel websitelink s data s' record,
        scrape_olx w fuel websitelink s = (Done data, s') ->
        In record data ->
        exists name,
          getitem record "Name" = Some name
          /\ getitem record "Image File" = Some (img_filename_of name))
  /\ (forall card data s s' name price text image_url ad_url,
        fields card = Some (name, price, text, image_url, ad_url) ->
        process_card w card data s = (Done (data ++ [record_of name price text ad_url]), s') ->
        exists k body,
          (requests s <= k)%nat
          /\ http_get w image_url k = Response 200 body
          /\ files s' !! img_filename_of name = Some body).
Proof.
  split; [exact img_filename_of_eq|]. split.
  - intros fuel websitelink s data s' record H Hin.
    destruct (scrape_olx_run w fuel websitelink s) as (m & r & s'' & E & Ha & Hr).
    rewrite H in E. injection E as <- <-.
    destruct Hr as [(e & Hr) | [Hr | (data' & Hr & _ & _ & _ & Hf)]]; try discriminate Hr.
    injection Hr as <-.
    rewrite Forall_forall in Hf. apply list_elem_of_In in Hin.
    destruct (Hf record Hin)
      as (url & card & name & price & text & image_url & ad_url & Hc & Hfields & ->).
    exists name. split; reflexivity.
  - intros card data s s' name price text image_url ad_url Hf H.
    rewrite process_card_eq, Hf in H.
    pose proof (download_image_run w image_url (img_filename_of name) RETRIES DELAY
                  (log CardEntered s)) as Hrun.
    destruct (download_image w image_url (img_filename_of name) RETRIES DELAY (log CardEntered s))
      as [[[|]|e|] s2]; simpl in Hrun.
    + injection H as <-.
      inversion Hrun as [ | m body _ Hb Hg Hw Hs | | | ]. subst s2.
      exists (requests s + m)%nat, body. split; [lia|]. split; [exact Hg|].
      simpl. apply lookup_insert_eq.
    + injection H as H _. apply (f_equal (@length dict)) in H.
      rewrite length_app in H. simpl in H. lia.
    + injection H as H _. apply (f_equal (@length dict)) in H.
      rewrite length_app in H. simpl in H. lia.
    + discriminate H.
Qed.

Lemma image_file_from_name_witness :
  let s1 := snd (process_card world_shop card_bike [] start) in
  let s2 := snd (process_card world_shop card_bike_again
                   [record_of "red bike" "100" "Kyiv - Today 10:00" "http://olx/1"] s1) in
  files s1 !! "images/red_bike.jpg" = Some jpeg
  /\ exists k body,
       (requests s1 <= k)%nat
       /\ http_get world_shop "http://img/2.jpg" k = Response 200 body
       /\ files s2 !! img_filename_of "red bike" = Some body.
Proof.
  cbn zeta. split; [vm_compute; reflexivity|].
  destruct (image_file_from_name world_shop) as (_ & _ & H).
  apply (H card_bike_again
           [record_of "red bike" "100" "Kyiv - Today 10:00" "http://olx/1"]
           (snd (process_card world_shop card_bike [] start))
           (snd (process_card world_shop card_bike_again
                   [record_of "red bike" "100" "Kyiv - Today 10:00" "http://olx/1"]
                   (snd (process_card world_shop card_bike [] start))))
           "red bike" "120" "Lviv" "http://img/2.jpg" "http://olx/2").
  - reflexivity.
  - vm_compute. reflexivity.
Defined.

(** ** save_to_excel *)

Section ExportProofs.

Context (w : World).

Lemma ws_append_eq row ws s :
  ws_append row ws s
  = if forallb legal row
    then (Done {| title := title ws; rows := rows ws ++ [map cell_text row];
                  images := images ws; row_dimensions := row_dimensions ws;
                  column_dimensions := column_dimensions ws |}, s)
    else (Raised IllegalCharacterError, s).
Proof. unfold ws_append. now destruct (forallb legal row). Qed.

Lemma legal_empty : legal "" = true.
Proof. reflexivity. Qed.

(** A text of at most [n] characters is kept whole. *)
Lemma take_chars_all n : forall s, (len s <= n)%nat -> take_chars n s = s.
Proof.
  induction n as [|n IHn]; intros s; induction s as [|c s IHs]; intros H; try reflexivity;
    cbn [take_chars len] in *;
    destruct ((128 <=? nat_of_ascii c) && (nat_of_ascii c <? 192))%nat.
  - rewrite IHs by lia. reflexivity.
  - lia.
  - rewrite IHs by lia. reflexivity.
  - rewrite IHn by lia. reflexivity.
Qed.

Lemma cell_text_short value : (len value <= MAX_CELL_CHARS)%nat -> cell_text value = value.
Proof. apply take_chars_all. Qed.

(** What [printable] says of an entry with the five texts. *)
Lemma printable_iff entry name price location timeposted ad_url :
  getitem entry "Name" = Some name ->
  getitem entry "Price" = Some price ->
  getitem entry "Location" = Some location ->
  getitem entry "Time Posted" = Some timeposted ->
  getitem entry "Ad URL" = Some ad_url ->
  printable entry <-> forallb legal [name; price; location; timeposted; ""; ad_url] = true.
Proof.
  intros Hn Hp Hl Ht Ha. cbn [forallb]. rewrite legal_empty. split.
  - intros H.
    rewrite (H "Name" name), (H "Price" price), (H "Location" location),
      (H "Time Posted" timeposted), (H "Ad URL" ad_url);
      first [reflexivity | assumption | (unfold text_keys; simpl; tauto)].
  - intros H. rewrite !andb_true_iff in H. destruct H as (H1 & H2 & H3 & H4 & _ & H5 & _).
    intros key value Hin Hget. unfold text_keys in Hin. simpl in Hin.
    destruct Hin as [<- | [<- | [<- | [<- | [<- | []]]]]].
    + replace value with name by congruence. exact H1.
    + replace value with price by congruence. exact H2.
    + replace value with location by congruence. exact H3.
    + replace value with timeposted by congruence. exact H4.
    + replace value with ad_url by congruence. exact H5.
Qed.

(** One entry: it is complete, printable and its image loads, and then
    its row, picture and row height are added; or else [export_entry]
    raises.  The state is as before either way. *)
Lemma export_entry_cases entry ws s :
  (complete entry /\ printable entry /\ loadable w s entry
   /\ export_entry w entry ws s
      = (Done {| title := title ws;
                 rows := rows ws ++ [cells entry];
                 images := images ws ++ pictures (S (length (rows ws))) [entry];
                 row_dimensions := row_dimensions ws ++ heights (S (length (rows ws))) [entry];
                 column_dimensions := column_dimensions ws |}, s))
  \/ (~ (complete entry /\ printable entry /\ loadable w s entry)
      /\ exists e, export_entry w entry ws s = (Raised e, s)).
Proof.
  unfold export_entry, item.
  destruct (getitem entry "Name") as [name|] eqn:Hn.
  2:{ right. split; [intros ((? & ? & ? & ? & ? & ? & H & _) & _); congruence|].
      eexists. reflexivity. }
  destruct (getitem entry "Price") as [price|] eqn:Hp.
  2:{ right. split; [intros ((? & ? & ? & ? & ? & ? & _ & H & _) & _); congruence|].
      eexists. reflexivity. }
  destruct (getitem entry "Location") as [location|] eqn:Hl.
  2:{ right. split; [intros ((? & ? & ? & ? & ? & ? & _ & _ & H & _) & _); congruence|].
      eexists. reflexivity. }
  destruct (getitem entry "Time Posted") as [timeposted|] eqn:Ht.
  2:{ right. split; [intros ((? & ? & ? & ? & ? & ? & _ & _ & _ & H & _) & _); congruence|].
      eexists. reflexivity. }
  destruct (getitem entry "Ad URL") as [ad_url|] eqn:Ha.
  2:{ right. split; [intros ((? & ? & ? & ? & ? & ? & _ & _ & _ & _ & _ & H) & _); congruence|].
      eexists. reflexivity. }
  pose proof (printable_iff entry name price location timeposted ad_url Hn Hp Hl Ht Ha) as Hpr.
  cbv beta iota delta [bind ret]. rewrite ws_append_eq.
  destruct (forallb legal [name; price; location; timeposted; ""; ad_url]) eqn:Hlegal.
  2:{ right. split; [intros (_ & H & _); apply Hpr in H; discriminate H|].
      eexists. reflexivity. }
  destruct (getitem entry "Image File") as [image_file|] eqn:Hi.
  2:{ right. split; [intros ((? & ? & ? & ? & ? & ? & _ & _ & _ & _ & H & _) & _); congruence|].
      eexists. reflexivity. }
  cbv beta iota delta [bind ret Image].
  destruct (files s !! image_file) as [content|] eqn:Hfile.
  2:{ right. split; [intros (_ & _ & (? & ? & H1 & H2 & _)); congruence|].
      eexists. reflexivity. }
  destruct (is_image w image_file content) eqn:Himg.
  2:{ right. split; [intros (_ & _ & (? & ? & H1 & H2 & H3)); congruence|].
      eexists. reflexivity. }
  left. split; [do 6 eexists; repeat split; eassumption|].
  split; [now apply Hpr|]. split; [exists image_file, content; now repeat split|].
  unfold max_row, cells. cbn [rows add_image set_row_height title images row_dimensions
                              column_dimensions ref height pictures heights map].
  rewrite length_app, Nat.add_1_r, Hn, Hp, Hl, Ht, Ha, Hi. reflexivity.
Qed.

(** The loop over the entries: all of them are complete, printable
    and loadable, and the sheet has grown by their rows, pictures and
    row heights; or else the loop raises.  The state is as before. *)
Lemma export_loop_cases data : forall ws s,
  (Forall complete data /\ Forall printable data /\ Forall (loadable w s) data
   /\ for_acc data ws (export_entry w) s
      = (Done {| title := title ws;
                 rows := rows ws ++ map cells data;
                 images := images ws ++ pictures (S (length (rows ws))) data;
                 row_dimensions := row_dimensions ws ++ heights (S (length (rows ws))) data;
                 column_dimensions := column_dimensions ws |}, s))
  \/ (~ (Forall complete data /\ Forall printable data /\ Forall (loadable w s) data)
      /\ exists e, for_acc data ws (export_entry w) s = (Raised e, s)).
Proof.
  induction data as [|entry data IH]; intros ws s.
  - left. repeat (split; [constructor|]). simpl. unfold ret. rewrite !app_nil_r. now destruct ws.
  - cbn [for_acc].
    destruct (export_entry_cases entry ws s) as [(Hc & Hp & Hl & E) | (Hno & e & E)].
    + rewrite (bind_Done _ _ _ _ _ E).
      match goal with
      | |- context [for_acc data ?ws1 _ s] =>
          destruct (IH ws1 s) as [(Hcs & Hps & Hls & E') | (Hno & e & E')]
      end.
      * left. repeat (split; [now constructor|]). rewrite E'.
        cbn [title rows images row_dimensions column_dimensions pictures heights map].
        rewrite length_app, Nat.add_1_r, <- !app_assoc. reflexivity.
      * right. split; [|now exists e].
        intros (H1 & H2 & H3). apply Hno.
        inversion H1; inversion H2; inversion H3; subst. now repeat split.
    + right. split; [|exists e; now apply bind_Raised].
      intros (H1 & H2 & H3). apply Hno.
      inversion H1; inversion H2; inversion H3; subst. now repeat split.
Qed.

(** The sheet after the header row. *)
Lemma ws_append_headers s :
  ws_append headers {| title := "Ad Data"; rows := []; images := [];
                       row_dimensions := []; column_dimensions := [] |} s
  = (Done {| title := "Ad Data"; rows := [headers]; images := [];
             row_dimensions := []; column_dimensions := [] |}, s).
Proof. reflexivity. Qed.

(** [save_to_excel]: with entries that are complete, printable and
    loadable it does what saving the sheet does; with others it
    raises and changes nothing. *)
Lemma save_to_excel_cases data filename s :
  (Forall complete data /\ Forall printable data /\ Forall (loadable w s) data
   /\ save_to_excel w data filename s
      = match workbook_write w filename (saved_sheet data) with
        | SaveOk archive =>
            (Done tt,
             log (Print (DataSavedTo filename))
               (log (WorkbookSaved filename)
                  (set_workbooks (<[filename := saved_sheet data]> (workbooks s))
                     (set_files (<[filename := archive]> (files s)) s))))
        | SaveRejects => (Raised ValueError, s)
        | SaveOpenFails => (Raised OSError, s)
        | SaveBreaksOff partial =>
            (Raised OSError,
             log (FileOpened filename)
               (set_workbooks (delete filename (workbooks s))
                  (set_files (<[filename := partial]> (files s)) s)))
        end)
  \/ (~ (Forall complete data /\ Forall printable data /\ Forall (loadable w s) data)
      /\ exists e, save_to_excel w data filename s = (Raised e, s)).
Proof.
  unfold save_to_excel. cbv zeta. rewrite (bind_Done _ _ _ _ _ (ws_append_headers s)).
  cbv beta.
  match goal with
  | |- context [for_acc data ?ws0 _] =>
      destruct (export_loop_cases data ws0 s) as [(Hc & Hp & Hl & E) | (Hno & e & E)]
  end.
  - left. repeat (split; [assumption|]). rewrite (bind_Done _ _ _ _ _ E).
    unfold bind, wb_save, print, emit.
    change (set_column_dimensions _ _) with (saved_sheet data).
    destruct (workbook_write w filename (saved_sheet data)); reflexivity.
  - right. split; [exact Hno|]. exists e. now apply bind_Raised.
Qed.

Lemma record_of_complete name price text ad_url : complete (record_of name price text ad_url).
Proof. unfold complete. do 6 eexists. repeat split; reflexivity. Qed.

End ExportProofs.

(** The pictures and row heights of the sheet, one by one. *)
Lemma pictures_lookup data : forall row i entry,
  data !! i = Some entry ->
  pictures row data !! i
  = Some {| ref := default "" (getitem entry "Image File");
            anchor := "E" ++ pretty (row + i)%nat; width := 215; height := 152 |}
  /\ heights row data !! i = Some ((row + i)%nat, 152%Z).
Proof.
  induction data as [|e data IH]; intros row [|i] entry H; simpl in H; try discriminate H.
  - injection H as ->. simpl. now rewrite Nat.add_0_r.
  - destruct (IH (S row) i entry H) as (Hp & Hh). simpl.
    now replace (row + S i)%nat with (S row + i)%nat by lia.
Qed.

Lemma pictures_length data : forall row,
  length (pictures row data) = length data /\ length (heights row data) = length data.
Proof.
  induction data as [|e data IH]; intros row; [split; reflexivity|].
  destruct (IH (S row)) as (Hp & Hh). simpl. now rewrite Hp, Hh.
Qed.

(** What a returning [save_to_excel] has done. *)
Lemma save_to_excel_done w data filename s :
  fst (save_to_excel w data filename s) = Done tt ->
  Forall complete data /\ Forall printable data /\ Forall (loadable w s) data
  /\ exists archive,
       workbook_write w filename (saved_sheet data) = SaveOk archive
       /\ save_to_excel w data filename s
          = (Done tt,
             log (Print (DataSavedTo filename))
               (log (WorkbookSaved filename)
                  (set_workbooks (<[filename := saved_sheet data]> (workbooks s))
                     (set_files (<[filename := archive]> (files s)) s)))).
Proof.
  intros H.
  destruct (save_to_excel_cases w data filename s) as [(Hc & Hp & Hl & E) | (_ & e & E)];
    rewrite E in H |- *; [|discriminate H].
  repeat (split; [assumption|]).
  destruct (workbook_write w filename (saved_sheet data)) as [archive| | |]; try discriminate H.
  now exists archive.
Qed.

(** C4, as stated, fails: for a record whose image file is not on
    disk, [save_to_excel] raises and writes no spreadsheet; and so it
    does, with the images on disk, when the workbook cannot be saved. *)
Lemma save_to_excel_image_missing :
  let run := save_to_excel world_shop
               [record_of "red bike" "100" "Kyiv - Today 10:00" "http://olx/1"]
               "ad_data_with_images.xlsx" start in
  let run' := save_to_excel world_unwritable shop_records
                "ad_data_with_images.xlsx" downloaded in
  files start !! "images/red_bike.jpg" = None
  /\ fst run = Raised OSError
  /\ workbooks (snd run) !! "ad_data_with_images.xlsx" = None
  /\ fst run' = Raised OSError
  /\ workbooks (snd run') !! "ad_data_with_images.xlsx" = None.
Proof. vm_compute. repeat split. Qed.

(** Nor is a spreadsheet written for a record one of whose texts
    holds a control character: the sheet refuses it. *)
Example save_to_excel_control_character :
  fst (save_to_excel world_shop
         [record_of (String "007" "bike") "100" "Kyiv - Today 10:00" "http://olx/1"]
         "ad_data_with_images.xlsx" downloaded)
  = Raised IllegalCharacterError.
Proof. vm_compute. reflexivity. Qed.

Lemma record_of_printable name price text ad_url :
  legal name = true -> legal price = true ->
  legal (fst (location_and_time (split " - " text))) = true ->
  legal (snd (location_and_time (split " - " text))) = true ->
  legal ad_url = true ->
  printable (record_of name price text ad_url).
Proof.
  intros H1 H2 H3 H4 H5.
  apply (printable_iff _ name price (fst (location_and_time (split " - " text)))
           (snd (location_and_time (split " - " text))) ad_url); try reflexivity.
  cbn [forallb]. now rewrite H1, H2, H3, H4, H5.
Qed.

(** C4, amended.  For every list of records that have the six keys,
    whose texts the sheet accepts (no control character other than
    tab, line feed and carriage return within the first 32767
    characters), whose image files are on disk and decode, and a file
    name the workbook can be written under, [save_to_excel] writes the
    workbook, with a sheet of exactly [len(records) + 1] rows: the
    header row (Name, Price, Location, Time Posted, Image, Ad URL),
    and for each record, in order, a row of six cells holding the
    record's Name, Price, Location, Time Posted, an empty string, and
    its Ad URL, each cut to its first 32767 characters, hence verbatim
    when it has no more than that. *)
Theorem save_to_excel_rows w data filename s archive :
  Forall complete data ->
  Forall printable data ->
  Forall (loadable w s) data ->
  workbook_write w filename (saved_sheet data) = SaveOk archive ->
  let run := save_to_excel w data filename s in
  fst run = Done tt
  /\ files (snd run) !! filename = Some archive
  /\ (exists ws,
        workbooks (snd run) !! filename = Some ws
        /\ length (rows ws) = (length data + 1)%nat
        /\ rows ws !! 0%nat
           = Some ["Name"; "Price"; "Location"; "Time Posted"; "Image"; "Ad URL"]
        /\ forall i entry,
             data !! i = Some entry ->
             exists row,
               rows ws !! S i = Some row
               /\ length row = 6%nat
               /\ row !! 0%nat = cell_text <$> getitem entry "Name"
               /\ row !! 1%nat = cell_text <$> getitem entry "Price"
               /\ row !! 2%nat = cell_text <$> getitem entry "Location"
               /\ row !! 3%nat = cell_text <$> getitem entry "Time Posted"
               /\ row !! 4%nat = Some ""
               /\ row !! 5%nat = cell_text <$> getitem entry "Ad URL")
  /\ (forall value, cell_text value = take_chars (Z.to_nat 32767) value)
  /\ (forall value, (len value <= Z.to_nat 32767)%nat -> cell_text value = value).
Proof.
  intros Hc Hp Hl Hsave run. subst run.
  destruct (save_to_excel_cases w data filename s) as [(_ & _ & _ & E) | (Hno & _)];
    [|exfalso; apply Hno; now repeat split].
  rewrite E, Hsave. cbn [fst snd].
  split; [reflexivity|]. split; [simpl; apply lookup_insert_eq|].
  split; [|split; [reflexivity | exact cell_text_short]].
  exists (saved_sheet data). split; [simpl; apply lookup_insert_eq|].
  cbn [rows saved_sheet set_column_dimensions sheet_of].
  split; [simpl; rewrite length_map; lia|]. split; [reflexivity|].
  intros i entry Hi. exists (cells entry). split.
  - change (map cells data) with (cells <$> data).
    change ((headers :: (cells <$> data)) !! S i) with ((cells <$> data) !! i).
    now rewrite list_lookup_fmap, Hi.
  - rewrite Forall_forall in Hc.
    destruct (Hc entry) as (name & price & location & timeposted & image_file & ad_url
                            & Hn & Hpr & Hlo & Ht & _ & Ha).
    { apply list_elem_of_lookup. now exists i. }
    unfold cells. rewrite Hn, Hpr, Hlo, Ht, Ha. repeat split.
Qed.

Lemma save_to_excel_rows_witness :
  exists ws,
    workbooks (snd (save_to_excel world_shop shop_records "ad_data_with_images.xlsx" downloaded))
      !! "ad_data_with_images.xlsx" = Some ws
    /\ length (rows ws) = 3%nat.
Proof.
  destruct (save_to_excel_rows world_shop shop_records "ad_data_with_images.xlsx" downloaded xlsx)
    as (_ & _ & (ws & Hws & Hlen & _) & _).
  - repeat constructor; apply record_of_complete.
  - repeat constructor; apply record_of_printable; reflexivity.
  - repeat constructor; exists "images/red_bike.jpg", jpeg; repeat split; reflexivity.
  - reflexivity.
  - exists ws. split; [exact Hws | exact Hlen].
Defined.

(** ** main *)

Section MainProofs.

Context (w : World).

Lemma get_user_input_outcome s :
  fst (get_user_input s) = Raised EOFError \/ exists link, fst (get_user_input s) = Done link.
Proof.
  unfold get_user_input, bind, input, ret.
  destruct (stdin s) as [|phrase [|answer rest]]; simpl; [now left | now left |].
  destruct (String.eqb (lower answer) "y"); simpl; [|right; eexists; reflexivity].
  destruct rest as [|city rest]; simpl; [now left | right; eexists; reflexivity].
Qed.

Lemma main_eq fuel s :
  main w fuel s
  = match get_user_input s with
    | (Done link, s1) =>
        if edge_starts w
        then try_finally
               (data <- scrape_olx w fuel link ;;
                save_to_excel w data "ad_data_with_images.xlsx")
               (driver_quit) (log DriverStarted s1)
        else (Raised WebDriverException, s1)
    | (Raised e, s1) => (Raised e, s1)
    | (Hung, s1) => (Hung, s1)
    end.
Proof.
  unfold main, webdriver_Edge.
  destruct (get_user_input s) as [[link|e|] s1] eqn:Hin.
  - rewrite (bind_Done _ _ _ _ _ Hin).
    destruct (edge_starts w); reflexivity.
  - now rewrite (bind_Raised _ _ _ _ _ Hin).
  - now rewrite (bind_Hung _ _ _ _ Hin).
Qed.

Lemma try_finally_quit {A} (c : M A) s :
  fst (c s) <> Hung ->
  try_finally c driver_quit s = (fst (c s), log DriverQuit (snd (c s))).
Proof.
  unfold try_finally, driver_quit, emit.
  destruct (c s) as [[a|e|] s2]; simpl; intros H; [reflexivity | reflexivity | congruence].
Qed.

(** The failures that stop [scrape_olx] before its loop over the
    pages. *)
Lemma scrape_olx_raises fuel link s :
  (page_loads w link = false ->
   fst (scrape_olx w fuel link s) = Raised WebDriverException)
  /\ (page_loads w link = true -> cards (web w link) = [] ->
      fst (scrape_olx w fuel link s) = Raised TimeoutException)
  /\ (page_loads w link = true -> cards (web w link) <> [] ->
      settles_within fuel (web w link) ->
      (forall text,
          last (pagination (web w link)) = Some text -> int w text = None ->
          fst (scrape_olx w fuel link s) = Raised ValueError)
      /\ (forall n,
            number_of_pages_of w (pagination (web w link)) s = (Done n, s) ->
            files s !! IMAGE_DIR <> None \/ can_makedirs w IMAGE_DIR = false ->
            fst (scrape_olx w fuel link s) = Raised OSError)).
Proof.
  split; [|split].
  - intros H. now rewrite scrape_olx_eq, H.
  - intros H Hc. now rewrite scrape_olx_eq, H, Hc.
  - intros H Hc Hsettles.
    destruct (scrape_olx_first_page w fuel link s H Hc Hsettles) as (s2 & _ & Hf & _ & _ & E).
    rewrite E, number_of_pages_of_eq. split.
    + intros text Hlast Hint. now rewrite Hlast, Hint.
    + intros n Hn Hdir. rewrite number_of_pages_of_eq in Hn.
      assert (Hmk : makedirs w IMAGE_DIR s2 = (Raised OSError, log (Makedirs IMAGE_DIR) s2))
        by (apply makedirs_fails; now rewrite Hf).
      destruct (last (pagination (web w link))) as [text|];
        [destruct (int w text); [|discriminate Hn]|]; now rewrite Hmk.
Qed.

Lemma number_of_pages_of_state pages s s' n :
  number_of_pages_of w pages s = (Done n, s) -> number_of_pages_of w pages s' = (Done n, s').
Proof.
  rewrite !number_of_pages_of_eq.
  destruct (last pages) as [text|]; [destruct (int w text)|]; intros H;
    first [discriminate H | now injection H as ->].
Qed.

(** With the driver started, what [scrape_olx] or [save_to_excel]
    raises is what [main] raises, once the driver is quit. *)
Lemma main_passes_on fuel s link s1 e :
  get_user_input s = (Done link, s1) ->
  edge_starts w = true ->
  (fst (scrape_olx w fuel link (log DriverStarted s1)) = Raised e
   \/ exists data s3,
        scrape_olx w fuel link (log DriverStarted s1) = (Done data, s3)
        /\ fst (save_to_excel w data "ad_data_with_images.xlsx" s3) = Raised e) ->
  aborts_after_quit (main w fuel s) e.
Proof.
  intros Hin Hedge Hfail. unfold aborts_after_quit.
  rewrite main_eq, Hin, Hedge.
  assert (Hwork : fst ((data <- scrape_olx w fuel link ;;
                        save_to_excel w data "ad_data_with_images.xlsx")
                         (log DriverStarted s1)) = Raised e).
  { unfold bind. destruct Hfail as [H | (data & s3 & E & H)].
    - destruct (scrape_olx w fuel link (log DriverStarted s1)) as [[d|e'|] s3];
        simpl in H |- *; try discriminate H. now injection H as ->.
    - rewrite E. exact H. }
  rewrite try_finally_quit by (rewrite Hwork; discriminate).
  cbn [fst snd]. split; [exact Hwork|]. simpl. apply last_snoc.
Qed.

End MainProofs.

(** C7, as stated, fails: the driver starts, the page shows no card,
    and the [TimeoutException] of the wait ends the run.  So do, with
    the driver started, a pagination item that is no number and a
    workbook that cannot be saved, and, before the driver is started,
    the end of the input. *)
Lemma run_aborted_by_timeout :
  edge_starts world_404 = true
  /\ fst (main world_404 1 typed) = Raised TimeoutException
  /\ In DriverStarted (trace (snd (main world_404 1 typed)))
  /\ fst (main world_odd_pagination 1 typed) = Raised ValueError
  /\ fst (main world_no_save 1 typed) = Raised OSError
  /\ fst (main world_shop 1 start) = Raised EOFError.
Proof.
  split; [reflexivity|]. split; [vm_compute; reflexivity|].
  split; [vm_compute; do 2 right; left; reflexivity|].
  repeat split; vm_compute; reflexivity.
Qed.

(** C7, amended.  A card whose extraction fails is skipped with one
    console line and the loop goes on with the next card; the loop
    over cards never raises, whatever downloads do.  Failures outside
    that loop do end the run, after the driver is quit: with the
    driver started, [main] raises [WebDriverException] when the page
    does not load, [TimeoutException] when it shows no card,
    [ValueError] when the page count is no number, [OSError] when the
    image directory cannot be made, and passes on whatever else
    [scrape_olx] or [save_to_excel] raises.  A driver that does not
    start ends the run before anything is scraped. *)
Theorem failures_that_end_the_run w :
  (forall card cards data s,
      fields card = None ->
      for_acc (card :: cards) data (process_card w) s
      = for_acc cards data (process_card w)
          (log (Print (ErrorProcessingCard NoSuchElementException)) (log CardEntered s)))
  /\ (forall cards data s,
        exists data' s', for_acc cards data (process_card w) s = (Done data', s'))
  /\ (forall fuel s link s1,
        get_user_input s = (Done link, s1) ->
        edge_starts w = true ->
        let run := main w fuel s in
        (page_loads w link = false -> aborts_after_quit run WebDriverException)
        /\ (page_loads w link = true -> cards (web w link) = [] ->
            aborts_after_quit run TimeoutException)
        /\ (page_loads w link = true -> cards (web w link) <> [] ->
            settles_within fuel (web w link) ->
            (forall text,
                last (pagination (web w link)) = Some text -> int w text = None ->
                aborts_after_quit run ValueError)
            /\ (forall n,
                  number_of_pages_of w (pagination (web w link)) s1 = (Done n, s1) ->
                  files s1 !! IMAGE_DIR <> None \/ can_makedirs w IMAGE_DIR = false ->
                  aborts_after_quit run OSError))
        /\ (forall e,
              fst (scrape_olx w fuel link (log DriverStarted s1)) = Raised e ->
              aborts_after_quit run e)
        /\ (forall data s3 e,
              scrape_olx w fuel link (log DriverStarted s1) = (Done data, s3) ->
              fst (save_to_excel w data "ad_data_with_images.xlsx" s3) = Raised e ->
              aborts_after_quit run e))
  /\ (forall fuel s link s1,
        get_user_input s = (Done link, s1) ->
        edge_starts w = false ->
        main w fuel s = (Raised WebDriverException, s1)).
Proof.
  split; [|split; [|split]].
  - intros card cards data s Hf. cbn [for_acc].
    assert (E : process_card w card data s
                = (Done data,
                   log (Print (ErrorProcessingCard NoSuchElementException)) (log CardEntered s)))
      by now rewrite process_card_eq, Hf.
    now rewrite (bind_Done _ _ _ _ _ E).
  - intros cards data s.
    destruct (cards_loop_run w cards data s) as (new & m & s' & E & _).
    now exists (data ++ new), s'.
  - intros fuel s link s1 Hin Hedge run. subst run.
    pose proof (fun e => main_passes_on w fuel s link s1 e Hin Hedge) as Hpass.
    destruct (scrape_olx_raises w fuel link (log DriverStarted s1)) as (Hload & Hcards & Hlater).
    split; [intros H; apply Hpass; left; now apply Hload|].
    split; [intros H Hc; apply Hpass; left; now apply Hcards|].
    split; [|split].
    + intros H Hc Hsettles. destruct (Hlater H Hc Hsettles) as (Hint & Hdir). split.
      * intros text Hlast Hno. apply Hpass. left. now apply (Hint text).
      * intros n Hn Hmk. apply Hpass. left. apply (Hdir n); [|exact Hmk].
        now apply (number_of_pages_of_state w _ s1).
    + intros e H. apply Hpass. now left.
    + intros data s3 e E H. apply Hpass. right. now exists data, s3.
  - intros fuel s link s1 Hin Hedge. now rewrite main_eq, Hin, Hedge.
Qed.

Lemma failures_that_end_the_run_witness :
  for_acc [card_untitled; card_bike] [] (process_card world_shop) start
  = for_acc [card_bike] [] (process_card world_shop)
      (log (Print (ErrorProcessingCard NoSuchElementException)) (log CardEntered start))
  /\ fst (main world_404 1 typed) = Raised TimeoutException
  /\ last (trace (snd (main world_404 1 typed))) = Some DriverQuit.
Proof.
  destruct (failures_that_end_the_run world_shop) as (Hskip & _).
  destruct (failures_that_end_the_run world_404) as (_ & _ & Hmain & _).
  split; [apply Hskip; reflexivity|].
  destruct (Hmain 1%nat typed shop_link (snd (get_user_input typed)) eq_refl eq_refl)
    as (_ & Hcards & _).
  apply Hcards; reflexivity.
Defined.

(** * Further properties of the script *)

(** ** get_user_input *)

Lemma lower_char_y c : lower_char c = "y"%char <-> c = "y"%char \/ c = "Y"%char.
Proof.
  destruct c as [[] [] [] [] [] [] [] []]; vm_compute; split; intros H;
    try discriminate H;
    try (destruct H as [H | H]; discriminate H);
    first [reflexivity | left; reflexivity | right; reflexivity].
Qed.

Lemma lower_y answer : lower answer = "y" <-> answer = "y" \/ answer = "Y".
Proof.
  destruct answer as [|c [|c' rest]]; simpl.
  - split; [discriminate | intros [H | H]; discriminate H].
  - split.
    + intros H. injection H as H. apply lower_char_y in H. destruct H as [-> | ->]; auto.
    + intros [H | H]; injection H as ->; reflexivity.
  - split; [discriminate | intros [H | H]; discriminate H].
Qed.

Lemma eqb_lower_y answer :
  String.eqb (lower answer) "y" = true <-> answer = "y" \/ answer = "Y".
Proof. rewrite String.eqb_eq. apply lower_y. Qed.

(** X1. With at least two lines of input, [get_user_input] asks for a
    city only when the second line is "y" or "Y".  Otherwise it reads
    exactly two lines and returns the search URL with an empty city
    segment; after "y" or "Y" it reads a third line and puts it in
    the city segment. *)
Theorem get_user_input_url phrase answer rest s :
  stdin s = phrase :: answer :: rest ->
  let run := get_user_input s in
  (answer <> "y" /\ answer <> "Y" ->
   fst run = Done ("https://www.olx.ua/uk/list//q-" ++ phrase ++ "/")%string
   /\ stdin (snd run) = rest
   /\ new_events s (snd run)
      = [Prompt "Enter search phrase and press 'Enter': ";
         Prompt "Specify city? Enter 'Y' or 'N': "])
  /\ (answer = "y" \/ answer = "Y" ->
      forall city rest',
        rest = city :: rest' ->
        fst run = Done ("https://www.olx.ua/uk/list/" ++ city ++ "/q-" ++ phrase ++ "/")%string
        /\ stdin (snd run) = rest'
        /\ new_events s (snd run)
           = [Prompt "Enter search phrase and press 'Enter': ";
              Prompt "Specify city? Enter 'Y' or 'N': ";
              Prompt "Enter city name (optional): "]).
Proof.
  intros Hin run. subst run. unfold get_user_input, bind, input, ret. rewrite Hin. simpl.
  split.
  - intros [Hy HY].
    destruct (String.eqb (lower answer) "y") eqn:E.
    { apply eqb_lower_y in E. tauto. }
    simpl. repeat split. unfold new_events. simpl.
    rewrite <- app_assoc. apply drop_app_length.
  - intros Hy city rest' ->. apply eqb_lower_y in Hy. rewrite Hy. simpl.
    repeat split. unfold new_events. simpl.
    rewrite <- !app_assoc. apply drop_app_length.
Qed.

Lemma get_user_input_url_witness :
  fst (get_user_input typed) = Done "https://www.olx.ua/uk/list//q-bike/"
  /\ stdin (snd (get_user_input typed)) = [].
Proof.
  destruct (get_user_input_url "bike" "n" [] typed eq_refl) as (H & _).
  destruct H as (Hr & Hs & _).
  - split; discriminate.
  - split; [exact Hr | exact Hs].
Defined.

(** X2. [get_user_input] raises [EOFError] exactly when the input
    ends before the prompts are answered: fewer than two lines, or two
    lines the second of which asks for a city. *)
Theorem get_user_input_EOFError s :
  fst (get_user_input s) = Raised EOFError
  <-> ((length (stdin s) < 2)%nat
       \/ exists phrase answer,
            stdin s = [phrase; answer] /\ (answer = "y" \/ answer = "Y")).
Proof.
  unfold get_user_input, bind, input, ret.
  destruct (stdin s) as [|phrase [|answer rest]]; simpl.
  - split; [intros _; left; lia | reflexivity].
  - split; [intros _; left; lia | reflexivity].
  - destruct (String.eqb (lower answer) "y") eqn:E; simpl.
    + apply eqb_lower_y in E. destruct rest as [|city rest]; simpl.
      * split; [intros _; right; now exists phrase, answer | reflexivity].
      * split; [discriminate|]. intros [H | (p & a & H & _)]; [lia | discriminate H].
    + split; [discriminate|].
      intros [H | (p & a & H & Hy)]; [lia|]. injection H as -> -> ->.
      apply eqb_lower_y in Hy. congruence.
Qed.

(** ** str.split, str.replace and the image path *)

Lemma append_cons c (a b : string) : (String c a ++ b)%string = String c (a ++ b)%string.
Proof. reflexivity. Qed.

Lemma append_nil (b : string) : ("" ++ b)%string = b.
Proof. reflexivity. Qed.

Lemma append_assoc (a b c : string) : ((a ++ b) ++ c = a ++ (b ++ c))%string.
Proof. induction a as [|x a IH]; [reflexivity | now rewrite !append_cons, IH]. Qed.

Lemma append_empty_r (a : string) : (a ++ "")%string = a.
Proof. induction a as [|x a IH]; [reflexivity | now rewrite append_cons, IH]. Qed.

Lemma length_append (a b : string) :
  String.length (a ++ b) = (String.length a + String.length b)%nat.
Proof. induction a as [|x a IH]; [reflexivity | rewrite append_cons; simpl; now rewrite IH]. Qed.

(** A string that starts with [sep] is [sep] followed by a rest. *)
Lemma prefix_split sep : forall s,
  String.prefix sep s = true -> exists rest, s = (sep ++ rest)%string.
Proof.
  induction sep as [|c sep IH]; intros s H.
  - now exists s.
  - destruct s as [|c' s]; [discriminate H|]. simpl in H.
    destruct (Ascii.ascii_dec c c') as [<-|]; [|discriminate H].
    destruct (IH s H) as (rest & ->). exists rest. now rewrite append_cons.
Qed.

(** Passing over the rest of a separator. *)
Lemma split_from_skip sep cur passed : forall s,
  split_from sep (String.length passed) cur (passed ++ s) = split_from sep 0 cur s.
Proof.
  induction passed as [|c passed IH]; intros s; [reflexivity|].
  rewrite append_cons. simpl. apply IH.
Qed.

Lemma split_from_not_nil sep : forall s skip cur, split_from sep skip cur s <> [].
Proof.
  induction s as [|c s IH]; intros skip cur; cbn [split_from]; [discriminate|].
  destruct skip; [|apply IH].
  destruct (String.prefix sep (String c s)); [discriminate | apply IH].
Qed.

Lemma join_cons sep part parts :
  parts <> [] -> join sep (part :: parts) = (part ++ sep ++ join sep parts)%string.
Proof. destruct parts; [congruence | reflexivity]. Qed.

Lemma join_split_from sep :
  sep <> "" ->
  forall n s cur,
    (String.length s <= n)%nat -> join sep (split_from sep 0 cur s) = (cur ++ s)%string.
Proof.
  intros Hsep. induction n as [|n IH]; intros s cur Hlen.
  - destruct s; [|simpl in Hlen; lia]. simpl. now rewrite append_empty_r.
  - destruct s as [|c s]; [simpl; now rewrite append_empty_r|].
    cbn [split_from].
    destruct (String.prefix sep (String c s)) eqn:Hp.
    + destruct (prefix_split sep _ Hp) as (rest & Hrest).
      destruct sep as [|c' sep']; [congruence|].
      rewrite append_cons in Hrest. injection Hrest as <- ->.
      replace (String.length (String c sep') - 1)%nat with (String.length sep')
        by (simpl; lia).
      rewrite split_from_skip.
      rewrite join_cons by apply split_from_not_nil.
      rewrite IH.
      * now rewrite append_nil, append_cons.
      * simpl in Hlen. rewrite length_append in Hlen. lia.
    + rewrite IH by (simpl in Hlen; lia).
      now rewrite append_assoc, append_cons, append_nil.
Qed.

(** Splitting loses nothing: for a non-empty separator, joining the
    parts of [s.split(sep)] with [sep] gives [s] back. *)
Lemma join_split sep s : sep <> "" -> join sep (split sep s) = s.
Proof.
  intros Hsep. unfold split.
  now rewrite (join_split_from sep Hsep (String.length s) s "" (Nat.le_refl _)).
Qed.

(** X3. The location and the time a record gets, unless both are
    empty, are the two sides of the card's location-date text around
    its " - ": put together again they give the text back, so nothing
    of the text is lost or altered. *)
Theorem location_and_time_parts text location timeposted :
  location_and_time (split " - " text) = (location, timeposted) ->
  (location, timeposted) <> ("", "") ->
  text = (location ++ " - " ++ timeposted)%string.
Proof.
  intros H Hne.
  assert (Hj : join " - " (split " - " text) = text) by (apply join_split; discriminate).
  destruct (split " - " text) as [|l [|t [|x rest]]]; simpl in H;
    try (symmetry in H; contradiction).
  injection H as <- <-. symmetry. exact Hj.
Qed.

Lemma location_and_time_parts_witness :
  location_and_time (split " - " "Kyiv - Today at 10:00") = ("Kyiv", "Today at 10:00")
  /\ "Kyiv - Today at 10:00" = ("Kyiv" ++ " - " ++ "Today at 10:00")%string.
Proof.
  split; [reflexivity|].
  apply (location_and_time_parts "Kyiv - Today at 10:00" "Kyiv" "Today at 10:00").
  - reflexivity.
  - discriminate.
Defined.

Lemma has_char_append c a b : has_char c (a ++ b) = (has_char c a || has_char c b)%bool.
Proof.
  induction a as [|x a IH]; [reflexivity|].
  rewrite append_cons. simpl. rewrite IH. now rewrite orb_assoc.
Qed.

Lemma has_char_replace name : has_char " " (replace " " "_" name) = false.
Proof.
  induction name as [|c name IH]; simpl; [reflexivity|].
  rewrite IH. destruct (Ascii.eqb_spec c " ") as [->|Hne]; [reflexivity|].
  rewrite orb_false_r. now apply Ascii.eqb_neq.
Qed.

(** X4. Whatever the listing is called, the path of its image file
    contains no space. *)
Theorem img_filename_of_no_space name : has_char " " (img_filename_of name) = false.
Proof.
  rewrite img_filename_of_eq.
  destruct (String.prefix "/" name).
  - now rewrite has_char_append, has_char_replace.
  - change ("images/" ++ replace " " "_" name ++ ".jpg")%string
      with ("images/" ++ (replace " " "_" name ++ ".jpg"))%string.
    now rewrite !has_char_append, has_char_replace.
Qed.

Lemma append_inv_tail (t : string) : forall a b, (a ++ t = b ++ t)%string -> a = b.
Proof.
  induction a as [|x a IH]; intros [|y b] H; rewrite ?append_cons, ?append_nil in H.
  - reflexivity.
  - apply (f_equal String.length) in H. simpl in H. rewrite length_append in H. lia.
  - apply (f_equal String.length) in H. simpl in H. rewrite length_append in H. lia.
  - injection H as -> H. now rewrite (IH b H).
Qed.

Lemma prefix_slash_head name :
  String.prefix "/" name = true -> exists rest, name = String "/" rest.
Proof. intros H. destruct (prefix_split "/" name H) as (rest & ->). now exists rest. Qed.

Lemma prefix_slash_not_images name :
  String.prefix "/" name = true ->
  (replace " " "_" name ++ ".jpg")%string <> ("images/" ++ replace " " "_" name ++ ".jpg")%string
  /\ forall other, (replace " " "_" name ++ ".jpg")%string <> ("images/" ++ other)%string.
Proof.
  intros H. destruct (prefix_slash_head name H) as (rest & ->). split; [|intros other]; discriminate.
Qed.

(** X5. Two listings get the same image file exactly when their
    names are equal once spaces are replaced by underscores: "a b" and
    "a_b" share a file, names that differ otherwise never do. *)
Theorem img_filename_of_shared name1 name2 :
  img_filename_of name1 = img_filename_of name2
  <-> replace " " "_" name1 = replace " " "_" name2.
Proof.
  split.
  - rewrite !img_filename_of_eq.
    destruct (String.prefix "/" name1) eqn:H1, (String.prefix "/" name2) eqn:H2; intros H.
    + now apply append_inv_tail in H.
    + exfalso. now apply (proj2 (prefix_slash_not_images name1 H1) _ H).
    + exfalso. symmetry in H. now apply (proj2 (prefix_slash_not_images name2 H2) _ H).
    + injection H as H. rewrite !append_nil in H. now apply append_inv_tail in H.
  - intros H. unfold img_filename_of. now rewrite H.
Qed.

(** ** slow_scroll_page *)

Section ScrollDetails.

Context (w : World).

Lemma scrolled_nothing s : scrolled s 0 [] = s.
Proof. destruct s. unfold scrolled. simpl. f_equal; [lia | apply app_nil_r]. Qed.

Lemma scrolled_scrolled s k1 t1 k2 t2 :
  scrolled (scrolled s k1 t1) k2 t2 = scrolled s (k1 + k2) (t1 ++ t2).
Proof. unfold scrolled. simpl. f_equal; [lia | now rewrite app_assoc]. Qed.

Lemma bring_into_view_eq pause i card s :
  bring_into_view pause (i, card) tt s = (Done tt, scrolled s 0 (view_events pause i)).
Proof.
  unfold bring_into_view, view_events, bind, sleep, emit, ret, scrolled, log. cbn [fst].
  destruct (i mod 5 =? 0)%nat; simpl; f_equal; f_equal; try lia;
    rewrite <- ?app_assoc; reflexivity.
Qed.

(** The loop over the cards adds the events of each index in turn. *)
Lemma scroll_cards_eq pause (l : list Card) : forall a s,
  for_acc (combine (seq a (length l)) l) tt (bring_into_view pause) s
  = (Done tt, scrolled s 0 (flat_map (view_events pause) (seq a (length l)))).
Proof.
  induction l as [|card l IH]; intros a s.
  - simpl. unfold ret. now rewrite scrolled_nothing.
  - cbn [length seq combine for_acc flat_map].
    rewrite (bind_Done _ _ _ _ _ (bring_into_view_eq pause a card s)).
    rewrite IH, scrolled_scrolled. reflexivity.
Qed.

(** The [while True] loop, when scroll [j + 1] from here is the first
    that does not change the height. *)
Lemma scroll_until_settled_eq pause fuel : forall s j,
  (j < fuel)%nat ->
  scrollHeight (page_now w s) (scrolls s + S j) = scrollHeight (page_now w s) (scrolls s + j) ->
  (forall k, (k < j)%nat ->
     scrollHeight (page_now w s) (scrolls s + S k) <> scrollHeight (page_now w s) (scrolls s + k)) ->
  scroll_until_settled w fuel pause (scrollHeight (page_now w s) (scrolls s)) s
  = (Done tt, scrolled s (S j) (scroll_rounds pause (S j))).
Proof.
  induction fuel as [|fuel IH]; intros s j Hj Hsettle Hgrow; [lia|].
  cbn [scroll_until_settled]. unfold bind, scroll_to_bottom, sleep, emit, scroll_height.
  cbn [fst snd].
  set (s1 := log (Sleep pause) (log ScrollToBottom (set_scrolls (S (scrolls s)) s))).
  assert (E1 : s1 = scrolled s 1 [ScrollToBottom; Sleep pause]).
  { subst s1. unfold scrolled, log, set_scrolls. simpl. f_equal; [lia | now rewrite <- app_assoc]. }
  change (page_now w s1) with (page_now w s). change (scrolls s1) with (S (scrolls s)).
  destruct j as [|j].
  - rewrite Nat.add_1_r, Nat.add_0_r in Hsettle. rewrite Hsettle, Nat.eqb_refl.
    now rewrite E1.
  - specialize (Hgrow 0%nat ltac:(lia)) as Hfirst.
    rewrite Nat.add_1_r, Nat.add_0_r in Hfirst.
    apply Nat.eqb_neq in Hfirst. rewrite Hfirst.
    change (scrollHeight (page_now w s) (S (scrolls s)))
      with (scrollHeight (page_now w s1) (scrolls s1)).
    rewrite (IH s1 j).
    + rewrite E1, scrolled_scrolled. reflexivity.
    + lia.
    + change (page_now w s1) with (page_now w s). change (scrolls s1) with (S (scrolls s)).
      now replace (S (scrolls s) + S j)%nat with (scrolls s + S (S j))%nat by lia;
        replace (S (scrolls s) + j)%nat with (scrolls s + S j)%nat by lia.
    + intros k Hk.
      change (page_now w s1) with (page_now w s). change (scrolls s1) with (S (scrolls s)).
      replace (S (scrolls s) + S k)%nat with (scrolls s + S (S k))%nat by lia.
      replace (S (scrolls s) + k)%nat with (scrolls s + S k)%nat by lia.
      apply Hgrow. lia.
Qed.

End ScrollDetails.

(** X6. On a freshly loaded page with [n] cards on which scroll
    [j + 1 <= fuel] is the first that does not make the page grow,
    [slow_scroll_page] returns after bringing the cards 0 .. n-1 into
    view in order (pausing 0.2 s more at every index divisible by 5)
    and exactly [j + 1] scrolls to the bottom, each followed by a
    pause; it changes nothing else. *)
Theorem slow_scroll_page_events w fuel pause s j :
  scrolls s = 0%nat -> (j < fuel)%nat -> first_settles j (page_now w s) ->
  slow_scroll_page w fuel pause s
  = (Done tt,
     scrolled s (S j)
       (flat_map (view_events pause) (seq 0 (length (cards (page_now w s))))
        ++ scroll_rounds pause (S j))).
Proof.
  intros H0 Hj [Hsettle Hgrow]. unfold slow_scroll_page.
  rewrite (bind_Done _ _ s _ s (eq_refl : scroll_height w s = (Done _, s))).
  rewrite (bind_Done _ _ s _ s (eq_refl : find_cards w s = (Done _, s))).
  unfold enumerate.
  rewrite (bind_Done _ _ _ _ _ (scroll_cards_eq pause (cards (page_now w s)) 0%nat s)).
  set (s1 := scrolled s 0 (flat_map (view_events pause) (seq 0 (length (cards (page_now w s)))))).
  assert (Hp : page_now w s1 = page_now w s) by reflexivity.
  assert (Hs : scrolls s1 = scrolls s) by (simpl; lia).
  rewrite <- Hp, <- Hs.
  rewrite (scroll_until_settled_eq w pause fuel s1 j Hj).
  - subst s1. now rewrite scrolled_scrolled.
  - rewrite Hp, Hs, H0. exact Hsettle.
  - intros k Hk. rewrite Hp, Hs, H0. now apply Hgrow.
Qed.

Lemma slow_scroll_page_events_witness :
  new_events (set_location shop_link start)
    (snd (slow_scroll_page world_two_pages 5 SCROLL_PAUSE_TIME (set_location shop_link start)))
  = [ScrollIntoView 0; Sleep (2 # 10); Sleep SCROLL_PAUSE_TIME;
     ScrollIntoView 1; Sleep SCROLL_PAUSE_TIME;
     ScrollIntoView 2; Sleep SCROLL_PAUSE_TIME;
     ScrollToBottom; Sleep SCROLL_PAUSE_TIME;
     ScrollToBottom; Sleep SCROLL_PAUSE_TIME;
     ScrollToBottom; Sleep SCROLL_PAUSE_TIME].
Proof.
  rewrite (slow_scroll_page_events world_two_pages 5 SCROLL_PAUSE_TIME
             (set_location shop_link start) 2).
  - reflexivity.
  - reflexivity.
  - lia.
  - split; [reflexivity|]. intros [|[|k]] Hk; [discriminate | discriminate | lia].
Defined.

Section ScrollOutcome.

Context (w : World).

(** If the [while True] loop ends, some scroll did not change the
    height. *)
Lemma scroll_until_settled_done pause fuel : forall s,
  fst (scroll_until_settled w fuel pause (scrollHeight (page_now w s) (scrolls s)) s) = Done tt ->
  exists j, (j < fuel)%nat
            /\ scrollHeight (page_now w s) (scrolls s + S j)
               = scrollHeight (page_now w s) (scrolls s + j).
Proof.
  induction fuel as [|fuel IH]; intros s H; [discriminate H|].
  cbn [scroll_until_settled] in H.
  unfold bind, scroll_to_bottom, sleep, emit, scroll_height in H. cbn [fst snd] in H.
  set (s1 := log (Sleep pause) (log ScrollToBottom (set_scrolls (S (scrolls s)) s))) in H.
  change (page_now w s1) with (page_now w s) in H.
  change (scrolls s1) with (S (scrolls s)) in H.
  destruct (Nat.eqb_spec (scrollHeight (page_now w s) (S (scrolls s)))
              (scrollHeight (page_now w s) (scrolls s))) as [E | _].
  - exists 0%nat. split; [lia|]. now rewrite Nat.add_1_r, Nat.add_0_r.
  - change (scrollHeight (page_now w s) (S (scrolls s)))
      with (scrollHeight (page_now w s1) (scrolls s1)) in H.
    destruct (IH s1 H) as (j & Hj & Ej).
    change (page_now w s1) with (page_now w s) in Ej.
    change (scrolls s1) with (S (scrolls s)) in Ej.
    exists (S j). split; [lia|].
    now replace (scrolls s + S (S j))%nat with (S (scrolls s) + S j)%nat by lia;
      replace (scrolls s + S j)%nat with (S (scrolls s) + j)%nat by lia.
Qed.

Lemma view_events_scroll pause (l : list nat) :
  forallb is_scroll_event (flat_map (view_events pause) l) = true.
Proof.
  induction l as [|i l IH]; [reflexivity|]. cbn [flat_map]. rewrite forallb_app, IH.
  unfold view_events. destruct (i mod 5 =? 0)%nat; reflexivity.
Qed.

(** The [while True] loop only scrolls and pauses. *)
Lemma scroll_until_settled_scrolled pause fuel : forall last s,
  exists k t,
    snd (scroll_until_settled w fuel pause last s) = scrolled s k t
    /\ forallb is_scroll_event t = true.
Proof.
  induction fuel as [|fuel IH]; intros last s.
  - exists 0%nat, []. simpl. unfold hang. simpl. now rewrite scrolled_nothing.
  - cbn [scroll_until_settled]. unfold bind, scroll_to_bottom, sleep, emit, scroll_height.
    cbn [fst snd].
    set (s1 := log (Sleep pause) (log ScrollToBottom (set_scrolls (S (scrolls s)) s))).
    assert (E1 : s1 = scrolled s 1 [ScrollToBottom; Sleep pause]).
    { subst s1. unfold scrolled, log, set_scrolls. simpl.
      f_equal; [lia | now rewrite <- app_assoc]. }
    destruct (scrollHeight (page_now w s1) (scrolls s1) =? last)%nat.
    + exists 1%nat, [ScrollToBottom; Sleep pause]. split; [exact E1 | reflexivity].
    + destruct (IH (scrollHeight (page_now w s1) (scrolls s1)) s1) as (k & t & E & Ht).
      exists (1 + k)%nat, ([ScrollToBottom; Sleep pause] ++ t).
      split; [now rewrite E, E1, scrolled_scrolled|].
      now rewrite forallb_app, Ht.
Qed.

End ScrollOutcome.

(** X7. On a freshly loaded page, [slow_scroll_page] returns exactly
    when the page stops growing within [fuel] scrolls to the bottom;
    on a page that keeps growing it never ends. *)
Theorem slow_scroll_page_returns w fuel pause s :
  scrolls s = 0%nat ->
  (fst (slow_scroll_page w fuel pause s) = Done tt <-> settles_within fuel (page_now w s))
  /\ (fst (slow_scroll_page w fuel pause s) = Hung <-> ~ settles_within fuel (page_now w s)).
Proof.
  intros H0.
  assert (Hiff : fst (slow_scroll_page w fuel pause s) = Done tt
                 <-> settles_within fuel (page_now w s)).
  { split; [|now apply slow_scroll_page_ends].
    unfold slow_scroll_page.
    rewrite (bind_Done _ _ s _ s (eq_refl : scroll_height w s = (Done _, s))).
    rewrite (bind_Done _ _ s _ s (eq_refl : find_cards w s = (Done _, s))).
    unfold enumerate.
    rewrite (bind_Done _ _ _ _ _ (scroll_cards_eq pause (cards (page_now w s)) 0%nat s)).
    set (s1 := scrolled s 0 (flat_map (view_events pause)
                               (seq 0 (length (cards (page_now w s)))))).
    assert (Hp : page_now w s1 = page_now w s) by reflexivity.
    assert (Hs : scrolls s1 = scrolls s) by (simpl; lia).
    rewrite <- Hp, <- Hs. intros H.
    destruct (scroll_until_settled_done w pause fuel s1 H) as (j & Hj & Ej).
    rewrite Hp, Hs, H0 in Ej. now exists j. }
  split; [exact Hiff|].
  destruct (slow_scroll_page_run w fuel pause s) as ([Hr | Hr] & _).
  - split; [rewrite Hr; discriminate|]. intros Hn. exfalso. apply Hn, Hiff, Hr.
  - split; [|intros _; exact Hr]. intros _ Hs. apply Hiff in Hs. rewrite Hr in Hs. discriminate Hs.
Qed.

Lemma slow_scroll_page_returns_witness :
  fst (slow_scroll_page world_two_pages 5 SCROLL_PAUSE_TIME (set_location shop_link start))
  = Done tt.
Proof.
  destruct (slow_scroll_page_returns world_two_pages 5 SCROLL_PAUSE_TIME
              (set_location shop_link start) eq_refl) as (H & _).
  apply H. exists 2%nat. split; [lia | reflexivity].
Defined.

(** X8. However it ends, [slow_scroll_page] only scrolls and pauses:
    files, the request count, the browser's location, the pending
    input and the saved workbooks are as before. *)
Theorem slow_scroll_page_only_scrolls w fuel pause s :
  let s' := snd (slow_scroll_page w fuel pause s) in
  files s' = files s /\ requests s' = requests s /\ location s' = location s
  /\ stdin s' = stdin s /\ workbooks s' = workbooks s
  /\ forallb is_scroll_event (new_events s s') = true.
Proof.
  cbn zeta. unfold slow_scroll_page.
  rewrite (bind_Done _ _ s _ s (eq_refl : scroll_height w s = (Done _, s))).
  rewrite (bind_Done _ _ s _ s (eq_refl : find_cards w s = (Done _, s))).
  unfold enumerate.
  rewrite (bind_Done _ _ _ _ _ (scroll_cards_eq pause (cards (page_now w s)) 0%nat s)).
  destruct (scroll_until_settled_scrolled w pause fuel (scrollHeight (page_now w s) (scrolls s))
              (scrolled s 0 (flat_map (view_events pause)
                               (seq 0 (length (cards (page_now w s)))))))
    as (k & t & E & Ht).
  rewrite E, scrolled_scrolled. unfold new_events. simpl.
  repeat split. rewrite drop_app_length, forallb_app, Ht, view_events_scroll. reflexivity.
Qed.

(** ** download_image, whatever the answers *)

(** X9. [download_image] returns [False] exactly when each of its
    [retries] attempts ends in a status other than 200 or in a
    network error, in any mix; it has then made [retries] requests
    and touched no file. *)
Theorem download_image_False_iff w image_url filename retries delay s :
  let run := download_image w image_url filename retries delay s in
  (fst run = Done false
   <-> forall k, (k < retries)%nat -> failed (http_get w image_url (requests s + k)))
  /\ (fst run = Done false ->
      requests (snd run) = (requests s + retries)%nat /\ files (snd run) = files s).
Proof.
  cbn zeta.
  pose proof (download_image_run w image_url filename retries delay s) as H.
  inversion H as [Hfail Hr Hs | m body Hlt Hb Hg Hw Hr Hs | m body Hlt Hb Hg Hw Hr Hs
                 | m body written Hlt Hb Hg Hw Hr Hs | m body Hlt Hb Hg Hw Hr Hs].
  - split; [split; [intros _; exact Hfail | reflexivity] | intros _; split; reflexivity].
  - split; [split; [discriminate|] | discriminate].
    intros Hall. exfalso. exact (failed_not_200 _ _ (Hall m Hlt) Hg).
  - split; [split; [discriminate|] | discriminate].
    intros Hall. exfalso. exact (failed_not_200 _ _ (Hall m Hlt) Hg).
  - split; [split; [discriminate|] | discriminate].
    intros Hall. exfalso. exact (failed_not_200 _ _ (Hall m Hlt) Hg).
  - split; [split; [discriminate|] | discriminate].
    intros Hall. exfalso. exact (failed_not_200 _ _ (Hall m Hlt) Hg).
Qed.

(** X10. [download_image] never makes more than [retries] requests,
    and every request but its last one has failed.  It stops before
    [retries] requests only after an answer with status 200, and then
    asks no more, also when storing the body failed: a file failure
    is not retried. *)
Theorem download_image_requests w image_url filename retries delay s :
  let run := download_image w image_url filename retries delay s in
  exists made,
    requests (snd run) = (requests s + made)%nat
    /\ length (List.filter is_HttpGet (new_events s (snd run))) = made
    /\ (made <= retries)%nat
    /\ (forall k, (S k < made)%nat -> failed (http_get w image_url (requests s + k)))
    /\ (fst run <> Done false ->
        exists last body,
          made = S last /\ http_get w image_url (requests s + last) = Response 200 body).
Proof.
  cbn zeta.
  pose proof (download_image_run w image_url filename retries delay s) as H.
  inversion H as [Hfail Hr Hs | m body Hlt Hb Hg Hw Hr Hs | m body Hlt Hb Hg Hw Hr Hs
                 | m body written Hlt Hb Hg Hw Hr Hs | m body Hlt Hb Hg Hw Hr Hs].
  - exists retries. rewrite new_events_advance, failed_attempts_gets, repeat_length.
    split; [reflexivity|]. split; [reflexivity|]. split; [lia|].
    split; [intros k Hk; apply Hfail; lia | congruence].
  - exists (S m). rewrite new_events_advance, List.filter_app, failed_attempts_gets.
    rewrite length_app, repeat_length. simpl.
    split; [reflexivity|]. split; [lia|]. split; [lia|].
    split; [intros k Hk; apply Hb; lia | intros _; now exists m, body].
  - exists (S m). rewrite new_events_advance, List.filter_app, failed_attempts_gets.
    rewrite length_app, repeat_length. simpl.
    split; [reflexivity|]. split; [lia|]. split; [lia|].
    split; [intros k Hk; apply Hb; lia | intros _; now exists m, body].
  - exists (S m). rewrite new_events_advance, List.filter_app, failed_attempts_gets.
    rewrite length_app, repeat_length. simpl.
    split; [reflexivity|]. split; [lia|]. split; [lia|].
    split; [intros k Hk; apply Hb; lia | intros _; now exists m, body].
  - exists (S m). rewrite new_events_advance, List.filter_app, failed_attempts_gets.
    rewrite length_app, repeat_length. simpl.
    split; [reflexivity|]. split; [lia|]. split; [lia|].
    split; [intros k Hk; apply Hb; lia | intros _; now exists m, body].
Qed.

(** What [download_image] leaves alone. *)
Lemma download_image_others w image_url filename retries delay s :
  let s' := snd (download_image w image_url filename retries delay s) in
  (forall path, path <> filename -> files s' !! path = files s !! path)
  /\ (forall path, is_Some (files s !! path) -> is_Some (files s' !! path))
  /\ location s' = location s /\ scrolls s' = scrolls s
  /\ stdin s' = stdin s /\ workbooks s' = workbooks s.
Proof.
  cbn zeta.
  pose proof (download_image_run w image_url filename retries delay s) as H.
  inversion H as [Hfail Hr Hs | m body Hlt Hb Hg Hw Hr Hs | m body Hlt Hb Hg Hw Hr Hs
                 | m body written Hlt Hb Hg Hw Hr Hs | m body Hlt Hb Hg Hw Hr Hs]; simpl;
    (split; [intros path Hne; now rewrite ?lookup_insert_ne by congruence|]);
    (split; [|repeat split]); intros path Hsome; try exact Hsome;
    (destruct (decide (filename = path)) as [<-|Hne];
     [rewrite lookup_insert_eq; eauto | now rewrite lookup_insert_ne]).
Qed.

(** X11. [download_image] changes no file but the one at the target
    path and removes none, and it leaves the browser, the pending
    input and the saved workbooks as they are. *)
Theorem download_image_touches_only_target w image_url filename retries delay s :
  let s' := snd (download_image w image_url filename retries delay s) in
  (forall path, path <> filename -> files s' !! path = files s !! path)
  /\ (forall path, is_Some (files s !! path) -> is_Some (files s' !! path))
  /\ location s' = location s /\ scrolls s' = scrolls s
  /\ stdin s' = stdin s /\ workbooks s' = workbooks s.
Proof. apply download_image_others. Qed.

(** ** What scrape_olx leaves on disk *)

Section FilesProofs.

Context (w : World).

Lemma grows_refl s : grows s s.
Proof. intros path H. exact H. Qed.

Lemma grows_trans s s1 s2 : grows s s1 -> grows s1 s2 -> grows s s2.
Proof. intros H1 H2 path H. apply H2, H1, H. Qed.

Lemma has_image_grows s s' record : grows s s' -> has_image s record -> has_image s' record.
Proof. intros Hg (path & Hp & Hf). exists path. split; [exact Hp | apply Hg, Hf]. Qed.

Lemma download_image_stored image_url filename retries delay s :
  fst (download_image w image_url filename retries delay s) = Done true ->
  is_Some (files (snd (download_image w image_url filename retries delay s)) !! filename).
Proof.
  pose proof (download_image_run w image_url filename retries delay s) as H.
  inversion H as [Hfail Hr Hs | m body Hlt Hb Hg Hw Hr Hs | m body Hlt Hb Hg Hw Hr Hs
                 | m body written Hlt Hb Hg Hw Hr Hs | m body Hlt Hb Hg Hw Hr Hs];
    try discriminate.
  intros _. simpl. rewrite lookup_insert_eq. eauto.
Qed.

(** One card removes no file, and the record it appends names a file
    that is there. *)
Lemma process_card_files card data s :
  exists data' s',
    process_card w card data s = (Done data', s')
    /\ grows s s'
    /\ (data' = data \/ exists record, data' = data ++ [record] /\ has_image s' record).
Proof.
  rewrite process_card_eq.
  destruct (fields card) as [[[[[name price] text] image_url] ad_url]|].
  - destruct (download_image_frame w image_url (img_filename_of name) RETRIES DELAY
                (log CardEntered s)) as (Hh & _).
    destruct (download_image_others w image_url (img_filename_of name) RETRIES DELAY
                (log CardEntered s)) as (_ & Hg & _).
    pose proof (download_image_stored image_url (img_filename_of name) RETRIES DELAY
                  (log CardEntered s)) as Hst.
    destruct (download_image w image_url (img_filename_of name) RETRIES DELAY (log CardEntered s))
      as [[[|]|e|] s2]; simpl in *; [| | |congruence].
    + eexists _, _. split; [reflexivity|]. split; [exact Hg|]. right.
      eexists. split; [reflexivity|].
      exists (img_filename_of name). split; [reflexivity | now apply Hst].
    + eexists _, _. split; [reflexivity|]. split; [exact Hg | now left].
    + eexists _, _. split; [reflexivity|]. split; [exact Hg | now left].
  - eexists _, _. split; [reflexivity|]. split; [intros path H; exact H | now left].
Qed.

Lemma cards_loop_files cs : forall data s,
  exists new s',
    for_acc cs data (process_card w) s = (Done (data ++ new), s')
    /\ grows s s' /\ Forall (has_image s') new.
Proof.
  induction cs as [|card cs IH]; intros data s.
  - exists [], s. rewrite app_nil_r. repeat split; [apply grows_refl | constructor].
  - destruct (process_card_files card data s) as (data1 & s1 & E1 & Hg1 & Hd).
    destruct (IH data1 s1) as (new & s' & E' & Hg' & Hf').
    cbn [for_acc]. rewrite (bind_Done _ _ _ _ _ E1).
    destruct Hd as [-> | (record & -> & Hi)].
    + exists new, s'. split; [exact E'|]. split; [now apply (grows_trans s s1 s') | exact Hf'].
    + exists (record :: new), s'. split; [now rewrite E', <- app_assoc|].
      split; [now apply (grows_trans s s1 s')|].
      constructor; [now apply (has_image_grows s1 s') | exact Hf'].
Qed.

(** Scrolling, however it ends, leaves a state that differs from the
    old one only in the scroll position and the trace. *)
Lemma slow_scroll_page_scrolled fuel pause s :
  exists k t,
    snd (slow_scroll_page w fuel pause s) = scrolled s k t
    /\ forallb is_scroll_event t = true.
Proof.
  unfold slow_scroll_page.
  rewrite (bind_Done _ _ s _ s (eq_refl : scroll_height w s = (Done _, s))).
  rewrite (bind_Done _ _ s _ s (eq_refl : find_cards w s = (Done _, s))).
  unfold enumerate.
  rewrite (bind_Done _ _ _ _ _ (scroll_cards_eq pause (cards (page_now w s)) 0%nat s)).
  destruct (scroll_until_settled_scrolled w pause fuel (scrollHeight (page_now w s) (scrolls s))
              (scrolled s 0 (flat_map (view_events pause)
                               (seq 0 (length (cards (page_now w s)))))))
    as (k & t & E & Ht).
  eexists _, _. rewrite E, scrolled_scrolled. split; [reflexivity|].
  now rewrite forallb_app, Ht, view_events_scroll.
Qed.

(** Going to a page, waiting for its cards and scrolling it changes no
    file. *)
Lemma go_to_page_files fuel url s :
  files (snd ((driver_get w url ;; wait_for_cards w ;;
               slow_scroll_page w fuel SCROLL_PAUSE_TIME) s)) = files s.
Proof.
  unfold bind at 1. unfold driver_get.
  destruct (page_loads w url); [|reflexivity].
  unfold bind, wait_for_cards.
  destruct (cards (page_now w (log (Navigate url) (set_location url s)))); [reflexivity|].
  pose proof (slow_scroll_page_files w fuel SCROLL_PAUSE_TIME
                (log (Navigate url) (set_location url s))) as Hf.
  destruct (slow_scroll_page w fuel SCROLL_PAUSE_TIME (log (Navigate url) (set_location url s)))
    as [[[]|e|] s2]; simpl in Hf |- *; exact Hf.
Qed.

Lemma scrape_page_files fuel link n page data s :
  let run := scrape_page w fuel link n page data s in
  grows s (snd run)
  /\ forall data', fst run = Done data' ->
       exists new, data' = data ++ new /\ Forall (has_image (snd run)) new.
Proof.
  cbn zeta. unfold scrape_page.
  rewrite (bind_Done _ _ s _ s (eq_refl : find_cards w s = (Done _, s))).
  destruct (cards_loop_files (cards (page_now w s)) data s) as (new & s1 & E & Hg & Hf).
  rewrite (bind_Done _ _ _ _ _ E).
  destruct (page <? n)%Z.
  - pose proof (go_to_page_files fuel (next_page_url link page) s1) as Hfiles.
    destruct (bind ((driver_get w (next_page_url link page) ;; wait_for_cards w ;;
                     slow_scroll_page w fuel SCROLL_PAUSE_TIME))
                (fun _ => ret (data ++ new)) s1) as [r s2] eqn:E2.
    destruct (bind_ret_Done _ _ _ _ _ E2) as (-> & Hd). simpl.
    assert (Hg2 : grows s1 (snd ((driver_get w (next_page_url link page) ;; wait_for_cards w ;;
                                  slow_scroll_page w fuel SCROLL_PAUSE_TIME) s1))).
    { intros path. now rewrite Hfiles. }
    split; [now apply (grows_trans s s1 _)|].
    intros data' Hr. rewrite (Hd data' Hr). exists new. split; [reflexivity|].
    eapply Forall_impl; [exact Hf|]. intros record. now apply has_image_grows.
  - simpl. split; [exact Hg|]. intros data' Hr. injection Hr as <-. now exists new.
Qed.

Lemma pages_loop_files fuel link n (pages : list Z) : forall data s,
  let run := for_acc pages data (scrape_page w fuel link n) s in
  grows s (snd run)
  /\ forall data', fst run = Done data' ->
       exists new, data' = data ++ new /\ Forall (has_image (snd run)) new.
Proof.
  induction pages as [|page pages IH]; intros data s; cbn zeta.
  - simpl. split; [apply grows_refl|]. intros data' H. injection H as <-.
    exists []. split; [now rewrite app_nil_r | constructor].
  - cbn [for_acc]. unfold bind.
    destruct (scrape_page_files fuel link n page data s) as (Hg1 & Hd1).
    destruct (scrape_page w fuel link n page data s) as [[data1|e|] s1]; simpl in *.
    + destruct (IH data1 s1) as (Hg2 & Hd2).
      destruct (Hd1 data1 eq_refl) as (new1 & -> & Hf1).
      split; [now apply (grows_trans s s1 _)|].
      intros data' Hr. destruct (Hd2 data' Hr) as (new2 & -> & Hf2).
      exists (new1 ++ new2). split; [now rewrite app_assoc|].
      apply Forall_app. split; [|exact Hf2].
      eapply Forall_impl; [exact Hf1|]. intros record. now apply has_image_grows.
    + split; [exact Hg1 | discriminate].
    + split; [exact Hg1 | discriminate].
Qed.

End FilesProofs.

(** X12. [scrape_olx] removes no file, and when it returns, the image
    file named by every record of its list is on disk. *)
Theorem scrape_olx_images_on_disk w fuel websitelink s :
  let run := scrape_olx w fuel websitelink s in
  grows s (snd run)
  /\ forall data record,
       fst run = Done data -> In record data -> has_image (snd run) record.
Proof.
  cbn zeta. rewrite scrape_olx_eq.
  destruct (page_loads w websitelink); [|split; [intros path H; exact H | discriminate]].
  cbn zeta.
  set (s1 := log (Navigate websitelink) (set_location websitelink s)).
  destruct (cards (web w websitelink)) as [|c cs].
  { split; [intros path H; exact H | discriminate]. }
  pose proof (slow_scroll_page_files w fuel SCROLL_PAUSE_TIME s1) as Hfiles.
  destruct (slow_scroll_page w fuel SCROLL_PAUSE_TIME s1) as [[[]|e|] s2]; simpl in Hfiles;
    [| split; [intros path H; simpl; now rewrite Hfiles | discriminate]
     | split; [intros path H; simpl; now rewrite Hfiles | discriminate]].
  rewrite number_of_pages_of_eq.
  assert (Hloop : forall n,
    let run := match makedirs w IMAGE_DIR s2 with
               | (Done _, s4) => for_acc (range_from_1 n) [] (scrape_page w fuel websitelink n) s4
               | (Raised e, s4) => (Raised e, s4)
               | (Hung, s4) => (Hung, s4)
               end in
    grows s (snd run)
    /\ forall data record, fst run = Done data -> In record data -> has_image (snd run) record).
  { intros n. cbn zeta.
    destruct (makedirs_run w IMAGE_DIR s2) as (r3 & E3 & [-> | ->]); rewrite E3.
    2:{ split; [intros path H; simpl; now rewrite Hfiles | discriminate]. }
    destruct (pages_loop_files w fuel websitelink n (range_from_1 n) []
                (log (Makedirs IMAGE_DIR) s2)) as (Hg & Hd).
    split; [intros path H; apply Hg; simpl; now rewrite Hfiles|].
    intros data record Hr Hin.
    destruct (Hd data Hr) as (new & -> & Hf). rewrite Forall_forall in Hf.
    apply Hf, list_elem_of_In, Hin. }
  destruct (last (pagination (page_now w s2))) as [text|]; [|apply Hloop].
  destruct (int w text) as [n|]; [apply Hloop|].
  split; [intros path H; simpl; now rewrite Hfiles | discriminate].
Qed.


(** X13. When [scrape_olx] returns and the first page reported [n]
    pages, the browser was sent to the search URL and then to
    [websitelink&page=2], ..., [websitelink&page=n], in this order and
    to nothing else; and for [n >= 1] the loop over cards was entered
    once for every card of every one of these pages. *)
Theorem scrape_olx_pages w fuel websitelink s data s' n :
  scrape_olx w fuel websitelink s = (Done data, s') ->
  number_of_pages_of w (pagination (web w websitelink)) s = (Done n, s) ->
  visited (new_events s s') = page_urls websitelink (Z.to_nat n)
  /\ ((1 <= n)%Z ->
      cards_entered (new_events s s') = cards_on w (page_urls websitelink (Z.to_nat n))).
Proof.
  intros H Hn.
  destruct (scrape_olx_visited w fuel websitelink s data s' n H Hn) as (m & Ha & Hv & Hc & _).
  rewrite (adds_visited _ _ _ Ha), (adds_cards_entered _ _ _ Ha). unfold page_urls.
  cbn [visited cards_entered]. rewrite Hc, Hv. split; [reflexivity|].
  intros Hpos. destruct (Z.to_nat n) eqn:E; [lia | reflexivity].
Qed.

Lemma scrape_olx_pages_witness :
  visited (new_events start (snd (scrape_olx world_two_pages 5 shop_link start)))
  = [shop_link; "https://www.olx.ua/uk/list//q-bike/&page=2"].
Proof.
  destruct (scrape_olx_pages world_two_pages 5 shop_link start two_pages_records
              (snd (scrape_olx world_two_pages 5 shop_link start)) 2) as (Hv & _).
  - vm_compute. reflexivity.
  - reflexivity.
  - rewrite Hv. reflexivity.
Defined.

(** X14. When the first page loads, shows cards and stops growing
    within [fuel] scrolls, its pagination reports a page count of 0 or
    less and the image directory can be made, [scrape_olx] returns the
    empty list: it enters the loop over cards not once although the
    page shows cards, loads no other page and touches no file. *)
Theorem scrape_olx_no_pages w fuel websitelink s n :
  page_loads w websitelink = true ->
  cards (web w websitelink) <> [] ->
  settles_within fuel (web w websitelink) ->
  number_of_pages_of w (pagination (web w websitelink)) s = (Done n, s) ->
  (n <= 0)%Z ->
  files s !! IMAGE_DIR = None ->
  can_makedirs w IMAGE_DIR = true ->
  let run := scrape_olx w fuel websitelink s in
  fst run = Done []
  /\ cards_entered (new_events s (snd run)) = 0%nat
  /\ visited (new_events s (snd run)) = [websitelink]
  /\ files (snd run) = files s.
Proof.
  intros Hload Hcards Hsettles Hn Hle Hnone Hmk run. subst run.
  destruct (scrape_olx_first_page w fuel websitelink s Hload Hcards Hsettles)
    as (s2 & _ & Hf & _ & Ha & E).
  rewrite E. rewrite number_of_pages_of_eq in Hn |- *.
  assert (Hloop : match makedirs w IMAGE_DIR s2 with
                  | (Done _, s4) =>
                      for_acc (range_from_1 n) [] (scrape_page w fuel websitelink n) s4
                  | (Raised e, s4) => (Raised e, s4)
                  | (Hung, s4) => (Hung, s4)
                  end = (Done [], log (Makedirs IMAGE_DIR) s2)).
  { rewrite (makedirs_ok w IMAGE_DIR s2) by (rewrite ?Hf; assumption).
    unfold range_from_1. replace (Z.to_nat n) with 0%nat by lia. reflexivity. }
  assert (Ha' : adds s (log (Makedirs IMAGE_DIR) s2) [Navigate websitelink]).
  { apply (adds_trans s s2 _ [_] []); [exact Ha|]. exists [Makedirs IMAGE_DIR]. now split. }
  destruct (last (pagination (web w websitelink))) as [text|].
  - destruct (int w text) as [n'|]; [|discriminate Hn]. injection Hn as ->.
    rewrite Hloop. cbn [fst snd]. split; [reflexivity|].
    rewrite (adds_cards_entered _ _ _ Ha'), (adds_visited _ _ _ Ha').
    repeat split. exact Hf.
  - injection Hn as <-. lia.
Qed.

Lemma scrape_olx_no_pages_witness :
  fst (scrape_olx world_zero_pages 1 shop_link start) = Done []
  /\ cards_entered (new_events start (snd (scrape_olx world_zero_pages 1 shop_link start))) = 0%nat
  /\ cards (web world_zero_pages shop_link) <> [].
Proof.
  destruct (scrape_olx_no_pages world_zero_pages 1 shop_link start 0) as (Hr & Hc & _).
  - reflexivity.
  - discriminate.
  - exists 0%nat. split; [lia | reflexivity].
  - reflexivity.
  - lia.
  - reflexivity.
  - reflexivity.
  - split; [exact Hr|]. split; [exact Hc | discriminate].
Defined.

(** X15. When every request is answered 200 and every file can be
    written, the list [scrape_olx] returns holds, page after page and
    card after card, the record of each card that has all five
    elements, and nothing else. *)
Theorem scrape_olx_in_order w fuel websitelink s data s' n :
  obliging w ->
  scrape_olx w fuel websitelink s = (Done data, s') ->
  number_of_pages_of w (pagination (web w websitelink)) s = (Done n, s) ->
  (1 <= n)%Z ->
  data = flat_map (fun url => records_of (cards (web w url)))
           (page_urls websitelink (Z.to_nat n)).
Proof.
  intros Hw H Hn Hpos.
  destruct (scrape_olx_visited w fuel websitelink s data s' n H Hn)
    as (m & _ & Hv & _ & Hd & _).
  rewrite (Hd Hw Hpos), Hv. reflexivity.
Qed.

Lemma scrape_olx_in_order_witness :
  two_pages_records
  = flat_map (fun url => records_of (cards (web world_two_pages url)))
      (page_urls shop_link 2).
Proof.
  apply (scrape_olx_in_order world_two_pages 5 shop_link start two_pages_records
           (snd (scrape_olx world_two_pages 5 shop_link start)) 2).
  - split; [intros url k; now exists jpeg | reflexivity].
  - vm_compute. reflexivity.
  - reflexivity.
  - lia.
Defined.

Lemma failed_attempts_no_error_line w url retries delay n : forall req a,
  List.filter is_error_line (failed_attempts w url retries delay req a n) = [].
Proof.
  induction n as [|n IH]; intros req a; simpl; [reflexivity|]. rewrite IH.
  unfold complaint. destruct (http_get w url req); reflexivity.
Qed.

(** [download_image] when every attempt fails. *)
Lemma download_image_exhausted w image_url filename retries delay s :
  (forall k, (k < retries)%nat -> failed (http_get w image_url (requests s + k))) ->
  download_image w image_url filename retries delay s
  = (Done false,
     advance s (files s) retries (failed_attempts w image_url retries delay (requests s) 0 retries)).
Proof.
  intros Hfail.
  pose proof (download_image_run w image_url filename retries delay s) as H.
  destruct (download_image w image_url filename retries delay s) as [r s'].
  cbn [fst snd] in H.
  inversion H as [_ | m body Hlt Hb Hg Hw | m body Hlt Hb Hg Hw | m body written Hlt Hb Hg Hw
                 | m body Hlt Hb Hg Hw];
    try (exfalso; exact (failed_not_200 _ _ (Hfail m Hlt) Hg)).
  reflexivity.
Qed.

(** X16. A card whose image cannot be downloaded in [RETRIES] attempts
    is dropped without an "Error processing card" line: the list is
    unchanged, no file is touched, and the only console lines are
    those of the failed attempts. *)
Theorem process_card_download_fails w card data s name price text image_url ad_url :
  fields card = Some (name, price, text, image_url, ad_url) ->
  (forall k, (k < RETRIES)%nat -> failed (http_get w image_url (requests s + k))) ->
  let run := process_card w card data s in
  fst run = Done data
  /\ files (snd run) = files s
  /\ requests (snd run) = (requests s + RETRIES)%nat
  /\ List.filter is_error_line (new_events s (snd run)) = []
  /\ In (DownloadReturned false) (new_events s (snd run)).
Proof.
  intros Hf Hfail run. subst run. rewrite process_card_eq, Hf.
  rewrite (download_image_exhausted w image_url (img_filename_of name) RETRIES DELAY
             (log CardEntered s) Hfail).
  cbn [fst snd].
  split; [reflexivity|]. split; [reflexivity|]. split; [reflexivity|].
  unfold new_events.
  change (trace (log (DownloadReturned false)
                   (advance (log CardEntered s) (files (log CardEntered s)) RETRIES
                      (failed_attempts w image_url RETRIES DELAY
                         (requests (log CardEntered s)) 0 RETRIES))))
    with (((trace s ++ [CardEntered])
           ++ failed_attempts w image_url RETRIES DELAY (requests s) 0 RETRIES)
          ++ [DownloadReturned false]).
  rewrite <- !app_assoc, drop_app_length.
  split.
  - now rewrite !List.filter_app, failed_attempts_no_error_line.
  - apply in_or_app. right. apply in_or_app. right. now left.
Qed.

Lemma process_card_download_fails_witness :
  fst (process_card world_404 card_bike [] start) = Done []
  /\ requests (snd (process_card world_404 card_bike [] start)) = 5%nat.
Proof.
  destruct (process_card_download_fails world_404 card_bike [] start
              "red bike" "100" "Kyiv - Today 10:00" "http://img/1.jpg" "http://olx/1")
    as (Hr & _ & Hq & _).
  - reflexivity.
  - intros k _. simpl. discriminate.
  - split; [exact Hr | exact Hq].
Defined.

(** ** The saved sheet *)

(** X17. [save_to_excel] returns exactly when every record has the
    six keys, the sheet accepts the record's texts, the record's image
    file is on disk and decodes, and the workbook is written in full
    under the file name. *)
Theorem save_to_excel_returns_iff w data filename s :
  fst (save_to_excel w data filename s) = Done tt
  <-> Forall complete data /\ Forall printable data /\ Forall (loadable w s) data
      /\ exists archive, workbook_write w filename (saved_sheet data) = SaveOk archive.
Proof.
  split.
  - intros H.
    destruct (save_to_excel_done w data filename s H) as (Hc & Hp & Hl & archive & Hs & _).
    repeat (split; [assumption|]). now exists archive.
  - intros (Hc & Hp & Hl & archive & Hs).
    destruct (save_to_excel_cases w data filename s) as [(_ & _ & _ & E) | (Hno & _)];
      [|exfalso; apply Hno; now repeat split].
    now rewrite E, Hs.
Qed.

(** X18. When [save_to_excel] does not return, it has raised, and no
    file but the target has changed.  Either nothing at all has
    changed, or the records were all acceptable and saving the
    workbook broke off after the target was opened: then the
    exception is [OSError], the target holds what the save has left,
    no workbook counts as saved under that name, and nothing is
    printed. *)
Theorem save_to_excel_failure_effects w data filename s :
  let run := save_to_excel w data filename s in
  fst run <> Done tt ->
  (exists e, fst run = Raised e)
  /\ (forall path, path <> filename -> files (snd run) !! path = files s !! path)
  /\ (snd run = s
      \/ exists partial,
           Forall complete data /\ Forall printable data /\ Forall (loadable w s) data
           /\ workbook_write w filename (saved_sheet data) = SaveBreaksOff partial
           /\ fst run = Raised OSError
           /\ files (snd run) = <[filename := partial]> (files s)
           /\ workbooks (snd run) = delete filename (workbooks s)
           /\ new_events s (snd run) = [FileOpened filename]).
Proof.
  intros run H. subst run.
  destruct (save_to_excel_cases w data filename s) as [(Hc & Hp & Hl & E) | (_ & e & E)];
    rewrite E in H |- *.
  - destruct (workbook_write w filename (saved_sheet data)) as [archive| | |partial] eqn:Hs;
      cbn [fst snd] in H |- *.
    + now contradict H.
    + split; [eauto|]. split; [reflexivity | now left].
    + split; [eauto|]. split; [reflexivity | now left].
    + split; [eauto|]. split; [intros path Hne; simpl; now rewrite lookup_insert_ne|].
      right. exists partial. repeat (split; [first [assumption | reflexivity]|]).
      unfold new_events. simpl. now rewrite drop_app_length.
  - cbn [fst snd]. split; [eauto|]. split; [reflexivity | now left].
Qed.

Lemma save_to_excel_failure_effects_witness :
  let run := save_to_excel world_save_breaks shop_records "ad_data_with_images.xlsx" downloaded in
  fst run = Raised OSError
  /\ files (snd run) !! "ad_data_with_images.xlsx" = Some [Byte.x50]
  /\ files (snd run) !! "images/red_bike.jpg" = Some jpeg.
Proof.
  cbn zeta.
  destruct (save_to_excel_failure_effects world_save_breaks shop_records
              "ad_data_with_images.xlsx" downloaded) as (_ & Hothers & Hstate).
  - vm_compute. discriminate.
  - split; [vm_compute; reflexivity|]. split.
    + destruct Hstate as [Hs | (partial & _ & _ & _ & Hw & _ & Hf & _)].
      * vm_compute in Hs. discriminate Hs.
      * rewrite Hf. injection Hw as <-. apply lookup_insert_eq.
    + rewrite Hothers by discriminate. reflexivity.
Defined.

(** X19. In the workbook [save_to_excel] saves, the sheet is called
    "Ad Data" and holds one picture per record: the record's image
    file, 215 by 152, anchored in column E of the record's row, whose
    height is set to 152. *)
Theorem save_to_excel_pictures w data filename s :
  fst (save_to_excel w data filename s) = Done tt ->
  exists ws,
    workbooks (snd (save_to_excel w data filename s)) !! filename = Some ws
    /\ title ws = "Ad Data"
    /\ length (images ws) = length data
    /\ length (row_dimensions ws) = length data
    /\ forall i entry,
         data !! i = Some entry ->
         exists image_file,
           getitem entry "Image File" = Some image_file
           /\ images ws !! i
              = Some {| ref := image_file; anchor := "E" ++ pretty (i + 2)%nat;
                        width := 215; height := 152 |}
           /\ row_dimensions ws !! i = Some ((i + 2)%nat, 152%Z).
Proof.
  intros H.
  destruct (save_to_excel_done w data filename s H) as (Hc & _ & Hl & archive & _ & E).
  rewrite E.
  exists (saved_sheet data). split; [simpl; apply lookup_insert_eq|].
  split; [reflexivity|].
  destruct (pictures_length data 2) as (Hp & Hh).
  split; [exact Hp|]. split; [exact Hh|].
  intros i entry Hi.
  rewrite Forall_forall in Hc.
  destruct (Hc entry) as (name & price & location & timeposted & image_file & ad_url
                          & _ & _ & _ & _ & Himage & _).
  { apply list_elem_of_lookup. now exists i. }
  exists image_file. split; [exact Himage|].
  destruct (pictures_lookup data 2 i entry Hi) as (Hpi & Hhi).
  cbn [images row_dimensions saved_sheet set_column_dimensions sheet_of].
  rewrite Hpi, Hhi, Himage. cbn [default from_option id].
  now replace (2 + i)%nat with (i + 2)%nat by lia.
Qed.

Lemma save_to_excel_pictures_witness :
  exists ws,
    workbooks (snd (save_to_excel world_shop shop_records "ad_data_with_images.xlsx" downloaded))
      !! "ad_data_with_images.xlsx" = Some ws
    /\ length (images ws) = 2%nat.
Proof.
  destruct (save_to_excel_pictures world_shop shop_records "ad_data_with_images.xlsx" downloaded)
    as (ws & Hws & _ & Hlen & _).
  - vm_compute. reflexivity.
  - exists ws. split; [exact Hws | exact Hlen].
Defined.

Lemma foldr_max_ge (l : list nat) x : In x l -> (x <= foldr Nat.max 0 l)%nat.
Proof.
  induction l as [|y l IH]; intros H; [contradiction|]. simpl.
  destruct H as [-> | H]; [lia | specialize (IH H); lia].
Qed.

Lemma column_width_ge ws j row cell :
  In row (rows ws) -> row !! j = Some cell ->
  (Z.of_nat (len cell) + 2 <= column_width ws j)%Z.
Proof.
  intros Hrow Hcell. unfold column_width.
  assert (Hin : In (len cell) (map (fun row => len (nth j row "")) (rows ws))).
  { apply in_map_iff. exists row. split; [|exact Hrow].
    now rewrite (nth_lookup_Some _ _ "" _ Hcell). }
  pose proof (foldr_max_ge _ _ Hin). lia.
Qed.

(** X20. In the workbook [save_to_excel] saves, the columns A to F
    are given a width each, and the width of a column is at least the
    length of every cell of that column, the header included, plus
    2. *)
Theorem save_to_excel_column_widths w data filename s :
  fst (save_to_excel w data filename s) = Done tt ->
  exists ws,
    workbooks (snd (save_to_excel w data filename s)) !! filename = Some ws
    /\ map fst (column_dimensions ws) = ["A"; "B"; "C"; "D"; "E"; "F"]
    /\ forall j letter width row cell,
         column_dimensions ws !! j = Some (letter, width) ->
         In row (rows ws) -> row !! j = Some cell ->
         (Z.of_nat (len cell) + 2 <= width)%Z.
Proof.
  intros H.
  destruct (save_to_excel_done w data filename s H) as (Hc & _ & Hl & archive & _ & E).
  rewrite E.
  exists (saved_sheet data). split; [simpl; apply lookup_insert_eq|].
  split; [reflexivity|].
  intros j letter width row cell Hj Hrow Hcell.
  change (rows (saved_sheet data)) with (rows (sheet_of data)) in Hrow.
  assert (Hw : width = column_width (sheet_of data) j).
  { unfold saved_sheet in Hj. cbn [column_dimensions set_column_dimensions] in Hj.
    destruct j as [|[|[|[|[|[|j]]]]]]; cbn in Hj; try discriminate Hj;
      injection Hj as _ <-; reflexivity. }
  rewrite Hw. now apply (column_width_ge (sheet_of data) j row cell).
Qed.

Lemma save_to_excel_column_widths_witness :
  exists ws,
    workbooks (snd (save_to_excel world_shop shop_records "ad_data_with_images.xlsx" downloaded))
      !! "ad_data_with_images.xlsx" = Some ws
    /\ map fst (column_dimensions ws) = ["A"; "B"; "C"; "D"; "E"; "F"].
Proof.
  destruct (save_to_excel_column_widths world_shop shop_records "ad_data_with_images.xlsx"
              downloaded) as (ws & Hws & Hcols & _).
  - vm_compute. reflexivity.
  - exists ws. split; [exact Hws | exact Hcols].
Defined.

(** ** main, end to end *)

(** X21. Once the driver has started, [main] quits it as its last
    step however scraping and exporting end, and hands on their
    result or exception unchanged; if the driver does not start,
    nothing is scraped and nothing is quit. *)
Theorem main_quits_driver w fuel s link s1 :
  get_user_input s = (Done link, s1) ->
  let work := (data <- scrape_olx w fuel link ;;
               save_to_excel w data "ad_data_with_images.xlsx") (log DriverStarted s1) in
  (edge_starts w = true -> fst work <> Hung ->
   main w fuel s = (fst work, log DriverQuit (snd work)))
  /\ (edge_starts w = false -> main w fuel s = (Raised WebDriverException, s1)).
Proof.
  intros Hin work. rewrite main_eq, Hin. split.
  - intros -> Hwork. now apply try_finally_quit.
  - intros ->. reflexivity.
Qed.

Lemma main_quits_driver_witness :
  main world_404 1 typed
  = (Raised TimeoutException,
     log DriverQuit
       (snd ((data <- scrape_olx world_404 1 shop_link ;;
              save_to_excel world_404 data "ad_data_with_images.xlsx")
               (log DriverStarted (snd (get_user_input typed)))))).
Proof.
  destruct (main_quits_driver world_404 1 typed shop_link (snd (get_user_input typed)) eq_refl)
    as (H & _).
  rewrite H; [reflexivity | reflexivity | discriminate].
Defined.

Lemma get_user_input_adds s : adds s (snd (get_user_input s)) [].
Proof.
  unfold get_user_input, bind, input, ret.
  destruct (stdin s) as [|phrase [|answer rest]]; simpl.
  - exists [Prompt "Enter search phrase and press 'Enter': "]. now split.
  - exists [Prompt "Enter search phrase and press 'Enter': ";
            Prompt "Specify city? Enter 'Y' or 'N': "]. simpl.
    split; [now rewrite <- app_assoc | reflexivity].
  - destruct (String.eqb (lower answer) "y"); simpl.
    + destruct rest as [|city rest]; simpl;
        (exists [Prompt "Enter search phrase and press 'Enter': ";
                 Prompt "Specify city? Enter 'Y' or 'N': ";
                 Prompt "Enter city name (optional): "]); simpl;
        (split; [now rewrite <- !app_assoc | reflexivity]).
    + exists [Prompt "Enter search phrase and press 'Enter': ";
              Prompt "Specify city? Enter 'Y' or 'N': "]. simpl.
      split; [now rewrite <- app_assoc | reflexivity].
Qed.

(** X22. When [main] returns, the workbook ad_data_with_images.xlsx
    has been saved with the header row and one row for every call of
    [download_image] that returned [True] during the run, and the
    driver has been quit. *)
Theorem main_rows w fuel s :
  fst (main w fuel s) = Done tt ->
  exists ws,
    workbooks (snd (main w fuel s)) !! "ad_data_with_images.xlsx" = Some ws
    /\ length (rows ws) = S (downloads_ok (new_events s (snd (main w fuel s))))
    /\ rows ws !! 0%nat = Some headers
    /\ last (trace (snd (main w fuel s))) = Some DriverQuit.
Proof.
  intros H.
  pose proof (get_user_input_adds s) as Ha1.
  rewrite main_eq in H |- *.
  destruct (get_user_input s) as [[link|e|] s1]; [| discriminate H | discriminate H].
  simpl in Ha1.
  destruct (edge_starts w); [| discriminate H].
  set (s2 := log DriverStarted s1) in *.
  assert (Ha2 : adds s s2 []).
  { apply (adds_trans s s1 s2 [] []); [exact Ha1|]. exists [DriverStarted]. now split. }
  destruct (scrape_olx_run w fuel link s2) as (m & r & s3 & E & Ha3 & Hr).
  assert (Hwork : (data <- scrape_olx w fuel link ;;
                   save_to_excel w data "ad_data_with_images.xlsx") s2
                  = match r with
                    | Done data => save_to_excel w data "ad_data_with_images.xlsx" s3
                    | Raised e => (Raised e, s3)
                    | Hung => (Hung, s3)
                    end).
  { unfold bind. rewrite E. now destruct r. }
  assert (Hfin : forall c : M unit,
             fst (try_finally c driver_quit s2) = Done tt -> fst (c s2) = Done tt).
  { intros c. unfold try_finally, driver_quit, emit.
    destruct (c s2) as [[[]|e|] s4]; simpl; congruence. }
  apply Hfin in H.
  rewrite try_finally_quit by (rewrite H; discriminate).
  rewrite Hwork in H |- *.
  destruct Hr as [(e & ->) | [-> | (data & -> & Hd & _)]]; try discriminate H.
  destruct (save_to_excel_done w data "ad_data_with_images.xlsx" s3 H)
    as (Hc & _ & Hl & archive & _ & Es).
  rewrite Es.
  exists (saved_sheet data). cbn [snd].
  split; [simpl; apply lookup_insert_eq|].
  split.
  { rewrite (adds_downloads_ok s _ (Navigate link :: m)).
    - simpl. now rewrite length_map, Hd.
    - rewrite <- (app_nil_r (Navigate link :: m)).
      apply (adds_trans s s3 _ (Navigate link :: m) []).
      + now apply (adds_trans s s2 s3 [] (Navigate link :: m)).
      + exists [WorkbookSaved "ad_data_with_images.xlsx";
                Print (DataSavedTo "ad_data_with_images.xlsx"); DriverQuit].
        simpl. split; [now rewrite <- !app_assoc | reflexivity]. }
  split; [reflexivity|]. simpl. apply last_snoc.
Qed.

Lemma main_rows_witness :
  exists ws,
    workbooks (snd (main world_shop 1 typed)) !! "ad_data_with_images.xlsx" = Some ws
    /\ length (rows ws) = 3%nat.
Proof.
  destruct (main_rows world_shop 1 typed) as (ws & Hws & Hlen & _).
  - vm_compute. reflexivity.
  - exists ws. split; [exact Hws|]. rewrite Hlen. vm_compute. reflexivity.
Defined.
